(** * kimi-writer: the workflow tools, the broadcast hub and folder names

    A shallow embedding of the Python backend of the novel-writing system:
    - [backend/config.py]: the [Phase] enumeration and [AgentConfig];
    - [backend/tools/write_critique_tools.py]: [critique_chapter],
      [approve_chapter], [request_revision];
    - [backend/tools/writing_tools.py]: [get_chapter_context],
      [finalize_chapter];
    - [backend/tools/writer.py]: [write_file];
    - [backend/websocket_manager.py]: [connect], [disconnect], [broadcast];
    - [backend/tools/project.py]: [sanitize_folder_name].

    Tool handlers run in a state-and-exception monad over a [World] that holds
    what the handlers reach through globals and arguments: the active project
    folder, the file system, the clock, the [NovelState] object passed as
    [state] (mutated in place, so a raised exception keeps earlier writes to
    it), and the persisted snapshot. *)

From Stdlib Require Import ZArith NArith Ascii String List Lia.
From stdpp Require Import base option list gmap strings pretty fin_maps sets.

#[local] Set Warnings "-clear-no-such-hyp".

Local Open Scope Z_scope.
Local Open Scope string_scope.

(** ** Python values and dictionaries *)

(** The values that occur in tool results and broadcast messages. A [dict]
    keeps insertion order, so it is an association list with unique keys. *)
#[warnings="-register-all"] Inductive Val : Type :=
| VNone
| VBool (b : bool)
| VInt (z : Z)
| VStr (s : string)
| VDict (d : list (string * Val)).

Definition Dict : Type := list (string * Val).

(** [d.get(k)] *)
Fixpoint dict_get (k : string) (d : Dict) : option Val :=
  match d with
  | [] => None
  | (k', v) :: d' => if String.eqb k k' then Some v else dict_get k d'
  end.

(** [k in d] *)
Definition dict_mem (k : string) (d : Dict) : bool :=
  match dict_get k d with Some _ => true | None => false end.

(** [d[k] = v]: an existing key keeps its position, a new one goes last. *)
Fixpoint dict_set (k : string) (v : Val) (d : Dict) : Dict :=
  match d with
  | [] => [(k, v)]
  | (k', v') :: d' =>
      if String.eqb k k' then (k, v) :: d' else (k', v') :: dict_set k v d'
  end.

(** ** Text helpers *)

Module Py.

(** [s.startswith(p)] *)
Definition startswith (s p : string) : bool := String.prefix p s.

(** [s.endswith(p)] *)
Definition endswith (s p : string) : bool :=
  let n := String.length s in
  let m := String.length p in
  if (n <? m)%nat then false
  else String.eqb (String.substring (n - m) m s) p.

(** [bool(s)] for a string. *)
Definition truthy (s : string) : bool := negb (String.eqb s "").

(** [f"{n}"] for an integer. *)
Definition str_int (n : Z) : string := pretty n.

(** [f"{n:02d}"]: sign-aware zero padding to width two. *)
Definition format_02d (n : Z) : string :=
  if (n <? 0)%Z then "-" +:+ pretty (Z.abs n)
  else if (n <? 10)%Z then "0" +:+ pretty n
  else pretty n.

(** [len(s)] *)
Definition len (s : string) : Z := Z.of_nat (String.length s).

End Py.

(** [os.path] on POSIX. *)
Module OsPath.

(** [posixpath.join(a, b)] *)
Definition join (a b : string) : string :=
  if Py.startswith b "/" then b
  else if negb (Py.truthy a) || Py.endswith a "/" then a +:+ b
  else a +:+ "/" +:+ b.

(** [p[:p.rfind('/') + 1]], [None] standing for the empty head of a path
    without separator. *)
Fixpoint head_upto_sep (p : string) : option string :=
  match p with
  | EmptyString => None
  | String c r =>
      match head_upto_sep r with
      | Some h => Some (String c h)
      | None => if Ascii.eqb c "/" then Some (String c EmptyString) else None
      end
  end.

Fixpoint all_sep (p : string) : bool :=
  match p with
  | EmptyString => true
  | String c r => Ascii.eqb c "/" && all_sep r
  end.

(** [s.rstrip('/')] *)
Fixpoint rstrip_sep (p : string) : string :=
  match p with
  | EmptyString => EmptyString
  | String c r =>
      match rstrip_sep r with
      | EmptyString => if Ascii.eqb c "/" then EmptyString else String c EmptyString
      | r' => String c r'
      end
  end.

(** [posixpath.dirname(p)] *)
Definition dirname (p : string) : string :=
  let head := default "" (head_upto_sep p) in
  if Py.truthy head && negb (all_sep head) then rstrip_sep head else head.

End OsPath.

(** ** Configuration ([backend/config.py]) *)

Inductive Phase : Type :=
| PLANNING
| PLAN_CRITIQUE
| WRITING
| WRITE_CRITIQUE
| COMPLETE.

Global Instance Phase_eq_dec : EqDecision Phase.
Proof. solve_decision. Defined.

(** [Phase] is a [str] enumeration: the value of a member. *)
Definition Phase_value (p : Phase) : string :=
  match p with
  | PLANNING => "PLANNING"
  | PLAN_CRITIQUE => "PLAN_CRITIQUE"
  | WRITING => "WRITING"
  | WRITE_CRITIQUE => "WRITE_CRITIQUE"
  | COMPLETE => "COMPLETE"
  end.

Record AgentConfig : Type := {
  max_plan_critique_iterations : Z;
  max_write_critique_iterations : Z
}.

(** The [Field(default=2, ge=1, le=10)] constraints pydantic enforces. *)
Definition AgentConfig_valid (c : AgentConfig) : Prop :=
  1 <= max_plan_critique_iterations c <= 10 /\
  1 <= max_write_critique_iterations c <= 10.

Definition AgentConfig_default : AgentConfig :=
  {| max_plan_critique_iterations := 2; max_write_critique_iterations := 2 |}.

(** ** Exceptions *)

Inductive Exn : Type :=
| StateConflictError (from to : Phase)
| PersistenceError
| OSError (path : string)
| AttributeError
| ConnectionError (ws : positive).

(** [str(e)]. The texts are not fixed by the sources; no statement below
    depends on them. *)
Definition str_exn (e : Exn) : string :=
  match e with
  | StateConflictError from to =>
      "Invalid phase transition: " +:+ Phase_value from +:+ " -> " +:+ Phase_value to
  | PersistenceError => "Failed to save state"
  | OSError path => "[Errno] " +:+ path
  | AttributeError => "'NoneType' object has no attribute"
  | ConnectionError _ => "WebSocket send failed"
  end.

(** ** The state-and-exception monad *)

Inductive Result (A : Type) : Type :=
| Ok (a : A)
| Raise (e : Exn).
Arguments Ok {A} a.
Arguments Raise {A} e.

Definition M (S A : Type) : Type := S -> Result A * S.

Definition ret {S A} (a : A) : M S A := fun s => (Ok a, s).

Definition bind {S A B} (m : M S A) (k : A -> M S B) : M S B :=
  fun s =>
    match m s with
    | (Ok a, s') => k a s'
    | (Raise e, s') => (Raise e, s')
    end.

Definition raise {S A} (e : Exn) : M S A := fun s => (Raise e, s).

(** [try: m  except Exception as e: h e]; the state written before the
    exception is what the handler sees. *)
Definition try_except {S A} (m : M S A) (h : Exn -> M S A) : M S A :=
  fun s =>
    match m s with
    | (Ok a, s') => (Ok a, s')
    | (Raise e, s') => h e s'
    end.

Definition gets {S A} (f : S -> A) : M S A := fun s => (Ok (f s), s).
Definition modify {S} (f : S -> S) : M S unit := fun s => (Ok tt, f s).

Declare Scope py_scope.
Delimit Scope py_scope with py.
Notation "x <- m ;; k" := (bind m (fun x => k))
  (at level 100, m at next level, right associativity) : py_scope.
Notation "m ;;; k" := (bind m (fun _ => k))
  (at level 100, right associativity) : py_scope.
Local Open Scope py_scope.

(** ** The workflow state ([backend/state_manager.py]) *)

(** Modelled from the spec: the [NovelState] class of
    [backend/state_manager.py] is missing from the sources; the fields are
    those of the spec's WorkflowState under the names the tool handlers use
    ([chapters_completed] and [chapters_approved] are lists the handlers
    [append] to, [chapter_critique_iterations] and [plan_files_created] are
    dicts). *)
Record NovelState : Type := {
  phase : Phase;
  current_chapter : Z;
  total_chapters : Z;
  chapters_completed : list Z;
  chapters_approved : list Z;
  chapter_critique_iterations : gmap Z Z;
  plan_files_created : gmap string bool
}.

Definition set_phase (p : Phase) (st : NovelState) : NovelState :=
  {| phase := p;
     current_chapter := current_chapter st;
     total_chapters := total_chapters st;
     chapters_completed := chapters_completed st;
     chapters_approved := chapters_approved st;
     chapter_critique_iterations := chapter_critique_iterations st;
     plan_files_created := plan_files_created st |}.

Definition set_current_chapter (n : Z) (st : NovelState) : NovelState :=
  {| phase := phase st;
     current_chapter := n;
     total_chapters := total_chapters st;
     chapters_completed := chapters_completed st;
     chapters_approved := chapters_approved st;
     chapter_critique_iterations := chapter_critique_iterations st;
     plan_files_created := plan_files_created st |}.

Definition set_chapters_completed (l : list Z) (st : NovelState) : NovelState :=
  {| phase := phase st;
     current_chapter := current_chapter st;
     total_chapters := total_chapters st;
     chapters_completed := l;
     chapters_approved := chapters_approved st;
     chapter_critique_iterations := chapter_critique_iterations st;
     plan_files_created := plan_files_created st |}.

Definition set_chapters_approved (l : list Z) (st : NovelState) : NovelState :=
  {| phase := phase st;
     current_chapter := current_chapter st;
     total_chapters := total_chapters st;
     chapters_completed := chapters_completed st;
     chapters_approved := l;
     chapter_critique_iterations := chapter_critique_iterations st;
     plan_files_created := plan_files_created st |}.

Definition set_chapter_critique_iterations (m : gmap Z Z) (st : NovelState)
  : NovelState :=
  {| phase := phase st;
     current_chapter := current_chapter st;
     total_chapters := total_chapters st;
     chapters_completed := chapters_completed st;
     chapters_approved := chapters_approved st;
     chapter_critique_iterations := m;
     plan_files_created := plan_files_created st |}.

Definition set_plan_files_created (m : gmap string bool) (st : NovelState)
  : NovelState :=
  {| phase := phase st;
     current_chapter := current_chapter st;
     total_chapters := total_chapters st;
     chapters_completed := chapters_completed st;
     chapters_approved := chapters_approved st;
     chapter_critique_iterations := chapter_critique_iterations st;
     plan_files_created := m |}.

(** [x in l] on a list of integers. *)
Definition contains (x : Z) (l : list Z) : bool := bool_decide (x ∈ l).

(** [if x not in l: l.append(x)] *)
Definition append_if_absent (x : Z) (l : list Z) : list Z :=
  if contains x l then l else l ++ [x].

(** [d.get(k, 0)] on the iteration counters. *)
Definition iterations_get (st : NovelState) (chapter_number : Z) : Z :=
  default 0 (chapter_critique_iterations st !! chapter_number).

(** ** The world the handlers run in *)

Record World : Type := {
  (** [_active_project_folder] of [backend/tools/project.py] *)
  active_project_folder : option string;
  (** regular files, by path, with their text *)
  files : gmap string string;
  (** directories, by path *)
  dirs : gset string;
  (** the paths at which creating or writing raises [OSError] *)
  io_fault : string -> bool;
  (** the text [datetime.now().strftime(...)] yields *)
  now : string;
  (** [os.path.relpath] of the host *)
  os_relpath : string -> string -> string;
  (** the object bound to the handlers' [state] argument, [None] when a tool
      is called without one *)
  state : option NovelState;
  (** the snapshot last written by [save_state] *)
  saved : option NovelState;
  (** the outcomes of the coming snapshot writes ([false]: the write fails);
      when exhausted, writes succeed *)
  save_script : list bool
}.

Definition set_files (f : gmap string string) (w : World) : World :=
  {| active_project_folder := active_project_folder w; files := f;
     dirs := dirs w; io_fault := io_fault w; now := now w;
     os_relpath := os_relpath w; state := state w; saved := saved w;
     save_script := save_script w |}.

Definition set_dirs (d : gset string) (w : World) : World :=
  {| active_project_folder := active_project_folder w; files := files w;
     dirs := d; io_fault := io_fault w; now := now w;
     os_relpath := os_relpath w; state := state w; saved := saved w;
     save_script := save_script w |}.

Definition set_state (st : option NovelState) (w : World) : World :=
  {| active_project_folder := active_project_folder w; files := files w;
     dirs := dirs w; io_fault := io_fault w; now := now w;
     os_relpath := os_relpath w; state := st; saved := saved w;
     save_script := save_script w |}.

Definition set_saved (st : option NovelState) (script : list bool) (w : World)
  : World :=
  {| active_project_folder := active_project_folder w; files := files w;
     dirs := dirs w; io_fault := io_fault w; now := now w;
     os_relpath := os_relpath w; state := state w; saved := st;
     save_script := script |}.

Definition Tool (A : Type) : Type := M World A.

(** [get_active_project_folder()]; the callers test the result for truth, so
    [None] and the empty string are both "no folder". *)
Definition get_active_project_folder : Tool (option string) :=
  gets active_project_folder.

Definition folder_truthy (f : option string) : bool :=
  match f with Some s => Py.truthy s | None => false end.

Definition folder_path (f : option string) : string := default "" f.

(** [os.path.exists(p)]: a file or a directory is there. *)
Definition exists_at (w : World) (p : string) : bool :=
  bool_decide (is_Some (files w !! p)) || bool_decide (p ∈ dirs w).

Definition path_exists (p : string) : Tool bool :=
  gets (fun w => exists_at w p).

(** [os.makedirs(d, exist_ok=True)]. The directory tree is kept as the set of
    directory paths; the call records [d] or raises. *)
Definition makedirs (d : string) : Tool unit :=
  fun w =>
    if io_fault w d then (Raise (OSError d), w)
    else (Ok tt, set_dirs ({[ d ]} ∪ dirs w) w).

(** [with open(p, 'w', encoding='utf-8') as f: f.write(...)], the writes of
    one [with] block taken together. *)
Definition write_text (p : string) (text : string) : Tool unit :=
  fun w =>
    if io_fault w p then (Raise (OSError p), w)
    else (Ok tt, set_files (<[ p := text ]> (files w)) w).

(** [with open(p, 'a', encoding='utf-8') as f: f.write(text)] *)
Definition append_text (p : string) (text : string) : Tool unit :=
  fun w =>
    if io_fault w p then (Raise (OSError p), w)
    else (Ok tt, set_files (<[ p := default "" (files w !! p) +:+ text ]> (files w)) w).

(** [with open(p, 'r', encoding='utf-8') as f: f.read()] *)
Definition read_text (p : string) : Tool string :=
  fun w =>
    match files w !! p with
    | Some text => (Ok text, w)
    | None => (Raise (OSError p), w)
    end.

(** Modelled from the spec: the table of allowed edges of the workflow
    state machine, by source and target phase; the sources hold no such
    table. *)
Definition allowed_edge (from to : Phase) : bool :=
  match from, to with
  | PLANNING, PLAN_CRITIQUE => true
  | PLAN_CRITIQUE, WRITING => true
  | PLAN_CRITIQUE, PLANNING => true
  | WRITING, WRITE_CRITIQUE => true
  | WRITE_CRITIQUE, WRITING => true
  | WRITE_CRITIQUE, COMPLETE => true
  | _, _ => false
  end.

(** [state] as the handlers bind it, and [if state:]. *)
Definition get_state : Tool (option NovelState) := gets state.

Definition state_truthy (st : option NovelState) : bool :=
  match st with Some _ => true | None => false end.

(** [state.f]: reading an attribute; on [None] Python raises
    [AttributeError]. *)
Definition state_attr {A} (f : NovelState -> A) : Tool A :=
  fun w =>
    match state w with
    | Some st => (Ok (f st), w)
    | None => (Raise AttributeError, w)
    end.

(** An in-place mutation of the [state] object. *)
Definition state_update (f : NovelState -> NovelState) : Tool unit :=
  fun w =>
    match state w with
    | Some st => (Ok tt, set_state (Some (f st)) w)
    | None => (Raise AttributeError, w)
    end.

(** Modelled from the spec: [update_phase] of [backend/state_manager.py] is
    missing from the sources. It applies a transition all-or-nothing: the edge
    from the stored phase to [new_phase] is validated against the table, an
    edge outside it raises [StateConflictError] with nothing mutated, an edge
    of the table sets the phase. *)
Definition update_phase (new_phase : Phase) : Tool unit :=
  from <- state_attr phase ;;
  if allowed_edge from new_phase
  then state_update (set_phase new_phase)
  else raise (StateConflictError from new_phase).

(** Modelled from the spec: [increment_chapter] of
    [backend/state_manager.py] is missing from the sources; it advances
    [current_chapter] by one. *)
Definition increment_chapter : Tool unit :=
  state_update (fun st => set_current_chapter (current_chapter st + 1) st).

(** Modelled from the spec: [save_state] of [backend/state_manager.py] is
    missing from the sources. It is one attempt to rewrite the persisted
    snapshot wholesale from the in-memory state: the attempt takes the next
    outcome of [save_script]; a failed attempt raises [PersistenceError] and
    leaves the snapshot as it was. The in-memory state is never touched. *)
Definition save_state : Tool unit :=
  fun w =>
    match save_script w with
    | false :: rest => (Raise PersistenceError, set_saved (saved w) rest w)
    | true :: rest => (Ok tt, set_saved (state w) rest w)
    | [] => (Ok tt, set_saved (state w) [] w)
    end.

(** ** Tool results *)

Definition nl : string := String (Ascii.ascii_of_nat 10) EmptyString.

Definition no_project_folder : Dict :=
  [("success", VBool false);
   ("message", VStr "Error: No active project folder.")].

Definition failure (message : string) : Dict :=
  [("success", VBool false); ("message", VStr message)].

(** ** [backend/tools/write_critique_tools.py] *)

Module CritiqueChapterTool.

Definition name : string := "critique_chapter".

Definition execute (chapter_number : Z) (critique_text : string) : Tool Dict :=
  project_folder <- get_active_project_folder ;;
  if negb (folder_truthy project_folder) then ret no_project_folder
  else
    (* Determine critique version *)
    state0 <- get_state ;;
    version <-
      (if state_truthy state0 then
         iterations <- state_attr chapter_critique_iterations ;;
         match iterations !! chapter_number with
         | Some n =>
             let version := n + 1 in
             state_update (fun st =>
               set_chapter_critique_iterations
                 (<[ chapter_number := version ]> (chapter_critique_iterations st)) st) ;;;
             ret version
         | None =>
             state_update (fun st =>
               set_chapter_critique_iterations
                 (<[ chapter_number := 1 ]> (chapter_critique_iterations st)) st) ;;;
             ret 1
         end
       else ret 1) ;;
    (* Save critique *)
    let critique_dir := OsPath.join (folder_path project_folder) "critiques" in
    makedirs critique_dir ;;;
    let filename :=
      "chapter_" +:+ Py.format_02d chapter_number +:+ "_critique_v"
        +:+ Py.str_int version +:+ ".md" in
    let file_path := OsPath.join critique_dir filename in
    try_except
      (date <- gets now ;;
       write_text file_path
         ("# Chapter " +:+ Py.str_int chapter_number +:+ " Critique - Version "
            +:+ Py.str_int version +:+ nl +:+ nl
            +:+ "**Date:** " +:+ date +:+ nl +:+ nl
            +:+ "---" +:+ nl +:+ nl
            +:+ critique_text +:+ nl) ;;;
       (if state_truthy state0 then save_state else ret tt) ;;;
       ret [("success", VBool true);
            ("message", VStr ("Critique saved for Chapter " +:+ Py.str_int chapter_number
                                +:+ " (version " +:+ Py.str_int version +:+ ")."));
            ("file_path", VStr file_path);
            ("version", VInt version);
            ("chapter_number", VInt chapter_number);
            ("next_step", VStr "Use approve_chapter to accept it or request_revision to send back for improvements")])
      (fun e => ret (failure ("Error saving critique: " +:+ str_exn e))).

End CritiqueChapterTool.

Module ApproveChapterTool.

Definition name : string := "approve_chapter".

Definition execute (chapter_number : Z) (approval_notes : string) : Tool Dict :=
  project_folder <- get_active_project_folder ;;
  if negb (folder_truthy project_folder) then ret no_project_folder
  else
    (* Save approval notes *)
    let approval_dir := OsPath.join (folder_path project_folder) "critiques" in
    makedirs approval_dir ;;;
    let filename := "chapter_" +:+ Py.format_02d chapter_number +:+ "_approval.md" in
    let file_path := OsPath.join approval_dir filename in
    try_except
      (date <- gets now ;;
       write_text file_path
         ("# Chapter " +:+ Py.str_int chapter_number +:+ " Approval" +:+ nl +:+ nl
            +:+ "**Date:** " +:+ date +:+ nl +:+ nl
            +:+ "**Status:** APPROVED" +:+ nl +:+ nl
            +:+ "---" +:+ nl +:+ nl
            +:+ approval_notes +:+ nl) ;;;
       (* Update state *)
       state0 <- get_state ;;
       outcome <-
         (if state_truthy state0 then
            (* Mark chapter as completed and approved *)
            state_update (fun st =>
              set_chapters_completed
                (append_if_absent chapter_number (chapters_completed st)) st) ;;;
            state_update (fun st =>
              set_chapters_approved
                (append_if_absent chapter_number (chapters_approved st)) st) ;;;
            (* Check if novel is complete *)
            approved <- state_attr chapters_approved ;;
            total <- state_attr total_chapters ;;
            outcome <-
              (if (total <=? Z.of_nat (length approved))%Z then
                 update_phase COMPLETE ;;;
                 ret (true, "All chapters complete! Novel generation finished.")
               else
                 (* Move to next chapter *)
                 increment_chapter ;;;
                 update_phase WRITING ;;;
                 current <- state_attr current_chapter ;;
                 ret (false,
                      "Chapter " +:+ Py.str_int chapter_number
                        +:+ " approved. Moving to Chapter " +:+ Py.str_int current +:+ ".")) ;;
            save_state ;;;
            ret outcome
          else ret (false, "")) ;;
       let '(is_complete, next_phase_msg) := outcome in
       ret [("success", VBool true);
            ("message", VStr ("Chapter " +:+ Py.str_int chapter_number +:+ " approved!"));
            ("file_path", VStr file_path);
            ("is_complete", VBool is_complete);
            ("transition",
              VDict [("to_phase", VStr (if is_complete then "COMPLETE" else "WRITING"));
                     ("data", VDict [("chapter_number", VInt chapter_number);
                                     ("approval_notes", VStr approval_notes)])]);
            ("next_phase", VStr next_phase_msg)])
      (fun e => ret (failure ("Error approving chapter: " +:+ str_exn e))).

End ApproveChapterTool.

Module RequestRevisionTool.

Definition name : string := "request_revision".

(** [max_iterations = 2  # Default, should come from config] *)
Definition max_iterations : Z := 2.

Definition execute (chapter_number : Z) (revision_notes : string) : Tool Dict :=
  project_folder <- get_active_project_folder ;;
  if negb (folder_truthy project_folder) then ret no_project_folder
  else
    (* Check iteration limit *)
    state0 <- get_state ;;
    current_iterations <-
      (if state_truthy state0
       then state_attr (fun st => iterations_get st chapter_number)
       else ret 0) ;;
    if state_truthy state0 && (max_iterations <=? current_iterations)%Z then
      ret [("success", VBool false);
           ("message", VStr ("Maximum critique iterations (" +:+ Py.str_int max_iterations
                               +:+ ") reached for Chapter " +:+ Py.str_int chapter_number
                               +:+ ". Auto-approving to prevent infinite loop."));
           ("auto_approve", VBool true)]
    else
      (* Save revision request *)
      let revision_dir := OsPath.join (folder_path project_folder) "critiques" in
      makedirs revision_dir ;;;
      version <-
        (if state_truthy state0
         then state_attr (fun st => iterations_get st chapter_number)
         else ret 0) ;;
      let filename :=
        "chapter_" +:+ Py.format_02d chapter_number +:+ "_revision_request_v"
          +:+ Py.str_int version +:+ ".md" in
      let file_path := OsPath.join revision_dir filename in
      try_except
        (date <- gets now ;;
         write_text file_path
           ("# Chapter " +:+ Py.str_int chapter_number +:+ " Revision Request - Version "
              +:+ Py.str_int version +:+ nl +:+ nl
              +:+ "**Date:** " +:+ date +:+ nl +:+ nl
              +:+ "**Status:** REVISION REQUESTED" +:+ nl +:+ nl
              +:+ "---" +:+ nl +:+ nl
              +:+ revision_notes +:+ nl) ;;;
         (* Update state - transition back to writing *)
         (if state_truthy state0 then update_phase WRITING ;;; save_state else ret tt) ;;;
         ret [("success", VBool true);
              ("message", VStr ("Revision requested for Chapter " +:+ Py.str_int chapter_number
                                  +:+ ". Transitioning back to writing phase."));
              ("file_path", VStr file_path);
              ("transition",
                VDict [("to_phase", VStr "WRITING");
                       ("data", VDict [("chapter_number", VInt chapter_number);
                                       ("revision_notes", VStr revision_notes);
                                       ("iteration", VInt version)])]);
              ("next_phase", VStr ("The Creative Writer will now revise Chapter "
                                     +:+ Py.str_int chapter_number +:+ " based on feedback."))])
        (fun e => ret (failure ("Error requesting revision: " +:+ str_exn e))).

End RequestRevisionTool.

(** ** [backend/tools/writing_tools.py] *)

Module GetChapterContextTool.

Definition name : string := "get_chapter_context".

Definition execute (chapter_number : Z) : Tool Dict :=
  project_folder <- get_active_project_folder ;;
  if negb (folder_truthy project_folder) then ret no_project_folder
  else
    (* Load outline *)
    let outline_path :=
      OsPath.join (OsPath.join (folder_path project_folder) "planning") "outline.md" in
    found <- path_exists outline_path ;;
    if negb found then ret (failure "Outline file not found.")
    else
      try_except
        (outline_content <- read_text outline_path ;;
         (* Update state *)
         state0 <- get_state ;;
         (if state_truthy state0 then
            state_update (set_current_chapter chapter_number) ;;;
            iterations <- state_attr chapter_critique_iterations ;;
            (match iterations !! chapter_number with
             | Some _ => ret tt
             | None =>
                 state_update (fun st =>
                   set_chapter_critique_iterations
                     (<[ chapter_number := 0 ]> (chapter_critique_iterations st)) st)
             end) ;;;
            save_state
          else ret tt) ;;;
         ret [("success", VBool true);
              ("message", VStr ("Context loaded for Chapter " +:+ Py.str_int chapter_number));
              ("content", VStr ("CHAPTER " +:+ Py.str_int chapter_number +:+ " CONTEXT:" +:+ nl +:+ nl
                                  +:+ "Full outline for reference:" +:+ nl
                                  +:+ outline_content +:+ nl +:+ nl
                                  +:+ "NOTE: Focus on the section for Chapter "
                                  +:+ Py.str_int chapter_number +:+ " when writing." +:+ nl));
              ("chapter_number", VInt chapter_number)])
        (fun e => ret (failure ("Error loading context: " +:+ str_exn e))).

End GetChapterContextTool.

Module FinalizeChapterTool.

Definition name : string := "finalize_chapter".

Definition execute (chapter_number : Z) (notes : string) : Tool Dict :=
  project_folder <- get_active_project_folder ;;
  if negb (folder_truthy project_folder) then ret no_project_folder
  else
    (* Verify chapter exists *)
    let filename := "chapter_" +:+ Py.format_02d chapter_number +:+ ".md" in
    let file_path :=
      OsPath.join (OsPath.join (folder_path project_folder) "manuscript") filename in
    found <- path_exists file_path ;;
    if negb found then
      ret (failure ("Chapter " +:+ Py.str_int chapter_number
                      +:+ " not found. Write the chapter first using write_chapter."))
    else
      (* Update state *)
      state0 <- get_state ;;
      (if state_truthy state0 then
         update_phase WRITE_CRITIQUE ;;;
         state_update (set_current_chapter chapter_number) ;;;
         save_state
       else ret tt) ;;;
      ret [("success", VBool true);
           ("message", VStr ("Chapter " +:+ Py.str_int chapter_number
                               +:+ " finalized and submitted for critique."));
           ("transition",
             VDict [("to_phase", VStr "WRITE_CRITIQUE");
                    ("data", VDict [("chapter_number", VInt chapter_number);
                                    ("notes", VStr notes)])]);
           ("next_phase", VStr ("The Chapter Editor will now review Chapter "
                                  +:+ Py.str_int chapter_number +:+ "."))].

End FinalizeChapterTool.

(** ** [backend/tools/writer.py] *)

Module WriteFileTool.

Definition name : string := "write_file".

(** The file the call addresses: the name gets the [.md] suffix when it
    lacks it and is joined to the project folder. *)
Definition md_name (filename : string) : string :=
  if negb (Py.endswith filename ".md") then filename +:+ ".md" else filename.

Definition target (project_folder filename : string) : string :=
  OsPath.join project_folder (md_name filename).

Definition written (message file_path filename operation : string) : Dict :=
  [("success", VBool true);
   ("message", VStr message);
   ("file_path", VStr file_path);
   ("filename", VStr filename);
   ("operation", VStr operation)].

(** A [return] inside the mode dispatch leaves the handler at once
    ([inl]); otherwise the dispatch binds [result] ([inr]). *)
Definition execute (filename content mode : string) : Tool Dict :=
  (* Check if project folder is initialized *)
  project_folder <- get_active_project_folder ;;
  if negb (folder_truthy project_folder) then
    ret (failure "Error: No active project folder. Please create a project first using create_project.")
  else
    (* Ensure filename ends with .md *)
    let filename := md_name filename in
    (* Create full file path *)
    let file_path := OsPath.join (folder_path project_folder) filename in
    try_except
      (step <-
         (if String.eqb mode "create" then
            (* Create mode: fail if file exists *)
            found <- path_exists file_path ;;
            if found then
              ret (inl (failure ("Error: File '" +:+ filename
                                   +:+ "' already exists. Use 'append' or 'overwrite' mode to modify it.")))
            else
              (* Ensure parent directory exists *)
              makedirs (OsPath.dirname file_path) ;;;
              write_text file_path content ;;;
              ret (inr (written ("Successfully created file '" +:+ filename +:+ "' with "
                                   +:+ Py.str_int (Py.len content) +:+ " characters.")
                          file_path filename "create"))
          else if String.eqb mode "append" then
            (* Append mode: add to end of file *)
            append_text file_path content ;;;
            ret (inr (written ("Successfully appended " +:+ Py.str_int (Py.len content)
                                 +:+ " characters to '" +:+ filename +:+ "'.")
                        file_path filename "append"))
          else if String.eqb mode "overwrite" then
            (* Overwrite mode: replace entire file *)
            makedirs (OsPath.dirname file_path) ;;;
            write_text file_path content ;;;
            ret (inr (written ("Successfully overwrote '" +:+ filename +:+ "' with "
                                 +:+ Py.str_int (Py.len content) +:+ " characters.")
                        file_path filename "overwrite"))
          else
            ret (inl (failure ("Error: Invalid mode '" +:+ mode
                                 +:+ "'. Use 'create', 'append', or 'overwrite'.")))) ;;
       match step with
       | inl returned => ret returned
       | inr result =>
           (* Update state if provided *)
           state0 <- get_state ;;
           (if state_truthy state0 && String.eqb mode "create" then
              (* Track created files in state *)
              relpath <- gets os_relpath ;;
              let relative_path := relpath file_path (folder_path project_folder) in
              state_update (fun st =>
                set_plan_files_created
                  (<[ relative_path := true ]> (plan_files_created st)) st) ;;;
              save_state
            else ret tt) ;;;
           ret result
       end)
      (fun e => ret (failure ("Error writing file '" +:+ filename +:+ "': " +:+ str_exn e))).

End WriteFileTool.

(** ** Dispatch ([ToolRegistry.execute]) *)

(** A call of one of the handlers that take the [state] object. *)
Inductive ToolCall : Type :=
| critique_chapter (chapter_number : Z) (critique_text : string)
| approve_chapter (chapter_number : Z) (approval_notes : string)
| request_revision (chapter_number : Z) (revision_notes : string)
| get_chapter_context (chapter_number : Z)
| finalize_chapter (chapter_number : Z) (notes : string)
| write_file (filename content mode : string).

Definition execute (c : ToolCall) : Tool Dict :=
  match c with
  | critique_chapter n text => CritiqueChapterTool.execute n text
  | approve_chapter n notes => ApproveChapterTool.execute n notes
  | request_revision n notes => RequestRevisionTool.execute n notes
  | get_chapter_context n => GetChapterContextTool.execute n
  | finalize_chapter n notes => FinalizeChapterTool.execute n notes
  | write_file filename content mode => WriteFileTool.execute filename content mode
  end.

(** The calls of a list, one after the other, on the same world; an
    exception that leaves a handler is handed to the caller. *)
Fixpoint execute_all (cs : list ToolCall) : Tool (list Dict) :=
  match cs with
  | [] => ret []
  | c :: cs' =>
      r <- execute c ;;
      rs <- execute_all cs' ;;
      ret (r :: rs)
  end.

(** ** [backend/websocket_manager.py] *)

Module WebSocketManager.

(** The manager with the part of the outside it talks to. A websocket object
    is known by its identity. [send_text] on a websocket of [broken] raises;
    on any other it hands the message over, which [delivered] records in
    order. *)
Record Hub : Type := {
  (** [self.connections]: project id to the set of its websockets *)
  connections : gmap string (gset positive);
  broken : gset positive;
  delivered : list (positive * Dict);
  (** the text [datetime.now().isoformat()] yields *)
  clock : string
}.

Definition set_connections (c : gmap string (gset positive)) (h : Hub) : Hub :=
  {| connections := c; broken := broken h; delivered := delivered h;
     clock := clock h |}.

Definition set_delivered (d : list (positive * Dict)) (h : Hub) : Hub :=
  {| connections := connections h; broken := broken h; delivered := d;
     clock := clock h |}.

(** [websocket.send_text(json.dumps(message))]; the message stands for its
    JSON text. *)
Definition _send_to_websocket (websocket : positive) (message : Dict) : M Hub unit :=
  fun h =>
    if bool_decide (websocket ∈ broken h) then (Raise (ConnectionError websocket), h)
    else (Ok tt, set_delivered (delivered h ++ [(websocket, message)]) h).

Definition connect (project_id : string) (websocket : positive) : M Hub unit :=
  modify (fun h =>
    match connections h !! project_id with
    | None => set_connections (<[ project_id := ∅ ]> (connections h)) h
    | Some _ => h
    end) ;;;
  modify (fun h =>
    set_connections
      (<[ project_id := default ∅ (connections h !! project_id) ∪ {[ websocket ]} ]>
         (connections h)) h) ;;;
  (* Send confirmation *)
  stamp <- gets clock ;;
  _send_to_websocket websocket
    [("type", VStr "connected");
     ("project_id", VStr project_id);
     ("timestamp", VStr stamp)].

(** The effect of [disconnect] on [self.connections]. *)
Definition discard (project_id : string) (websocket : positive)
    (c : gmap string (gset positive)) : gmap string (gset positive) :=
  match c !! project_id with
  | Some live =>
      let live' := live ∖ {[ websocket ]} in
      (* Clean up empty project entries *)
      if bool_decide (live' = ∅) then delete project_id c
      else <[ project_id := live' ]> c
  | None => c
  end.

Definition disconnect (project_id : string) (websocket : positive) : M Hub unit :=
  modify (fun h => set_connections (discard project_id websocket (connections h)) h).

(** The [for websocket in connections:] loop of [broadcast], over the
    snapshot. *)
Fixpoint send_to_all (project_id : string) (message : Dict)
    (snapshot : list positive) : M Hub unit :=
  match snapshot with
  | [] => ret tt
  | websocket :: rest =>
      try_except
        (_send_to_websocket websocket message)
        (fun e =>
           (* Remove failed connection *)
           disconnect project_id websocket) ;;;
      send_to_all project_id message rest
  end.

(** [message] with the timestamp [broadcast] adds when there is none. *)
Definition stamped (stamp : string) (message : Dict) : Dict :=
  if negb (dict_mem "timestamp" message)
  then dict_set "timestamp" (VStr stamp) message
  else message.

(** [broadcast]. The caller's [message] dict is written in place; the value
    returned here is that dict as the call leaves it. The copy of the set is
    the list of its elements in the order the loop visits them. *)
Definition broadcast (project_id : string) (message : Dict) : M Hub Dict :=
  c <- gets connections ;;
  match c !! project_id with
  | None => ret message
  | Some live =>
      (* Add timestamp if not present *)
      stamp <- gets clock ;;
      let message := stamped stamp message in
      (* Get connections (copy to avoid modification during iteration) *)
      let snapshot := elements live in
      (* Send to all connections *)
      send_to_all project_id message snapshot ;;;
      ret message
  end.

(** The subscribers of a project; a project without entry has none. *)
Definition subscribers (h : Hub) (project_id : string) : gset positive :=
  default ∅ (connections h !! project_id).

End WebSocketManager.

(** ** [backend/tools/project.py] *)

Module Project.

(** A Python string is a sequence of code points. What Python's Unicode
    database says of the code points from 128 on is not part of this
    repository and is taken as given. *)
Class UnicodeDB : Type := {
  uni_isalnum : N -> bool;
  uni_isspace : N -> bool
}.

Definition of_string (s : string) : list N :=
  List.map N_of_ascii (list_ascii_of_string s).

Definition in_range (lo hi c : N) : bool := ((lo <=? c) && (c <=? hi))%N.

Definition ascii_isalnum (c : N) : bool :=
  in_range 48 57 c || in_range 65 90 c || in_range 97 122 c.

Definition ascii_isspace (c : N) : bool :=
  in_range 9 13 c || in_range 28 32 c.

(** [c.isalnum()] and [c.isspace()] *)
Definition isalnum {U : UnicodeDB} (c : N) : bool :=
  if (c <? 128)%N then ascii_isalnum c else uni_isalnum c.

Definition isspace {U : UnicodeDB} (c : N) : bool :=
  if (c <? 128)%N then ascii_isspace c else uni_isspace c.

(** The class [\w] of [re] on [str] patterns. *)
Definition is_word {U : UnicodeDB} (c : N) : bool := isalnum c || (c =? 95)%N.

Definition hyphen : N := 45.
Definition underscore : N := 95.
Definition space : N := 32.

Fixpoint lstrip (p : N -> bool) (s : list N) : list N :=
  match s with
  | [] => []
  | c :: r => if p c then lstrip p r else s
  end.

Definition rstrip (p : N -> bool) (s : list N) : list N :=
  rev (lstrip p (rev s)).

(** [s.strip()] and [s.strip(chars)], by the test of the stripped
    characters. *)
Definition strip (p : N -> bool) (s : list N) : list N :=
  rstrip p (lstrip p s).

(** [s.replace(a, b)] for single characters. *)
Definition replace (a b : N) (s : list N) : list N :=
  List.map (fun c => if (c =? a)%N then b else c) s.

(** What the three rewriting steps of [sanitize_folder_name] leave. *)
Definition residue {U : UnicodeDB} (name : list N) : list N :=
  (* Replace spaces with underscores *)
  let name := replace space underscore (strip isspace name) in
  (* Remove any characters that aren't alphanumeric, underscore, or hyphen *)
  let name := List.filter (fun c => is_word c || (c =? hyphen)%N) name in
  (* Remove leading/trailing hyphens or underscores *)
  strip (fun c => (c =? hyphen)%N || (c =? underscore)%N) name.

Definition untitled_project : list N := of_string "untitled_project".

Definition sanitize_folder_name {U : UnicodeDB} (name : list N) : list N :=
  let name := residue name in
  (* Ensure it's not empty *)
  match name with
  | [] => untitled_project
  | _ => name
  end.

(** What every character of a folder name is to be: a word character or a
    hyphen. *)
Definition folder_char {U : UnicodeDB} (c : N) : Prop :=
  is_word c = true \/ c = hyphen.

(** A database in which no code point from 128 on is alphanumeric or
    white space. *)
Definition ascii_only : UnicodeDB :=
  {| uni_isalnum := fun _ => false; uni_isspace := fun _ => false |}.

End Project.

(** ** What the statements observe *)

(** The result of a call reports success: it is a dict with
    ["success": True]. An exception that leaves the handler does not. *)
Definition succeeded (r : Result Dict) : bool :=
  match r with
  | Ok d => match dict_get "success" d with Some (VBool true) => true | _ => false end
  | Raise _ => false
  end.

(** The result carries ["auto_approve": True]. *)
Definition auto_approved (r : Result Dict) : bool :=
  match r with
  | Ok d => match dict_get "auto_approve" d with Some (VBool true) => true | _ => false end
  | Raise _ => false
  end.

(** The result carries a ["transition"]. *)
Definition has_transition (r : Result Dict) : bool :=
  match r with
  | Ok d => dict_mem "transition" d
  | Raise _ => false
  end.

(** The stored iteration count of a chapter, as [request_revision] reads
    it. *)
Definition stored_count (w : World) (chapter_number : Z) : Z :=
  match state w with
  | Some st => iterations_get st chapter_number
  | None => 0
  end.

Definition stored_phase (w : World) : option Phase := phase <$> state w.

(** The iteration counters and the two chapter lists of the state. *)
Definition stored_iterations (w : World) : option (gmap Z Z) :=
  chapter_critique_iterations <$> state w.

Definition chapter_lists (w : World) : option (list Z * list Z) :=
  (fun st => (chapters_completed st, chapters_approved st)) <$> state w.

(** The invariant of the two chapter lists. *)
Definition approved_within_completed (w : World) : Prop :=
  forall st, state w = Some st -> chapters_approved st ⊆ chapters_completed st.

(** The phase a call asks [update_phase] for, when it gets that far:
    [approve_chapter] decides between [COMPLETE] and [WRITING] once the
    chapter is on the list. *)
Definition requested_phase (c : ToolCall) (st : NovelState) : option Phase :=
  match c with
  | finalize_chapter _ _ => Some WRITE_CRITIQUE
  | request_revision _ _ => Some WRITING
  | approve_chapter n _ =>
      if (total_chapters st
            <=? Z.of_nat (length (append_if_absent n (chapters_approved st))))%Z
      then Some COMPLETE else Some WRITING
  | _ => None
  end.

Definition is_approve_chapter (c : ToolCall) : bool :=
  match c with approve_chapter _ _ => true | _ => false end.

(** The result of [request_revision] when the guard fires. *)
Definition auto_approve_result (chapter_number : Z) : Dict :=
  [("success", VBool false);
   ("message", VStr ("Maximum critique iterations (" +:+ Py.str_int RequestRevisionTool.max_iterations
                       +:+ ") reached for Chapter " +:+ Py.str_int chapter_number
                       +:+ ". Auto-approving to prevent infinite loop."));
   ("auto_approve", VBool true)].

(** ** Sample worlds *)

Definition sample_state : NovelState :=
  {| phase := WRITE_CRITIQUE; current_chapter := 1; total_chapters := 1;
     chapters_completed := [1]; chapters_approved := [];
     chapter_critique_iterations := ∅; plan_files_created := ∅ |}.

(** A project folder with the first chapter written, every write
    succeeding, the snapshot in step with the state. *)
Definition sample_world : World :=
  {| active_project_folder := Some "output/novel";
     files := {[ "output/novel/manuscript/chapter_01.md" := "# Chapter 1" ]};
     dirs := {[ "output/novel"; "output/novel/manuscript" ]};
     io_fault := fun _ => false;
     now := "2025-01-01 00:00:00";
     os_relpath := fun path _ => path;
     state := Some sample_state;
     saved := Some sample_state;
     save_script := [] |}.

(** The same world when the next snapshot write fails and the one after it
    would succeed. *)
Definition flaky_world : World := set_saved (saved sample_world) [false; true] sample_world.

(** Chapter 1 critiqued twice already. *)
Definition critiqued_twice : World :=
  set_state
    (Some (set_chapter_critique_iterations {[ 1 := 2 ]} sample_state)) sample_world.

(** Chapter 1 approved already, the phase back at [WRITE_CRITIQUE]. *)
Definition approved_once : World :=
  set_state (Some (set_chapters_approved [1] sample_state)) sample_world.

Definition sample_hub : WebSocketManager.Hub :=
  {| WebSocketManager.connections := {[ "novel_1" := {[ 1%positive; 2%positive; 3%positive ]} ]};
     WebSocketManager.broken := {[ 2%positive ]};
     WebSocketManager.delivered := [];
     WebSocketManager.clock := "2025-01-01T00:00:00" |}.

(** ** More of [backend/websocket_manager.py] *)

Module WebSocketQueries.

Import WebSocketManager.

(** [len(self.connections.get(project_id, set()))] *)
Definition get_connection_count (project_id : string) (h : Hub) : nat :=
  size (default ∅ (connections h !! project_id)).

(** [project_id in self.connections and len(self.connections[project_id]) > 0] *)
Definition has_connections (project_id : string) (h : Hub) : bool :=
  match connections h !! project_id with
  | Some live => bool_decide (0 < size live)%nat
  | None => false
  end.

(** No project is kept with an empty set of websockets. *)
Definition no_empty_entry (h : Hub) : Prop :=
  forall project_id live, connections h !! project_id = Some live -> live <> ∅.

(** The manager as [__init__] leaves it, with the websockets whose send
    fails and the clock reading of the surroundings. *)
Definition init (failing : gset positive) (stamp : string) : Hub :=
  {| connections := ∅; broken := failing; delivered := []; clock := stamp |}.

(** The acknowledgment [connect] sends. *)
Definition connected_message (project_id stamp : string) : Dict :=
  [("type", VStr "connected");
   ("project_id", VStr project_id);
   ("timestamp", VStr stamp)].

End WebSocketQueries.

(** ** [backend/api/websocket.py] *)

Module WebSocketEndpoint.

Import WebSocketManager.

(** What [websocket.receive_text()] yields, call after call: a text of the
    client, or an exception ([WebSocketDisconnect] when the client left; the
    handler tells it from other exceptions for its log line only). *)
Inductive Incoming : Type :=
| Text (data : string)
| Raises (e : Exn).

(** How the endpoint stands when the texts received so far are used up: it
    has returned, or it still waits in [receive_text]. *)
Inductive Status : Type :=
| Closed
| Listening.

(** The [while True:] loop over what is received. *)
Fixpoint receive_loop (websocket : positive) (incoming : list Incoming)
    : M Hub Status :=
  match incoming with
  | [] => ret Listening
  | Text data :: rest =>
      (if String.eqb data "ping"
       then _send_to_websocket websocket [("type", VStr "pong")]
       else ret tt) ;;;
      receive_loop websocket rest
  | Raises e :: _ => raise e
  end.

(** [websocket_endpoint]: [accept] has no effect on the manager; [connect]
    is outside the [try], the loop inside, and [disconnect] in its
    [finally]. *)
Definition websocket_endpoint (websocket : positive) (project_id : string)
    (incoming : list Incoming) : M Hub Status :=
  (* Register connection *)
  connect project_id websocket ;;;
  status <- try_except (receive_loop websocket incoming) (fun e => ret Closed) ;;
  match status with
  | Closed =>
      (* Unregister connection *)
      disconnect project_id websocket ;;;
      ret Closed
  | Listening => ret Listening
  end.

(** The pings received before the first exception. *)
Fixpoint pings (incoming : list Incoming) : nat :=
  match incoming with
  | [] => 0
  | Text data :: rest => (if String.eqb data "ping" then 1 else 0) + pings rest
  | Raises _ :: _ => 0
  end.

(** Some [receive_text] call raises. *)
Fixpoint closes (incoming : list Incoming) : bool :=
  match incoming with
  | [] => false
  | Text _ :: rest => closes rest
  | Raises _ :: _ => true
  end.

End WebSocketEndpoint.

(** ** Text of the tool results *)

Module Text.

(** [len(s.split())] over the code points of [s]: the maximal runs of
    characters that are not white space. *)
Fixpoint count_words (space : N -> bool) (in_word : bool) (s : list N) : nat :=
  match s with
  | [] => 0
  | c :: r =>
      if space c then count_words space false r
      else (if in_word then 0 else 1) + count_words space true r
  end.

Definition word_count {U : Project.UnicodeDB} (s : string) : Z :=
  Z.of_nat (count_words Project.isspace false (Project.of_string s)).

(** [s * n] *)
Fixpoint repeat_string (s : string) (n : nat) : string :=
  match n with
  | O => ""
  | S n' => s +:+ repeat_string s n'
  end.

(** ['='*80] *)
Definition rule : string := repeat_string "=" 80.

End Text.

(** ** More of [backend/tools/writing_tools.py] *)

Module WriteChapterTool.

Definition name : string := "write_chapter".

Definition chapter_filename (chapter_number : Z) : string :=
  "chapter_" +:+ Py.format_02d chapter_number +:+ ".md".

(** The file of a chapter under the project folder. *)
Definition chapter_path (project_folder : string) (chapter_number : Z) : string :=
  OsPath.join (OsPath.join project_folder "manuscript") (chapter_filename chapter_number).

(** What the tool writes to the file. *)
Definition chapter_text (chapter_number : Z) (content : string) : string :=
  "# Chapter " +:+ Py.str_int chapter_number +:+ nl +:+ nl +:+ content +:+ nl.

Definition execute {U : Project.UnicodeDB} (chapter_number : Z) (content : string)
    : Tool Dict :=
  project_folder <- get_active_project_folder ;;
  if negb (folder_truthy project_folder) then ret no_project_folder
  else
    (* Format chapter filename *)
    let filename := chapter_filename chapter_number in
    let file_path := chapter_path (folder_path project_folder) chapter_number in
    makedirs (OsPath.dirname file_path) ;;;
    try_except
      (write_text file_path (chapter_text chapter_number content) ;;;
       let word_count := Text.word_count content in
       ret [("success", VBool true);
            ("message", VStr ("Successfully wrote Chapter " +:+ Py.str_int chapter_number
                                +:+ " (" +:+ Py.str_int word_count
                                +:+ " words) to manuscript/" +:+ filename));
            ("file_path", VStr file_path);
            ("filename", VStr filename);
            ("chapter_number", VInt chapter_number);
            ("word_count", VInt word_count);
            ("next_step", VStr "Use finalize_chapter to submit this chapter for critique")])
      (fun e => ret (failure ("Error writing chapter: " +:+ str_exn e))).

End WriteChapterTool.

Module LoadApprovedPlanTool.

Definition name : string := "load_approved_plan".

(** One entry of [files_to_load]: the text of the file when it is there
    (the error text when reading it raises), the placeholder when it is
    not. *)
Definition load (project_folder rel_path placeholder : string) : Tool string :=
  let file_path := OsPath.join project_folder rel_path in
  found <- path_exists file_path ;;
  if found then
    try_except (read_text file_path)
      (fun e => ret ("Error reading file: " +:+ str_exn e))
  else ret placeholder.

Definition execute : Tool Dict :=
  project_folder <- get_active_project_folder ;;
  if negb (folder_truthy project_folder) then ret no_project_folder
  else
    summary <- load (folder_path project_folder) "planning/summary.md" "Summary not found" ;;
    characters <- load (folder_path project_folder) "planning/characters.md" "Characters not found" ;;
    structure <- load (folder_path project_folder) "planning/structure.md" "Structure not found" ;;
    outline <- load (folder_path project_folder) "planning/outline.md" "Outline not found" ;;
    ret [("success", VBool true);
         ("message", VStr "Successfully loaded approved plan materials.");
         ("content", VStr ("APPROVED PLAN - REFERENCE FOR WRITING:" +:+ nl +:+ nl
                             +:+ Text.rule +:+ nl +:+ summary +:+ nl +:+ nl
                             +:+ Text.rule +:+ nl +:+ characters +:+ nl +:+ nl
                             +:+ Text.rule +:+ nl +:+ structure +:+ nl +:+ nl
                             +:+ Text.rule +:+ nl +:+ outline +:+ nl +:+ nl
                             +:+ Text.rule +:+ nl))].

End LoadApprovedPlanTool.

(** ** More of [backend/tools/write_critique_tools.py] *)

Module LoadChapterForReviewTool.

Definition name : string := "load_chapter_for_review".

(** The text handed to the reviewer for a chapter file. *)
Definition review_text {U : Project.UnicodeDB} (chapter_number : Z) (content : string)
    : string :=
  "CHAPTER " +:+ Py.str_int chapter_number +:+ " FOR REVIEW:" +:+ nl +:+ nl
    +:+ Text.rule +:+ nl
    +:+ content +:+ nl
    +:+ Text.rule +:+ nl +:+ nl
    +:+ "Word Count: " +:+ Py.str_int (Text.word_count content) +:+ nl.

Definition execute {U : Project.UnicodeDB} (chapter_number : Z) : Tool Dict :=
  project_folder <- get_active_project_folder ;;
  if negb (folder_truthy project_folder) then ret no_project_folder
  else
    let file_path :=
      WriteChapterTool.chapter_path (folder_path project_folder) chapter_number in
    found <- path_exists file_path ;;
    if negb found then
      ret (failure ("Chapter " +:+ Py.str_int chapter_number +:+ " not found."))
    else
      try_except
        (content <- read_text file_path ;;
         let word_count := Text.word_count content in
         ret [("success", VBool true);
              ("message", VStr ("Loaded Chapter " +:+ Py.str_int chapter_number
                                  +:+ " for review (" +:+ Py.str_int word_count
                                  +:+ " words)."));
              ("content", VStr (review_text chapter_number content));
              ("chapter_number", VInt chapter_number);
              ("word_count", VInt word_count)])
        (fun e => ret (failure ("Error loading chapter: " +:+ str_exn e))).

End LoadChapterForReviewTool.

Module LoadContextForCritiqueTool.

Definition name : string := "load_context_for_critique".

(** One part of the context: appended when the file is there and can be
    read, passed over otherwise ([except: pass]). *)
Definition load_part (file_path : string) (heading : string) : Tool (list string) :=
  found <- path_exists file_path ;;
  if found then
    try_except
      (text <- read_text file_path ;;
       ret [heading +:+ nl +:+ Text.rule +:+ nl +:+ text])
      (fun e => ret [])
  else ret [].

Definition execute (chapter_number : Z) : Tool Dict :=
  project_folder <- get_active_project_folder ;;
  if negb (folder_truthy project_folder) then ret no_project_folder
  else
    let folder := folder_path project_folder in
    (* Load outline *)
    outline <-
      load_part (OsPath.join (OsPath.join folder "planning") "outline.md")
        "PLOT OUTLINE:" ;;
    (* Load character profiles *)
    chars <-
      load_part (OsPath.join (OsPath.join folder "planning") "characters.md")
        (nl +:+ "CHARACTER PROFILES:") ;;
    (* Load previous chapter if exists *)
    prev <-
      (if (1 <? chapter_number)%Z then
         load_part (WriteChapterTool.chapter_path folder (chapter_number - 1))
           (nl +:+ "PREVIOUS CHAPTER (Chapter " +:+ Py.str_int (chapter_number - 1) +:+ "):")
       else ret []) ;;
    let context_parts := (outline ++ chars ++ prev)%list in
    ret [("success", VBool true);
         ("message", VStr ("Loaded context for critiquing Chapter "
                             +:+ Py.str_int chapter_number +:+ "."));
         ("content", VStr ("CONTEXT FOR CRITIQUING CHAPTER " +:+ Py.str_int chapter_number
                             +:+ ":" +:+ nl +:+ nl
                             +:+ Text.rule +:+ nl
                             +:+ String.concat "" context_parts +:+ nl
                             +:+ Text.rule +:+ nl))].

End LoadContextForCritiqueTool.

(** ** More of [backend/tools/project.py] *)

Module CreateProjectTool.

Definition name : string := "create_project".

(** A string of this development stands for the Python string with the
    same code points (all below 256). *)
Definition to_string (s : list N) : string :=
  string_of_list_ascii (List.map ascii_of_N s).

(** [sanitize_folder_name] on such a string. *)
Definition sanitized {U : Project.UnicodeDB} (project_name : string) : string :=
  to_string (Project.sanitize_folder_name (Project.of_string project_name)).

(** [set_active_project_folder] and the assignments to
    [_active_project_folder]. *)
Definition set_active_project_folder (folder_path : string) : Tool unit :=
  modify (fun w =>
    {| active_project_folder := Some folder_path; files := files w;
       dirs := dirs w; io_fault := io_fault w; now := now w;
       os_relpath := os_relpath w; state := state w; saved := saved w;
       save_script := save_script w |}).

Definition created (message project_path project_name : string) : Dict :=
  [("success", VBool true);
   ("message", VStr message);
   ("project_path", VStr project_path);
   ("project_name", VStr project_name)].

(** [root_dir] is the directory that holds [backend/], which the code gets
    from [__file__]. *)
Definition execute {U : Project.UnicodeDB} (root_dir project_name : string)
    : Tool Dict :=
  (* Sanitize the folder name *)
  let sanitized_name := sanitized project_name in
  (* Create output directory if it doesn't exist *)
  let output_dir := OsPath.join root_dir "output" in
  found <- path_exists output_dir ;;
  made <-
    (if negb found then
       try_except (makedirs output_dir ;;; ret None)
         (fun e => ret (Some (failure ("Error creating output directory: " +:+ str_exn e))))
     else ret None) ;;
  match made with
  | Some returned => ret returned
  | None =>
      (* Create the full path inside output directory *)
      let project_path := OsPath.join output_dir sanitized_name in
      (* Check if folder already exists *)
      found <- path_exists project_path ;;
      if found then
        (* Use existing folder and set it as active *)
        set_active_project_folder project_path ;;;
        ret (created ("Project folder already exists at '" +:+ project_path
                        +:+ "'. Set as active project folder.")
               project_path sanitized_name)
      else
        (* Create the folder *)
        try_except
          (makedirs project_path ;;;
           set_active_project_folder project_path ;;;
           (* Create subdirectories for organization *)
           makedirs (OsPath.join project_path "planning") ;;;
           makedirs (OsPath.join project_path "manuscript") ;;;
           makedirs (OsPath.join project_path "critiques") ;;;
           ret (created ("Successfully created project folder at '" +:+ project_path
                           +:+ "'. This is now the active project folder.")
                  project_path sanitized_name))
          (fun e => ret (failure ("Error creating project folder: " +:+ str_exn e)))
  end.

End CreateProjectTool.

(** ** Paths and texts of the critique files *)

(** The file [critique_chapter] writes version [version] of a chapter's
    critique to, and its text. *)
Definition critique_path (project_folder : string) (chapter_number version : Z) : string :=
  OsPath.join (OsPath.join project_folder "critiques")
    ("chapter_" +:+ Py.format_02d chapter_number +:+ "_critique_v"
       +:+ Py.str_int version +:+ ".md").

Definition critique_file_text (date : string) (chapter_number version : Z)
    (critique_text : string) : string :=
  "# Chapter " +:+ Py.str_int chapter_number +:+ " Critique - Version "
    +:+ Py.str_int version +:+ nl +:+ nl
    +:+ "**Date:** " +:+ date +:+ nl +:+ nl
    +:+ "---" +:+ nl +:+ nl
    +:+ critique_text +:+ nl.

(** ** Further observations *)

Definition is_write_file (c : ToolCall) : bool :=
  match c with write_file _ _ _ => true | _ => false end.

(** What [write_file] answers without a project folder. *)
Definition write_file_no_project : Dict :=
  failure "Error: No active project folder. Please create a project first using create_project.".

(** The sample world before any project is created. *)
Definition idle_world : World :=
  {| active_project_folder := None;
     files := ∅;
     dirs := ∅;
     io_fault := fun _ => false;
     now := "2025-01-01 00:00:00";
     os_relpath := fun path _ => path;
     state := Some sample_state;
     saved := Some sample_state;
     save_script := [] |}.

(** The state of the sample world while chapter 1 is being written. *)
Definition writing_world : World :=
  set_state (Some (set_phase WRITING sample_state)) sample_world.


(** The file [request_revision] writes the request of version [version]
    to. *)
Definition revision_request_path (project_folder : string) (chapter_number version : Z)
    : string :=
  OsPath.join (OsPath.join project_folder "critiques")
    ("chapter_" +:+ Py.format_02d chapter_number +:+ "_revision_request_v"
       +:+ Py.str_int version +:+ ".md").

(** ** Dictionaries with values of any type *)

Module PyDict.

Section Values.

Context {V : Type}.

(** [d.get(k)] *)
Fixpoint get (k : string) (d : list (string * V)) : option V :=
  match d with
  | [] => None
  | (k', v) :: d' => if String.eqb k k' then Some v else get k d'
  end.

(** [k in d] *)
Definition mem (k : string) (d : list (string * V)) : bool :=
  match get k d with Some _ => true | None => false end.

(** [d[k] = v]: an existing key keeps its position, a new one goes last. *)
Fixpoint set (k : string) (v : V) (d : list (string * V)) : list (string * V) :=
  match d with
  | [] => [(k, v)]
  | (k', v') :: d' =>
      if String.eqb k k' then (k, v) :: d' else (k', v') :: set k v d'
  end.

End Values.

End PyDict.

(** ** [backend/config.py]: validation *)

Module Config.

(** What a validation yields: its value, or the [ValueError] it raises. *)
Inductive Checked (A : Type) : Type :=
| Returns (a : A)
| ValueError (message : string).

Arguments Returns {A} a.
Arguments ValueError {A} message.

(** [class WritingSampleConfig]; the custom text is a Python string, a
    sequence of code points, [None] when it is not given. *)
Record WritingSampleConfig : Type := {
  sample_id : option string;
  custom_text : option (list N);
  enabled : bool
}.

(** [bool(v)] for an optional string. *)
Definition id_truthy (v : option string) : bool :=
  match v with Some s => Py.truthy s | None => false end.

Definition text_truthy (v : option (list N)) : bool :=
  match v with Some (_ :: _) => true | _ => false end.

(** The field validator of [custom_text]. *)
Definition validate_custom_text (v : option (list N)) : Checked (option (list N)) :=
  if text_truthy v && (length (default [] v) <? 100)%nat then
    ValueError "Custom writing sample must be at least 100 characters"
  else Returns v.

(** [class NovelConfig], with the fields [validate_config] reads:
    [config.api.api_key], [config.project_name] and
    [config.writing_sample]. *)
Record NovelConfig : Type := {
  api_key : string;
  project_name : string;
  writing_sample : WritingSampleConfig
}.

Definition validate_config (config : NovelConfig) : Checked bool :=
  (* Validate API key *)
  if negb (Py.truthy (api_key config)) then ValueError "API key is required"
  (* Validate project name *)
  else if negb (Py.truthy (project_name config)) then ValueError "Project name is required"
  (* Validate writing sample *)
  else if enabled (writing_sample config) then
    if negb (id_truthy (sample_id (writing_sample config))) then
      ValueError "Writing sample ID required when enabled"
    else if bool_decide (sample_id (writing_sample config) = Some "custom")
            && negb (text_truthy (custom_text (writing_sample config))) then
      ValueError "Custom text required when sample_id is 'custom'"
    else Returns true
  else Returns true.

End Config.

(** ** [backend/writing_samples.py] *)

Module WritingSamples.

(** A sample as [WRITING_SAMPLES] holds it: a dictionary of strings. *)
Definition Sample : Type := list (string * string).

(** [WRITING_SAMPLES] *)
Definition Samples : Type := list (string * Sample).

Definition get_writing_sample (sample_id : string) (samples : Samples) : option string :=
  match PyDict.get sample_id samples with
  | Some (entry :: rest) => PyDict.get "sample" (entry :: rest)
  | _ => None
  end.

Definition list_available_samples (samples : Samples) : list (list (string * string)) :=
  List.map
    (fun '(sample_id, sample_data) =>
       [("id", sample_id);
        ("name", default "Unknown" (PyDict.get "name" sample_data));
        ("description", default "" (PyDict.get "description" sample_data));
        ("source", default "" (PyDict.get "source" sample_data))])
    samples.

(** [save_custom_sample]: the store after the call; the call returns
    [sample_id]. *)
Definition save_custom_sample (sample_id name sample_text description source : string)
    (samples : Samples) : Samples :=
  PyDict.set sample_id
    [("name", name); ("description", description);
     ("sample", sample_text); ("source", source)]
    samples.

(** [validate_sample_text] on the code points of the text. *)
Definition validate_sample_text {U : Project.UnicodeDB} (text : list N) : bool :=
  match text with
  | [] => false
  | _ =>
      (* Minimum 100 characters *)
      if (length text <? 100)%nat then false
      (* Should have some substance (not just whitespace) *)
      else if (length (Project.strip Project.isspace text) <? 100)%nat then false
      else true
  end.

End WritingSamples.

(** ** [backend/tools/base_tool.py]: the registry *)

Module ToolRegistry.

(** What a lookup yields: the tool, or the [KeyError] it raises. *)
Inductive Lookup (A : Type) : Type :=
| Found (a : A)
| KeyError (message : string).

Arguments Found {A} a.
Arguments KeyError {A} message.

(** A tool as the registry sees it: its [name] and its [execute], from
    the keyword arguments to what the call does. *)
Record BaseTool (K R : Type) : Type := {
  name : string;
  execute_tool : K -> R
}.

Arguments name {K R} _.
Arguments execute_tool {K R} _ _.

Section Registry.

Context {K R : Type}.

(** [self._tools] *)
Definition Tools : Type := gmap string (BaseTool K R).

Definition register (tool : BaseTool K R) (tools : Tools) : Tools :=
  <[ name tool := tool ]> tools.

Definition get (tool_name : string) (tools : Tools) : Lookup (BaseTool K R) :=
  match tools !! tool_name with
  | None => KeyError ("Tool not found: " +:+ tool_name)
  | Some tool => Found tool
  end.

Definition execute (tool_name : string) (kwargs : K) (tools : Tools) : Lookup R :=
  match get tool_name tools with
  | Found tool => Found (execute_tool tool kwargs)
  | KeyError message => KeyError message
  end.

End Registry.

End ToolRegistry.

(** ** [backend/agents/base_agent.py] *)

Module BaseAgent.

Section Agent.

(** The values of keyword arguments, and what running a tool is. *)
Context {V R : Type}.

(** [_register_tools]: the tools of [get_tools()], registered in turn in
    the empty registry of [__init__]. *)
Definition _register_tools (tools : list (ToolRegistry.BaseTool (list (string * V)) R))
    : ToolRegistry.Tools :=
  fold_left (fun registry tool => ToolRegistry.register tool registry) tools ∅.

(** [execute_tool], with [agent_state] for [self.state]. *)
Definition execute_tool (agent_state : V)
    (registry : ToolRegistry.Tools (K := list (string * V)) (R := R))
    (tool_name : string) (kwargs : list (string * V)) : ToolRegistry.Lookup R :=
  (* Add state to kwargs if not present *)
  let kwargs :=
    if negb (PyDict.mem "state" kwargs) then PyDict.set "state" agent_state kwargs
    else kwargs in
  ToolRegistry.execute tool_name kwargs registry.

End Agent.

(** A tool call of the model's answer: [tool_call.id] and
    [tool_call.function.name]. *)
Record ToolCallRef : Type := {
  call_id : string;
  function_name : string
}.

(** A message of the history: a dictionary with the key ["role"] and some
    of the other keys. *)
Record Message : Type := {
  role : string;
  content : option string;
  tool_calls : option (list ToolCallRef);
  reasoning_content : option string;
  tool_call_id : option string;
  tool_name : option string
}.

Definition plain_message (role content : string) : Message :=
  {| role := role; content := Some content; tool_calls := None;
     reasoning_content := None; tool_call_id := None; tool_name := None |}.

(** [bool(v)] for an optional string and an optional list. *)
Definition str_truthy (v : option string) : bool :=
  match v with Some s => Py.truthy s | None => false end.

Definition list_truthy {A} (v : option (list A)) : bool :=
  match v with Some (_ :: _) => true | _ => false end.

Definition add_system_message (content : string) (history : list Message) : list Message :=
  (history ++ [plain_message "system" content])%list.

Definition add_user_message (content : string) (history : list Message) : list Message :=
  (history ++ [plain_message "user" content])%list.

Definition add_assistant_message (content : option string)
    (tool_calls : option (list ToolCallRef)) (reasoning : option string)
    (history : list Message) : list Message :=
  (history ++
     [{| role := "assistant";
         content := if str_truthy content then content else None;
         tool_calls := if list_truthy tool_calls then tool_calls else None;
         reasoning_content := if str_truthy reasoning then reasoning else None;
         tool_call_id := None; tool_name := None |}])%list.

(** [zip(tool_calls, results)] *)
Fixpoint zip {A B} (l : list A) (k : list B) : list (A * B) :=
  match l, k with
  | a :: l', b :: k' => (a, b) :: zip l' k'
  | _, _ => []
  end.

(** [add_tool_results], with [dumps] for [json.dumps]. *)
Definition add_tool_results (dumps : Dict -> string) (results : list Dict)
    (tool_calls : list ToolCallRef) (history : list Message) : list Message :=
  fold_left
    (fun history '(tool_call, result) =>
       (history ++
          [{| role := "tool"; content := Some (dumps result); tool_calls := None;
              reasoning_content := None;
              tool_call_id := Some (call_id tool_call);
              tool_name := Some (function_name tool_call) |}])%list)
    (zip tool_calls results) history.

Definition get_message_count (history : list Message) : nat := length history.

(** [initialize_conversation], with [system_prompt] for what
    [get_system_prompt()] returns. *)
Definition initialize_conversation (system_prompt : string) (user_prompt : option string)
    (history : list Message) : list Message :=
  (* Add system message *)
  let history := add_system_message system_prompt history in
  (* Add user prompt if provided *)
  if str_truthy user_prompt then add_user_message (default "" user_prompt) history
  else history.

(** The calls that add to the history. *)
Inductive Adding : Type :=
| system_message (content : string)
| user_message (content : string)
| assistant_message (content : option string) (tool_calls : option (list ToolCallRef))
    (reasoning : option string)
| tool_results (results : list Dict) (tool_calls : list ToolCallRef)
| conversation (user_prompt : option string).

Definition add (system_prompt : string) (dumps : Dict -> string) (call : Adding)
    (history : list Message) : list Message :=
  match call with
  | system_message content => add_system_message content history
  | user_message content => add_user_message content history
  | assistant_message content tool_calls reasoning =>
      add_assistant_message content tool_calls reasoning history
  | tool_results results tool_calls => add_tool_results dumps results tool_calls history
  | conversation user_prompt => initialize_conversation system_prompt user_prompt history
  end.

(** How many messages a call adds. *)
Definition added (call : Adding) : nat :=
  match call with
  | tool_results results tool_calls => Nat.min (length results) (length tool_calls)
  | conversation user_prompt => if str_truthy user_prompt then 2 else 1
  | _ => 1
  end.

End BaseAgent.

(** A world in which the folder ["planning"] of the project ["draft"]
    cannot be created. *)
Definition no_planning_world : World :=
  {| active_project_folder := Some "output/novel";
     files := ∅;
     dirs := {[ "output" ]};
     io_fault := fun path => String.eqb path "output/draft/planning";
     now := "2025-01-01 00:00:00";
     os_relpath := fun path _ => path;
     state := Some sample_state;
     saved := Some sample_state;
     save_script := [] |}.

(** * Properties *)

(** ** The helpers on sample inputs *)

Example format_02d_samples :
  map Py.format_02d [0; 7; 12; 123; -3] = ["00"; "07"; "12"; "123"; "-3"].
Proof. reflexivity. Qed.

Example join_samples :
  OsPath.join "output/novel" "critiques" = "output/novel/critiques"
  /\ OsPath.join "output/novel/" "a.md" = "output/novel/a.md"
  /\ OsPath.join "output/novel" "/etc/a.md" = "/etc/a.md".
Proof. repeat split; reflexivity. Qed.

Example dirname_samples :
  map OsPath.dirname ["output/novel/a.md"; "/a.md"; "a//b"; "a.md"]
    = ["output/novel"; "/"; "a"; ""].
Proof. reflexivity. Qed.

Example md_name_samples :
  WriteFileTool.md_name "notes" = "notes.md"
  /\ WriteFileTool.md_name "notes.md" = "notes.md"
  /\ WriteFileTool.md_name "md" = "md.md".
Proof. repeat split; reflexivity. Qed.

Example sanitize_folder_name_samples :
  Project.sanitize_folder_name (U := Project.ascii_only) (Project.of_string "  My Novel: Part/2 -_ ")
    = Project.of_string "My_Novel_Part2"
  /\ Project.sanitize_folder_name (U := Project.ascii_only) (Project.of_string " -_/ ")
    = Project.of_string "untitled_project".
Proof. split; reflexivity. Qed.

(** Two rounds of critique and revision request on chapter 1, the chapter
    finalized again in between: the second request is answered by the
    auto-approval. *)
Example two_critique_rounds :
  match fst (execute_all
               [critique_chapter 1 "slow start"; request_revision 1 "tighten";
                finalize_chapter 1 "";
                critique_chapter 1 "still slow"; request_revision 1 "tighten"]
               sample_world) with
  | Ok [_; first; _; _; second] =>
      has_transition (Ok first) = true /\ second = auto_approve_result 1
  | _ => False
  end.
Proof. vm_compute. split; reflexivity. Qed.

(** ** The broadcast hub *)

Section Broadcast.

Import WebSocketManager.

Implicit Types (h : Hub) (c : gmap string (gset positive)).
Implicit Types (l : list positive) (ws : positive) (p q : string).

Lemma discard_subscribers p ws c :
  default ∅ (discard p ws c !! p) = default ∅ (c !! p) ∖ {[ ws ]}.
Proof.
  unfold discard. destruct (c !! p) as [live|] eqn:Hp; simpl.
  - destruct (bool_decide_reflect (live ∖ {[ws]} = ∅)) as [Hempty|Hempty].
    + rewrite lookup_delete_eq. simpl. by rewrite Hempty.
    + by rewrite lookup_insert_eq.
  - rewrite Hp. simpl. set_solver.
Qed.

Lemma discard_other p q ws c : q ≠ p → discard p ws c !! q = c !! q.
Proof.
  intros Hne. unfold discard. destruct (c !! p) as [live|]; [|done].
  destruct (bool_decide_reflect (live ∖ {[ws]} = ∅)).
  - by rewrite lookup_delete_ne.
  - by rewrite lookup_insert_ne.
Qed.

(** The loop over a snapshot never raises: it hands the message to every
    working websocket of the snapshot, in order, and discards the others,
    whatever happens to the live set meanwhile. *)
Lemma send_to_all_spec p message l h :
  send_to_all p message l h =
    (Ok tt,
     {| connections :=
          foldl (fun c ws => discard p ws c) (connections h)
            (filter (fun ws => ws ∈ broken h) l);
        broken := broken h;
        delivered :=
          delivered h ++ ((fun ws => (ws, message)) <$> filter (fun ws => ws ∉ broken h) l);
        clock := clock h |}).
Proof.
  revert h. induction l as [|ws l IH]; intros h.
  - simpl. unfold ret. rewrite app_nil_r. by destruct h.
  - simpl. unfold bind, try_except, _send_to_websocket.
    rewrite !filter_cons. destruct (bool_decide_reflect (ws ∈ broken h)) as [Hb|Hb].
    + unfold disconnect, modify. rewrite IH. simpl.
      rewrite decide_True by done. rewrite decide_False by tauto. done.
    + rewrite IH. simpl.
      rewrite decide_False by done. rewrite decide_True by done.
      simpl. by rewrite <- app_assoc.
Qed.

Lemma filter_none (P : positive -> Prop) `{!forall x, Decision (P x)} l :
  (forall x, x ∈ l -> ~ P x) -> filter P l = [].
Proof.
  induction l as [|x l IH]; intros HP; [done|].
  rewrite filter_cons, decide_False by (apply HP; left).
  apply IH. intros y Hy. apply HP. by right.
Qed.

Lemma filter_single (P : positive -> Prop) `{!forall x, Decision (P x)} l ws :
  NoDup l -> ws ∈ l -> (forall x, x ∈ l -> (P x <-> x = ws)) ->
  filter P l = [ws].
Proof.
  induction l as [|x l IH]; intros Hnd Hin HP.
  - by apply elem_of_nil in Hin.
  - apply NoDup_cons in Hnd as [Hx Hnd]. rewrite filter_cons.
    destruct (decide (x = ws)) as [->|Hne].
    + rewrite decide_True by (apply HP; [left|done]).
      f_equal. apply filter_none. intros y Hy HPy.
      apply HP in HPy; [|by right]. by subst.
    + rewrite decide_False by (intros HPx; apply HP in HPx; [done|left]).
      apply IH; [done| |].
      * apply elem_of_cons in Hin as [->|]; done.
      * intros y Hy. apply HP. by right.
Qed.

Lemma filter_iff_on (P1 P2 : positive -> Prop)
    `{!forall x, Decision (P1 x), !forall x, Decision (P2 x)} l :
  (forall x, x ∈ l -> (P1 x <-> P2 x)) -> filter P1 l = filter P2 l.
Proof.
  induction l as [|x l IH]; intros HP; [done|].
  rewrite !filter_cons.
  assert (Hx : P1 x <-> P2 x) by (apply HP; left).
  rewrite IH by (intros y Hy; apply HP; by right).
  destruct (decide (P1 x)), (decide (P2 x)); tauto || done.
Qed.

(** C7. A broadcast to a project that has no entry in the connection map
    returns normally, hands no message to any websocket and leaves the
    manager, its connection map included, as it was; the message is not
    even time-stamped. *)
Theorem broadcast_without_channel h p (message : Dict) :
  connections h !! p = None ->
  broadcast p message h = (Ok message, h).
Proof.
  intros Hnone. unfold broadcast, bind, gets. simpl. by rewrite Hnone.
Qed.

Lemma broadcast_without_channel_witness :
  connections sample_hub !! "novel_2" = None /\
  broadcast "novel_2" [("type", VStr "progress")] sample_hub
    = (Ok [("type", VStr "progress")], sample_hub).
Proof.
  split; [reflexivity|].
  apply (broadcast_without_channel sample_hub "novel_2"). reflexivity.
Defined.

(** C6. When exactly one websocket of a project's [live] set raises on
    send, [broadcast] returns normally; it hands the time-stamped message
    exactly once to each of the other websockets of the set as it was when
    the call started (its elements but the failing one, [size live - 1] of
    them), although the failing websocket is discarded from the live set
    while the loop is running; and it leaves a connection map from which
    exactly the failing websocket of this project has been removed. *)
Theorem broadcast_isolates_failing_subscriber
    h p (message : Dict) (live : gset positive) (failing : positive) :
  connections h !! p = Some live ->
  failing ∈ live ->
  (forall ws, ws ∈ live -> (ws ∈ broken h <-> ws = failing)) ->
  let sent := stamped (clock h) message in
  let recipients := filter (fun ws => ws ≠ failing) (elements live) in
  let h' :=
    {| connections := discard p failing (connections h);
       broken := broken h;
       delivered := delivered h ++ ((fun ws => (ws, sent)) <$> recipients);
       clock := clock h |} in
  broadcast p message h = (Ok sent, h')
  /\ NoDup recipients
  /\ (forall ws, ws ∈ recipients <-> ws ∈ live /\ ws ≠ failing)
  /\ length recipients = (size live - 1)%nat
  /\ subscribers h' p = live ∖ {[ failing ]}
  /\ (forall q, q ≠ p -> connections h' !! q = connections h !! q).
Proof.
  intros Hlive Hin Hone sent recipients h'.
  assert (Hnd : NoDup (elements live)) by apply NoDup_elements.
  assert (Hmem : forall ws, ws ∈ recipients <-> ws ∈ live /\ ws ≠ failing).
  { intros ws. unfold recipients. rewrite list_elem_of_filter, elem_of_elements. tauto. }
  assert (Hndr : NoDup recipients) by (by apply NoDup_filter).
  split; [|split; [done|split; [done|split; [|split]]]].
  - unfold broadcast, bind, gets. simpl. rewrite Hlive. simpl.
    rewrite send_to_all_spec. unfold ret. subst h' sent recipients. do 2 f_equal.
    + rewrite (filter_single _ _ failing); [done|done| |].
      * by apply elem_of_elements.
      * intros x Hx. apply Hone. by apply elem_of_elements.
    + do 2 f_equal. apply filter_iff_on.
      intros x Hx. apply elem_of_elements in Hx. specialize (Hone x Hx). tauto.
  - assert (Hset : list_to_set recipients =@{gset positive} live ∖ {[ failing ]}).
    { apply set_eq. intros ws. rewrite elem_of_list_to_set, Hmem. set_solver. }
    rewrite <- (size_list_to_set (C := gset positive)) by done.
    rewrite Hset, size_difference by set_solver.
    by rewrite size_singleton.
  - unfold subscribers. subst h'. simpl.
    by rewrite discard_subscribers, Hlive.
  - intros q Hq. subst h'. simpl. by apply discard_other.
Qed.

Lemma broadcast_isolates_failing_subscriber_witness :
  fst (broadcast "novel_1" [("type", VStr "progress")] sample_hub)
    = Ok [("type", VStr "progress"); ("timestamp", VStr "2025-01-01T00:00:00")]
  /\ subscribers (snd (broadcast "novel_1" [("type", VStr "progress")] sample_hub)) "novel_1"
    = {[ 1%positive; 2%positive; 3%positive ]} ∖ {[ 2%positive ]}.
Proof.
  destruct (broadcast_isolates_failing_subscriber sample_hub "novel_1"
              [("type", VStr "progress")]
              {[ 1%positive; 2%positive; 3%positive ]} 2%positive)
    as (Hrun & _ & _ & _ & Hsubs & _).
  - reflexivity.
  - vm_compute. reflexivity.
  - intros ws Hws. assert (Hb : broken sample_hub = {[ 2%positive ]}) by reflexivity.
    rewrite Hb. set_solver.
  - rewrite Hrun. split; [reflexivity|exact Hsubs].
Defined.

End Broadcast.

(** ** Folder names *)

Section FolderNames.

Import Project.

Context {U : UnicodeDB}.

Local Open Scope list_scope.

Implicit Types (s : list N) (p : N -> bool) (c : N).

Lemma lstrip_suffix p s : exists k, s = k ++ lstrip p s.
Proof.
  induction s as [|c s [k Hk]]; [by exists []|]. simpl.
  destruct (p c).
  - exists (c :: k). simpl. by f_equal.
  - by exists [].
Qed.

Lemma rstrip_prefix p s : exists k, s = rstrip p s ++ k.
Proof.
  unfold rstrip. destruct (lstrip_suffix p (rev s)) as [k Hk].
  exists (rev k). rewrite <- rev_app_distr, <- Hk. by rewrite rev_involutive.
Qed.

Lemma lstrip_head p s c : head (lstrip p s) = Some c -> p c = false.
Proof.
  induction s as [|x s IH]; [done|]. simpl.
  destruct (p x) eqn:Hx; [done|]. simpl. by intros [= <-].
Qed.

Lemma rstrip_last p s c : last (rstrip p s) = Some c -> p c = false.
Proof.
  unfold rstrip. rewrite rev_alt.
  change (last (reverse (lstrip p (rev s))) = Some c -> p c = false).
  rewrite last_reverse. apply lstrip_head.
Qed.

Lemma strip_Forall (Q : N -> Prop) p s : Forall Q s -> Forall Q (strip p s).
Proof.
  intros HQ. unfold strip.
  destruct (lstrip_suffix p s) as [k Hk].
  destruct (rstrip_prefix p (lstrip p s)) as [k' Hk'].
  rewrite Hk, Hk' in HQ.
  apply Forall_app in HQ as [_ HQ]. by apply Forall_app in HQ as [HQ _].
Qed.

Lemma strip_last p s c : last (strip p s) = Some c -> p c = false.
Proof. apply rstrip_last. Qed.

Lemma strip_head p s c : head (strip p s) = Some c -> p c = false.
Proof.
  unfold strip. intros Hc.
  destruct (rstrip_prefix p (lstrip p s)) as [k Hk].
  apply (lstrip_head p s). rewrite Hk.
  destruct (rstrip p (lstrip p s)); [done|]. exact Hc.
Qed.

Lemma residue_chars name : Forall folder_char (residue name).
Proof.
  unfold residue. apply strip_Forall. apply Forall_forall. intros c Hc.
  apply list_elem_of_In, filter_In in Hc as [_ Hc].
  apply orb_true_iff in Hc as [Hc|Hc]; [by left|right].
  by apply N.eqb_eq in Hc.
Qed.

Lemma untitled_project_chars : Forall folder_char untitled_project.
Proof. repeat constructor; left; reflexivity. Qed.

Lemma sanitize_folder_name_cases name :
  (residue name = [] /\ sanitize_folder_name name = untitled_project) \/
  (residue name <> [] /\ sanitize_folder_name name = residue name).
Proof.
  unfold sanitize_folder_name. destruct (residue name); [by left|by right].
Qed.

Lemma folder_char_excludes c s :
  is_word c = false -> c <> hyphen -> Forall folder_char s -> c ∉ s.
Proof.
  intros Hw Hh Hs Hin. rewrite Forall_forall in Hs.
  destruct (Hs c Hin) as [Hc|Hc]; congruence.
Qed.

Lemma strip_hyphen_underscore_ends s c :
  let s' := strip (fun c => (c =? hyphen)%N || (c =? underscore)%N) s in
  head s' = Some c \/ last s' = Some c -> c <> hyphen /\ c <> underscore.
Proof.
  intros s' Hc.
  assert (Hp : (c =? hyphen)%N || (c =? underscore)%N = false).
  { destruct Hc as [Hc|Hc]; [by apply strip_head in Hc|by apply strip_last in Hc]. }
  apply orb_false_iff in Hp as [Hh Hu].
  apply N.eqb_neq in Hh, Hu. done.
Qed.

(** C10, as amended. For every input, [sanitize_folder_name] returns a
    non-empty string made of word characters (letters, digits, underscore)
    and hyphens only, so without space, slash or backslash, that neither
    starts nor ends with a hyphen or an underscore; it is
    ["untitled_project"] whenever the rewriting steps leave nothing, and
    what they leave otherwise. *)
Theorem sanitize_folder_name_shape name :
  let r := sanitize_folder_name name in
  r <> []
  /\ Forall folder_char r
  /\ (space ∉ r) /\ (47%N ∉ r) /\ (92%N ∉ r)
  /\ (forall c, head r = Some c -> c <> hyphen /\ c <> underscore)
  /\ (forall c, last r = Some c -> c <> hyphen /\ c <> underscore)
  /\ (residue name = [] -> r = untitled_project)
  /\ (residue name <> [] -> r = residue name).
Proof.
  intros r.
  assert (Hchars : Forall folder_char r).
  { subst r. destruct (sanitize_folder_name_cases name) as [[_ ->]|[_ ->]].
    - apply untitled_project_chars.
    - apply residue_chars. }
  assert (Hends : forall c, head r = Some c \/ last r = Some c ->
                            c <> hyphen /\ c <> underscore).
  { subst r. destruct (sanitize_folder_name_cases name) as [[_ ->]|[_ ->]].
    - intros c [[= <-]|[= <-]]; done.
    - intros c. apply strip_hyphen_underscore_ends. }
  split; [|split; [done|repeat split]].
  - subst r. destruct (sanitize_folder_name_cases name) as [[_ ->]|[? ->]]; done.
  - by apply folder_char_excludes.
  - by apply folder_char_excludes.
  - by apply folder_char_excludes.
  - apply Hends. by left.
  - apply Hends. by left.
  - apply Hends. by right.
  - apply Hends. by right.
  - subst r. destruct (sanitize_folder_name_cases name) as [[_ ->]|[? ->]]; done.
  - subst r. destruct (sanitize_folder_name_cases name) as [[? ->]|[_ ->]]; done.
Qed.

End FolderNames.

(** C10, as stated, fails in one direction: the name ["untitled_project"]
    is returned for the input ["untitled_project"], of which the rewriting
    steps leave all sixteen characters. *)
Lemma sanitize_untitled_project_itself :
  Project.sanitize_folder_name (U := Project.ascii_only) (Project.of_string "untitled_project")
    = Project.of_string "untitled_project"
  /\ length (Project.residue (U := Project.ascii_only) (Project.of_string "untitled_project"))
    = 16%nat.
Proof. split; reflexivity. Qed.

(** ** The tool handlers *)

Section Handlers.

Arguments String.append : simpl never.
Arguments Py.str_int : simpl never.
Arguments Py.format_02d : simpl never.
Arguments Py.len : simpl never.
Arguments Py.truthy : simpl never.
Arguments Py.endswith : simpl never.
Arguments OsPath.join : simpl never.
Arguments OsPath.dirname : simpl never.
Arguments String.eqb : simpl never.
Arguments Z.leb : simpl never.
Arguments allowed_edge : simpl never.
Arguments exists_at : simpl never.
Arguments WriteFileTool.md_name : simpl never.

(** Running a handler symbolically: the monad and the primitives are
    unfolded, then every test the code makes is split in two. *)
Ltac unfold_tool :=
  cbv [execute CritiqueChapterTool.execute ApproveChapterTool.execute
       RequestRevisionTool.execute GetChapterContextTool.execute
       FinalizeChapterTool.execute WriteFileTool.execute
       bind ret raise gets modify try_except
       get_active_project_folder get_state state_attr state_update
       update_phase increment_chapter save_state
       makedirs write_text append_text read_text path_exists] in *.

(** A fresh equation that contradicts what is known closes its branch. *)
Ltac refute E :=
  repeat (match goal with
          | H : ?t = _ |- _ =>
              tryif constr_eq H E then fail
              else lazymatch type of E with context [t] => rewrite H in E end
          end; simpl in E);
  discriminate E.

(** The innermost test first: a scrutinee that itself waits for a test is
    left for later. A test whose outcome is known is rewritten, any other is
    split in two. *)
Ltac split_test :=
  match goal with
  | |- context [match ?x with _ => _ end] =>
      lazymatch x with
      | context [match _ with _ => _ end] => fail
      | _ =>
          first
            [ match goal with H : x = _ |- _ => rewrite H end
            | let E := fresh "E" in destruct x eqn:E; try solve [refute E] ]
      end
  end.

Ltac split_tests := repeat (simpl; split_test; simplify_eq).

(** What is known of the world and the state, used in the goal. *)
Ltac use_known :=
  repeat match goal with
         | H : ?f ?a = _ |- context [?f ?a] => rewrite H
         end.

Ltac run_tool :=
  unfold_tool; split_tests; simpl; simplify_eq;
  repeat (progress use_known; simpl).

Lemma append_if_absent_subseteq x (l1 l2 : list Z) :
  l1 ⊆ l2 -> append_if_absent x l1 ⊆ append_if_absent x l2.
Proof.
  intros Hsub y. unfold append_if_absent, contains.
  repeat case_bool_decide; set_solver.
Qed.

Lemma append_if_absent_elem x (l : list Z) : x ∈ append_if_absent x l.
Proof.
  unfold append_if_absent, contains. case_bool_decide; set_solver.
Qed.

(** [approve_chapter] is the only handler that writes the chapter lists. *)
Lemma execute_chapter_lists c w :
  is_approve_chapter c = false ->
  chapter_lists (snd (execute c w)) = chapter_lists w.
Proof.
  intros Hc. unfold chapter_lists.
  destruct c; try discriminate Hc; run_tool; congruence.
Qed.

(** [approve_chapter] either leaves the lists alone or records the chapter
    in both, in [chapters_completed] first. *)
Lemma approve_chapter_lists n notes w :
  let w' := snd (ApproveChapterTool.execute n notes w) in
  chapter_lists w' = chapter_lists w \/
  exists st, state w = Some st /\
    chapter_lists w' =
      Some (append_if_absent n (chapters_completed st),
            append_if_absent n (chapters_approved st)).
Proof.
  unfold chapter_lists. run_tool; try (left; congruence).
  all: right; eexists; split; [reflexivity|]; simpl; congruence.
Qed.

(** [request_revision] reads the iteration counters and never writes
    them. *)
Lemma request_revision_keeps_iterations n notes w :
  stored_iterations (snd (RequestRevisionTool.execute n notes w)) = stored_iterations w.
Proof.
  unfold stored_iterations. run_tool; congruence.
Qed.

(** [critique_chapter] advances the counter of its chapter by one, whatever
    becomes of the critique file and of the snapshot. *)
Lemma critique_chapter_counts n text w st :
  folder_truthy (active_project_folder w) = true ->
  state w = Some st ->
  stored_count (snd (CritiqueChapterTool.execute n text w)) n = iterations_get st n + 1.
Proof.
  intros Hfolder Hst. unfold stored_count, iterations_get.
  run_tool; rewrite ?lookup_insert_eq; simpl; lia.
Qed.

(** The guard of [request_revision]: with a project folder and a state, the
    call returns the auto-approval, and nothing else happens, exactly when
    the stored count has reached [max_iterations]. *)
Lemma request_revision_guard n notes w st :
  folder_truthy (active_project_folder w) = true ->
  state w = Some st ->
  auto_approved (fst (RequestRevisionTool.execute n notes w))
    = (RequestRevisionTool.max_iterations <=? iterations_get st n)%Z
  /\ ((RequestRevisionTool.max_iterations <= iterations_get st n)%Z ->
      RequestRevisionTool.execute n notes w = (Ok (auto_approve_result n), w)).
Proof.
  intros Hfolder Hst. split.
  - run_tool; done.
  - intros Hmax. apply Z.leb_le in Hmax.
    run_tool; done.
Qed.

(** C1, as amended. [request_revision] never changes a stored iteration
    count; each [critique_chapter] call on a chapter advances the count of
    that chapter by one; and a [request_revision] call on the chapter returns
    [auto_approve = true], with [success = false], no transition and the world
    untouched, exactly when the stored count is at least [max_iterations]
    (the constant 2). *)
Theorem revision_guard_counts_critiques (w : World) (st : NovelState) (n : Z) :
  folder_truthy (active_project_folder w) = true ->
  state w = Some st ->
  (forall w' n' notes,
      stored_iterations (snd (RequestRevisionTool.execute n' notes w')) = stored_iterations w')
  /\ (forall text,
      stored_count (snd (CritiqueChapterTool.execute n text w)) n = iterations_get st n + 1)
  /\ (forall notes,
      auto_approved (fst (RequestRevisionTool.execute n notes w))
        = (RequestRevisionTool.max_iterations <=? iterations_get st n)%Z)
  /\ (forall notes,
      (RequestRevisionTool.max_iterations <= iterations_get st n)%Z ->
      RequestRevisionTool.execute n notes w = (Ok (auto_approve_result n), w)
      /\ succeeded (Ok (auto_approve_result n)) = false
      /\ has_transition (Ok (auto_approve_result n)) = false).
Proof.
  intros Hfolder Hst. split; [|split; [|split]].
  - intros. apply request_revision_keeps_iterations.
  - intros. by apply critique_chapter_counts.
  - intros. by apply request_revision_guard.
  - intros notes Hmax. split; [|done].
    by apply (request_revision_guard n notes w st).
Qed.

Lemma revision_guard_counts_critiques_witness :
  stored_count (snd (CritiqueChapterTool.execute 1 "slow start" sample_world)) 1 = 1
  /\ auto_approved (fst (RequestRevisionTool.execute 1 "tighten" sample_world)) = false
  /\ auto_approved (fst (RequestRevisionTool.execute 1 "tighten" critiqued_twice)) = true.
Proof.
  destruct (revision_guard_counts_critiques sample_world sample_state 1 eq_refl eq_refl)
    as (_ & Hcount & Hguard & _).
  destruct (revision_guard_counts_critiques critiqued_twice
              (set_chapter_critique_iterations {[ 1 := 2 ]} sample_state) 1 eq_refl eq_refl)
    as (_ & _ & Hguard' & _).
  split; [exact (Hcount "slow start")|].
  split; [exact (Hguard "tighten")|exact (Hguard' "tighten")].
Defined.

(** C1, as stated, fails: a [request_revision] call leaves the stored
    count at 0, where [min(1, max_iterations)] is 1; and in a run of three
    [request_revision] calls on chapter 1, the chapter finalized again in
    between and never approved, no call returns [auto_approve], the third
    (number [max_iterations + 1]) included. *)
Lemma request_revision_does_not_count :
  stored_count (snd (RequestRevisionTool.execute 1 "tighten" sample_world)) 1 = 0
  /\ Z.min 1 RequestRevisionTool.max_iterations = 1
  /\ (let run :=
        execute_all [request_revision 1 "tighten"; finalize_chapter 1 "";
                     request_revision 1 "tighten"; finalize_chapter 1 "";
                     request_revision 1 "tighten"] sample_world in
      match fst run with
      | Ok [r1; _; r2; _; r3] =>
          map succeeded [Ok r1; Ok r2; Ok r3] = [true; true; true]
          /\ map auto_approved [Ok r1; Ok r2; Ok r3] = [false; false; false]
          /\ stored_count (snd run) 1 = 0
      | _ => False
      end).
Proof. vm_compute. repeat split; reflexivity. Qed.

(** [update_phase] validates before it mutates. *)
Lemma update_phase_rejects w st to :
  state w = Some st ->
  allowed_edge (phase st) to = false ->
  update_phase to w = (Raise (StateConflictError (phase st) to), w).
Proof. intros Hst Hedge. run_tool; done. Qed.

(** No handler moves the phase except along an edge of the table. *)
Lemma execute_phase_edge c w st :
  state w = Some st ->
  exists st', state (snd (execute c w)) = Some st'
    /\ (phase st' = phase st \/ allowed_edge (phase st) (phase st') = true).
Proof.
  intros Hst.
  destruct c; run_tool; (eexists; split; [reflexivity|]); simpl; auto.
Qed.

(** A handler whose requested edge is outside the table reports no success
    and leaves the phase. *)
Lemma execute_off_table c w st to :
  state w = Some st ->
  requested_phase c st = Some to ->
  allowed_edge (phase st) to = false ->
  stored_phase (snd (execute c w)) = Some (phase st)
  /\ succeeded (fst (execute c w)) = false.
Proof.
  intros Hst Hreq Hedge. unfold stored_phase.
  destruct c; simpl in Hreq; try discriminate Hreq.
  - destruct (total_chapters st <=? _)%Z eqn:Hcmp; injection Hreq as <-;
      run_tool; done.
  - injection Hreq as <-. run_tool; done.
  - injection Hreq as <-. run_tool; done.
Qed.

(** [finalize_chapter] outside [WRITING], the chapter file being there:
    the conflict raised by [update_phase] leaves the handler, and the world
    is as before. *)
Lemma finalize_chapter_conflict n notes w st :
  state w = Some st ->
  allowed_edge (phase st) WRITE_CRITIQUE = false ->
  folder_truthy (active_project_folder w) = true ->
  exists_at w
    (OsPath.join (OsPath.join (folder_path (active_project_folder w)) "manuscript")
       ("chapter_" +:+ Py.format_02d n +:+ ".md")) = true ->
  FinalizeChapterTool.execute n notes w
    = (Raise (StateConflictError (phase st) WRITE_CRITIQUE), w).
Proof. intros Hst Hedge Hfolder Hfile. run_tool; done. Qed.

(** C2. A phase change along an edge that is not in the table is refused
    with [StateConflictError] before anything is written, so the stored
    phase stays: this is how [update_phase] answers; a handler whose
    requested phase is off the table reports no success and leaves the phase
    ([finalize_chapter] outside [WRITING] lets the conflict through to its
    caller); whatever a handler does, the phase moves along an edge of the
    table or not at all; and no edge leaves [COMPLETE]. *)
Theorem off_table_transition_rejected (w : World) (st : NovelState) :
  state w = Some st ->
  (forall to,
      allowed_edge (phase st) to = false ->
      update_phase to w = (Raise (StateConflictError (phase st) to), w))
  /\ (forall c to,
      requested_phase c st = Some to ->
      allowed_edge (phase st) to = false ->
      stored_phase (snd (execute c w)) = Some (phase st)
      /\ succeeded (fst (execute c w)) = false)
  /\ (forall n notes,
      phase st <> WRITING ->
      folder_truthy (active_project_folder w) = true ->
      exists_at w
        (OsPath.join (OsPath.join (folder_path (active_project_folder w)) "manuscript")
           ("chapter_" +:+ Py.format_02d n +:+ ".md")) = true ->
      FinalizeChapterTool.execute n notes w
        = (Raise (StateConflictError (phase st) WRITE_CRITIQUE), w))
  /\ (forall c,
      exists st', state (snd (execute c w)) = Some st'
        /\ (phase st' = phase st \/ allowed_edge (phase st) (phase st') = true))
  /\ (forall to, allowed_edge COMPLETE to = false).
Proof.
  intros Hst. split; [|split; [|split; [|split]]].
  - intros. by apply update_phase_rejects.
  - intros. by apply (execute_off_table c w st to).
  - intros n notes Hphase Hfolder Hfile.
    apply finalize_chapter_conflict; try done.
    by destruct (phase st).
  - intros. by apply execute_phase_edge.
  - by intros [].
Qed.

Lemma off_table_transition_rejected_witness :
  FinalizeChapterTool.execute 1 "" sample_world
    = (Raise (StateConflictError WRITE_CRITIQUE WRITE_CRITIQUE), sample_world)
  /\ update_phase PLANNING sample_world
    = (Raise (StateConflictError WRITE_CRITIQUE PLANNING), sample_world).
Proof.
  destruct (off_table_transition_rejected sample_world sample_state eq_refl)
    as (Hupdate & _ & Hfinalize & _).
  split.
  - apply (Hfinalize 1 ""); [discriminate|reflexivity|reflexivity].
  - apply (Hupdate PLANNING). reflexivity.
Defined.

(** C3, as amended. After an [approve_chapter] call that reports success,
    the chapter is on [chapters_approved] and the phase is [COMPLETE] if and
    only if the number of approved chapters is at least [total_chapters];
    when it is less (more chapters remain), the phase is [WRITING] and
    [current_chapter] has advanced by one. *)
Theorem approve_chapter_outcome (w : World) (st : NovelState) (n : Z) (notes : string) :
  state w = Some st ->
  succeeded (fst (ApproveChapterTool.execute n notes w)) = true ->
  exists st',
    state (snd (ApproveChapterTool.execute n notes w)) = Some st'
    /\ chapters_approved st' = append_if_absent n (chapters_approved st)
    /\ total_chapters st' = total_chapters st
    /\ (phase st' = COMPLETE <->
        total_chapters st' <= Z.of_nat (length (chapters_approved st')))
    /\ (Z.of_nat (length (chapters_approved st')) < total_chapters st' ->
        phase st' = WRITING /\ current_chapter st' = current_chapter st + 1).
Proof.
  intros Hst. run_tool; intros Hok; try discriminate Hok.
  all: (eexists; split; [reflexivity|]); simpl.
  all: repeat match goal with
         | H : (_ <=? _)%Z = true |- _ => apply Z.leb_le in H
         | H : (_ <=? _)%Z = false |- _ => apply Z.leb_gt in H
         end.
  all: repeat split; try done; try lia.
Qed.

Lemma approve_chapter_outcome_witness :
  exists st',
    state (snd (ApproveChapterTool.execute 1 "ok" sample_world)) = Some st'
    /\ chapters_approved st' = append_if_absent 1 (chapters_approved sample_state)
    /\ total_chapters st' = total_chapters sample_state
    /\ (phase st' = COMPLETE <->
        total_chapters st' <= Z.of_nat (length (chapters_approved st')))
    /\ (Z.of_nat (length (chapters_approved st')) < total_chapters st' ->
        phase st' = WRITING /\ current_chapter st' = current_chapter sample_state + 1).
Proof.
  apply (approve_chapter_outcome sample_world sample_state 1 "ok"); reflexivity.
Defined.

(** C3, as stated, fails. With [total_chapters = 1] and chapter 1 approved,
    a successful [approve_chapter] call for chapter 2 sets the phase to
    [COMPLETE] with two approved chapters; and from the sample world,
    approving chapter 1 and then chapter 2 leaves the phase [COMPLETE] with
    two approved chapters as well. *)
Lemma approve_beyond_total :
  (let r := ApproveChapterTool.execute 2 "ok" approved_once in
   stored_phase approved_once = Some WRITE_CRITIQUE
   /\ succeeded (fst r) = true
   /\ stored_phase (snd r) = Some COMPLETE
   /\ (chapters_approved <$> state (snd r)) = Some [1; 2]
   /\ (total_chapters <$> state (snd r)) = Some 1)
  /\ (let w2 :=
        snd (execute_all [approve_chapter 1 "ok"; approve_chapter 2 "ok"] sample_world) in
      stored_phase w2 = Some COMPLETE
      /\ chapter_lists w2 = Some ([1; 2], [1; 2])
      /\ (total_chapters <$> state w2) = Some 1).
Proof. vm_compute. repeat split; reflexivity. Qed.

(** C4. Every handler keeps [chapters_approved] within
    [chapters_completed]: [approve_chapter], the only one that writes the
    two lists, records the chapter as completed before it records it as
    approved, and the others leave both lists as they are. *)
Theorem approved_within_completed_preserved (c : ToolCall) (w : World) :
  approved_within_completed w ->
  approved_within_completed (snd (execute c w)).
Proof.
  unfold approved_within_completed. intros Hinv st' Hst'.
  assert (Hlists : chapter_lists (snd (execute c w))
                   = Some (chapters_completed st', chapters_approved st'))
    by (unfold chapter_lists; by rewrite Hst').
  destruct (is_approve_chapter c) eqn:Hc.
  - destruct c; try discriminate Hc. simpl in Hlists.
    destruct (approve_chapter_lists chapter_number approval_notes w)
      as [Hsame|(st & Hst & Hnew)].
    + rewrite Hsame in Hlists. unfold chapter_lists in Hlists.
      destruct (state w) as [st|] eqn:Hst; [|discriminate Hlists].
      injection Hlists as Hcompleted Happroved.
      rewrite <- Hcompleted, <- Happroved. by apply Hinv.
    + rewrite Hnew in Hlists. injection Hlists as Hcompleted Happroved.
      rewrite <- Hcompleted, <- Happroved.
      apply append_if_absent_subseteq. by apply Hinv.
  - rewrite execute_chapter_lists in Hlists by done.
    unfold chapter_lists in Hlists.
    destruct (state w) as [st|] eqn:Hst; [|discriminate Hlists].
    injection Hlists as Hcompleted Happroved.
    rewrite <- Hcompleted, <- Happroved. by apply Hinv.
Qed.

Lemma approved_within_completed_preserved_witness :
  approved_within_completed sample_world /\
  approved_within_completed (snd (execute (approve_chapter 1 "ok") sample_world)).
Proof.
  assert (H : approved_within_completed sample_world).
  { intros st [= <-]. simpl. set_solver. }
  split; [exact H|].
  apply (approved_within_completed_preserved (approve_chapter 1 "ok") sample_world H).
Defined.

(** A handler attempts the snapshot write at most once per call, as its
    last step: afterwards the snapshot is the one from before the call or the
    state the call leaves. *)
Lemma execute_saves_once c w :
  (length (save_script w) <= S (length (save_script (snd (execute c w)))))%nat
  /\ (saved (snd (execute c w)) = saved w
      \/ saved (snd (execute c w)) = state (snd (execute c w))).
Proof.
  destruct c; run_tool; split; auto; simpl; lia.
Qed.

(** [approve_chapter] when the write fails: the error is caught and
    reported, the lists and the phase stay as written. *)
Lemma approve_chapter_save_fails n notes w st rest :
  folder_truthy (active_project_folder w) = true ->
  state w = Some st ->
  save_script w = false :: rest ->
  phase st = WRITE_CRITIQUE ->
  io_fault w (OsPath.join (folder_path (active_project_folder w)) "critiques") = false ->
  io_fault w
    (OsPath.join (OsPath.join (folder_path (active_project_folder w)) "critiques")
       ("chapter_" +:+ Py.format_02d n +:+ "_approval.md")) = false ->
  let w' := snd (ApproveChapterTool.execute n notes w) in
  fst (ApproveChapterTool.execute n notes w)
    = Ok (failure ("Error approving chapter: " +:+ str_exn PersistenceError))
  /\ saved w' = saved w
  /\ save_script w' = rest
  /\ exists st', state w' = Some st'
       /\ n ∈ chapters_approved st'
       /\ (phase st' = COMPLETE \/ phase st' = WRITING).
Proof.
  intros Hfolder Hst Hsave Hphase Hdir Hfile.
  assert (Hcomplete : allowed_edge (phase st) COMPLETE = true) by (by rewrite Hphase).
  assert (Hwriting : allowed_edge (phase st) WRITING = true) by (by rewrite Hphase).
  clear Hphase.
  run_tool; repeat split; try done.
  all: eexists; split; [reflexivity|]; simpl; split; auto using append_if_absent_elem.
Qed.

(** [finalize_chapter] when the write fails: the error leaves the handler,
    the phase and the chapter number stay as written. *)
Lemma finalize_chapter_save_fails n notes w st rest :
  folder_truthy (active_project_folder w) = true ->
  state w = Some st ->
  save_script w = false :: rest ->
  phase st = WRITING ->
  exists_at w
    (OsPath.join (OsPath.join (folder_path (active_project_folder w)) "manuscript")
       ("chapter_" +:+ Py.format_02d n +:+ ".md")) = true ->
  let w' := snd (FinalizeChapterTool.execute n notes w) in
  fst (FinalizeChapterTool.execute n notes w) = Raise PersistenceError
  /\ saved w' = saved w
  /\ save_script w' = rest
  /\ state w' = Some (set_current_chapter n (set_phase WRITE_CRITIQUE st)).
Proof.
  intros Hfolder Hst Hsave Hphase Hfile.
  assert (Hedge : allowed_edge (phase st) WRITE_CRITIQUE = true) by (by rewrite Hphase).
  clear Hphase.
  run_tool; done.
Qed.

(** C5, as amended. No handler retries the snapshot write or undoes what
    it wrote to the state: every handler attempts the write at most once per
    call; and when the attempt fails, [approve_chapter] reports a failure
    result and [finalize_chapter] lets the [PersistenceError] through, while
    the state keeps the chapter, the phase and the chapter number the handler
    wrote and the snapshot keeps what it held. *)
Theorem persistence_failure_not_undone
    (w : World) (st : NovelState) (n : Z) (rest : list bool) :
  folder_truthy (active_project_folder w) = true ->
  state w = Some st ->
  save_script w = false :: rest ->
  (forall c w0,
      (length (save_script w0) <= S (length (save_script (snd (execute c w0)))))%nat)
  /\ (forall notes,
      phase st = WRITE_CRITIQUE ->
      io_fault w (OsPath.join (folder_path (active_project_folder w)) "critiques") = false ->
      io_fault w
        (OsPath.join (OsPath.join (folder_path (active_project_folder w)) "critiques")
           ("chapter_" +:+ Py.format_02d n +:+ "_approval.md")) = false ->
      let w' := snd (ApproveChapterTool.execute n notes w) in
      fst (ApproveChapterTool.execute n notes w)
        = Ok (failure ("Error approving chapter: " +:+ str_exn PersistenceError))
      /\ saved w' = saved w
      /\ save_script w' = rest
      /\ exists st', state w' = Some st'
           /\ n ∈ chapters_approved st'
           /\ (phase st' = COMPLETE \/ phase st' = WRITING))
  /\ (forall notes,
      phase st = WRITING ->
      exists_at w
        (OsPath.join (OsPath.join (folder_path (active_project_folder w)) "manuscript")
           ("chapter_" +:+ Py.format_02d n +:+ ".md")) = true ->
      let w' := snd (FinalizeChapterTool.execute n notes w) in
      fst (FinalizeChapterTool.execute n notes w) = Raise PersistenceError
      /\ saved w' = saved w
      /\ save_script w' = rest
      /\ state w' = Some (set_current_chapter n (set_phase WRITE_CRITIQUE st))).
Proof.
  intros Hfolder Hst Hsave. split; [|split].
  - intros. apply execute_saves_once.
  - intros. by apply (approve_chapter_save_fails n notes w st rest).
  - intros. by apply (finalize_chapter_save_fails n notes w st rest).
Qed.

Lemma persistence_failure_not_undone_witness :
  fst (ApproveChapterTool.execute 1 "ok" flaky_world)
    = Ok (failure ("Error approving chapter: " +:+ str_exn PersistenceError))
  /\ saved (snd (ApproveChapterTool.execute 1 "ok" flaky_world)) = saved flaky_world
  /\ save_script (snd (ApproveChapterTool.execute 1 "ok" flaky_world)) = [true].
Proof.
  destruct (persistence_failure_not_undone flaky_world sample_state 1 [true]
              eq_refl eq_refl eq_refl) as (_ & Happrove & _).
  destruct (Happrove "ok" eq_refl eq_refl eq_refl) as (Hr & Hsaved & Hscript & _).
  split; [exact Hr|]. split; [exact Hsaved|exact Hscript].
Defined.

(** C5, as stated, fails: the snapshot write fails once and would succeed
    on a second attempt; [approve_chapter] makes no second attempt, reports
    failure, and leaves the state at [COMPLETE] with chapter 1 approved while
    the snapshot still says [WRITE_CRITIQUE] with no chapter approved. *)
Lemma approve_chapter_no_retry_no_rollback :
  let w' := snd (ApproveChapterTool.execute 1 "ok" flaky_world) in
  succeeded (fst (ApproveChapterTool.execute 1 "ok" flaky_world)) = false
  /\ save_script flaky_world = [false; true]
  /\ save_script w' = [true]
  /\ (phase <$> saved flaky_world) = stored_phase flaky_world
  /\ stored_phase w' = Some COMPLETE
  /\ (phase <$> saved w') = Some WRITE_CRITIQUE
  /\ (chapters_approved <$> state w') = Some [1]
  /\ (chapters_approved <$> saved w') = Some [].
Proof. vm_compute. repeat split; reflexivity. Qed.

(** C8 fails on the code: the bound of the guard is the constant 2 of
    [request_revision], not the configured value. With
    [max_write_critique_iterations = 5], a valid configuration, and chapter 1
    critiqued twice, [request_revision] already returns the auto-approval. *)
Lemma request_revision_bound_not_configured :
  let config :=
    {| max_plan_critique_iterations := 2; max_write_critique_iterations := 5 |} in
  AgentConfig_valid config
  /\ stored_count critiqued_twice 1 = 2
  /\ stored_count critiqued_twice 1 < max_write_critique_iterations config
  /\ RequestRevisionTool.execute 1 "tighten" critiqued_twice
     = (Ok (auto_approve_result 1), critiqued_twice).
Proof.
  split; [unfold AgentConfig_valid; simpl; lia|].
  split; [reflexivity|]. split; [reflexivity|].
  vm_compute. reflexivity.
Qed.

(** C9. With a project folder active, [write_file] in mode [create]
    addresses the file [target]: if something exists there, the call reports
    failure and changes nothing; if nothing exists there and the directory
    and the file can be written, the file system afterwards is the one from
    before with the file holding exactly the given content, and the call
    reports success unless the snapshot write that follows fails. *)
Theorem write_file_create (w : World) (root filename content : string) :
  active_project_folder w = Some root ->
  Py.truthy root = true ->
  let path := WriteFileTool.target root filename in
  let r := fst (WriteFileTool.execute filename content "create" w) in
  let w' := snd (WriteFileTool.execute filename content "create" w) in
  (exists_at w path = true -> succeeded r = false /\ w' = w)
  /\ (exists_at w path = false ->
      io_fault w (OsPath.dirname path) = false ->
      io_fault w path = false ->
      files w' = <[ path := content ]> (files w)
      /\ files w' !! path = Some content
      /\ (state w = None \/ save_script w = [] -> succeeded r = true)).
Proof.
  intros Hroot Htruthy path r w'.
  assert (Hmode : String.eqb "create" "create" = true) by reflexivity.
  subst path r w'. unfold WriteFileTool.target. split.
  - intros Hexists. run_tool; done.
  - intros Hexists Hdir Hfile.
    run_tool; rewrite ?lookup_insert_eq; repeat split; try done.
    all: intros [?|?]; congruence.
Qed.

Lemma write_file_create_witness :
  succeeded (fst (WriteFileTool.execute "manuscript/chapter_01" "again" "create" sample_world)) = false
  /\ snd (WriteFileTool.execute "manuscript/chapter_01" "again" "create" sample_world) = sample_world
  /\ files (snd (WriteFileTool.execute "notes" "plot" "create" sample_world))
       !! "output/novel/notes.md" = Some "plot".
Proof.
  destruct (write_file_create sample_world "output/novel" "manuscript/chapter_01" "again"
              eq_refl eq_refl) as [Hthere _].
  destruct (write_file_create sample_world "output/novel" "notes" "plot"
              eq_refl eq_refl) as [_ Hfree].
  destruct (Hthere eq_refl) as [Hfail Hsame].
  destruct (Hfree eq_refl eq_refl eq_refl) as (_ & Hcontent & _).
  split; [exact Hfail|]. split; [exact Hsame|exact Hcontent].
Defined.

End Handlers.

(** ** More on the broadcast hub *)

Section Hub.

Import WebSocketManager WebSocketQueries WebSocketEndpoint.

Local Open Scope list_scope.

Implicit Types (h : Hub) (c : gmap string (gset positive)).
Implicit Types (l : list positive) (ws : positive) (p q : string).

(** [connect] in one equation. *)
Lemma connect_eq h p ws :
  connect p ws h =
    (if bool_decide (ws ∈ broken h) then Raise (ConnectionError ws) else Ok tt,
     {| connections := <[ p := subscribers h p ∪ {[ ws ]} ]> (connections h);
        broken := broken h;
        delivered :=
          if bool_decide (ws ∈ broken h) then delivered h
          else delivered h ++ [(ws, connected_message p (clock h))];
        clock := clock h |}).
Proof.
  unfold connect, bind, modify, gets, _send_to_websocket, subscribers. simpl.
  destruct (connections h !! p) as [live|] eqn:Hp; simpl.
  - rewrite Hp. simpl. by destruct (bool_decide (ws ∈ broken h)).
  - destruct (bool_decide (ws ∈ broken h)); unfold set_connections, set_delivered;
      simpl; rewrite lookup_insert_eq, insert_insert_eq; done.
Qed.

(** X1. [connect] registers the websocket under the project whatever
    happens to the acknowledgment, and touches no other project: a working
    websocket gets the [connected] message and nothing else is sent; for a
    websocket whose send fails the exception leaves [connect] with the
    websocket registered all the same. *)
Theorem connect_registers h p ws :
  let h' := snd (connect p ws h) in
  subscribers h' p = subscribers h p ∪ {[ ws ]}
  /\ (forall q, q <> p -> connections h' !! q = connections h !! q)
  /\ (if bool_decide (ws ∈ broken h)
      then fst (connect p ws h) = Raise (ConnectionError ws)
           /\ delivered h' = delivered h
      else fst (connect p ws h) = Ok tt
           /\ delivered h' = delivered h ++ [(ws, connected_message p (clock h))]).
Proof.
  cbv zeta. rewrite connect_eq. unfold subscribers at 1. simpl.
  split; [by rewrite lookup_insert_eq|].
  split; [by intros; rewrite lookup_insert_ne|].
  by destruct (bool_decide (ws ∈ broken h)).
Qed.

Lemma discard_idempotent p ws c :
  discard p ws (discard p ws c) = discard p ws c.
Proof.
  unfold discard at 2 3. destruct (c !! p) as [live|] eqn:Hp.
  - destruct (bool_decide_reflect (live ∖ {[ws]} = ∅)) as [He|He].
    + unfold discard. by rewrite lookup_delete_eq.
    + unfold discard. rewrite lookup_insert_eq.
      assert (Hsame : live ∖ {[ws]} ∖ {[ws]} = live ∖ {[ws]}) by set_solver.
      rewrite Hsame, bool_decide_eq_false_2 by done.
      by rewrite insert_insert_eq.
  - unfold discard. by rewrite Hp.
Qed.

(** X2. [disconnect] never raises: it removes the websocket from the
    project's set and nothing else, drops the project when the set becomes
    empty, does nothing for a project or websocket it does not know, and a
    second call changes nothing more. *)
Theorem disconnect_removes h p ws :
  let h' := snd (disconnect p ws h) in
  fst (disconnect p ws h) = Ok tt
  /\ subscribers h' p = subscribers h p ∖ {[ ws ]}
  /\ (forall q, q <> p -> connections h' !! q = connections h !! q)
  /\ (subscribers h p ⊆ {[ ws ]} -> connections h' !! p = None)
  /\ (connections h !! p = None -> h' = h)
  /\ snd (disconnect p ws h') = h'
  /\ delivered h' = delivered h.
Proof.
  cbv zeta. unfold disconnect, modify, subscribers. simpl.
  split; [done|]. split; [apply discard_subscribers|].
  split; [intros; by apply discard_other|].
  split; [|split; [|split; [|done]]].
  - intros Hsub. unfold discard.
    destruct (connections h !! p) as [live|] eqn:Hp; simpl in *; [|done].
    rewrite bool_decide_eq_true_2 by set_solver. apply lookup_delete_eq.
  - intros Hp. unfold discard. rewrite Hp. by destruct h.
  - by rewrite discard_idempotent.
Qed.

Lemma discard_no_empty p ws c :
  (forall q live, c !! q = Some live -> live <> ∅) ->
  forall q live, discard p ws c !! q = Some live -> live <> ∅.
Proof.
  intros Hc q live. unfold discard.
  destruct (c !! p) as [lp|] eqn:Hp; [|apply Hc].
  destruct (bool_decide_reflect (lp ∖ {[ws]} = ∅)) as [He|He].
  - destruct (decide (q = p)) as [->|Hne].
    + by rewrite lookup_delete_eq.
    + rewrite lookup_delete_ne by done. apply Hc.
  - destruct (decide (q = p)) as [->|Hne].
    + rewrite lookup_insert_eq. by intros [= <-].
    + rewrite lookup_insert_ne by done. apply Hc.
Qed.

Lemma discard_all_no_empty p l c :
  (forall q live, c !! q = Some live -> live <> ∅) ->
  forall q live,
    foldl (fun c ws => discard p ws c) c l !! q = Some live -> live <> ∅.
Proof.
  revert c. induction l as [|ws l IH]; intros c Hc; [done|].
  simpl. apply IH. by apply discard_no_empty.
Qed.

Lemma discard_all_subscribers p l c :
  default ∅ (foldl (fun c ws => discard p ws c) c l !! p)
    = default ∅ (c !! p) ∖ list_to_set l.
Proof.
  revert c. induction l as [|ws l IH]; intros c; simpl.
  - set_solver.
  - rewrite IH, discard_subscribers. set_solver.
Qed.

Lemma discard_all_other p q l c :
  q <> p -> foldl (fun c ws => discard p ws c) c l !! q = c !! q.
Proof.
  intros Hne. revert c. induction l as [|ws l IH]; intros c; simpl; [done|].
  by rewrite IH, discard_other.
Qed.

(** [broadcast] in one equation, for a project with an entry. *)
Lemma broadcast_eq h p (message : Dict) live :
  connections h !! p = Some live ->
  broadcast p message h =
    (Ok (stamped (clock h) message),
     {| connections :=
          foldl (fun c ws => discard p ws c) (connections h)
            (filter (fun ws => ws ∈ broken h) (elements live));
        broken := broken h;
        delivered :=
          delivered h ++
            ((fun ws => (ws, stamped (clock h) message))
               <$> filter (fun ws => ws ∉ broken h) (elements live));
        clock := clock h |}).
Proof.
  intros Hlive. unfold broadcast, bind, gets. simpl. rewrite Hlive. simpl.
  by rewrite send_to_all_spec.
Qed.

(** X3. The connection map never holds a project with an empty set of
    websockets: the manager starts without entries, and [connect],
    [disconnect] and [broadcast] each keep it that way. *)
Theorem no_empty_entry_kept h p ws (message : Dict) :
  no_empty_entry h ->
  no_empty_entry (snd (connect p ws h))
  /\ no_empty_entry (snd (disconnect p ws h))
  /\ no_empty_entry (snd (broadcast p message h))
  /\ (forall failing stamp, no_empty_entry (init failing stamp)).
Proof.
  unfold no_empty_entry. intros Hinv. split; [|split; [|split]].
  - rewrite connect_eq. simpl. intros q live.
    destruct (decide (q = p)) as [->|Hne].
    + rewrite lookup_insert_eq. intros [= <-]. set_solver.
    + rewrite lookup_insert_ne by done. apply Hinv.
  - unfold disconnect, modify. simpl. by apply discard_no_empty.
  - destruct (connections h !! p) as [live|] eqn:Hp.
    + rewrite (broadcast_eq h p message live Hp). simpl.
      by apply discard_all_no_empty.
    + unfold broadcast, bind, gets. simpl. by rewrite Hp.
  - intros failing stamp q live. simpl. by rewrite lookup_empty.
Qed.

Lemma no_empty_entry_kept_witness :
  no_empty_entry sample_hub
  /\ no_empty_entry (snd (broadcast "novel_1" [("type", VStr "progress")] sample_hub)).
Proof.
  assert (H : no_empty_entry sample_hub).
  { intros q live. unfold sample_hub. simpl.
    destruct (decide (q = "novel_1")) as [->|Hne].
    - rewrite lookup_singleton_eq. intros [= <-]. set_solver.
    - by rewrite lookup_singleton_ne. }
  split; [exact H|].
  apply (no_empty_entry_kept sample_hub "novel_1" 1%positive
           [("type", VStr "progress")] H).
Defined.

(** X4. Connecting a websocket that is not yet registered for the project
    and disconnecting it again gives back the connection map as it was, the
    project's entry removed again if the websocket was its only one. *)
Theorem connect_disconnect_restores h p ws :
  no_empty_entry h ->
  ws ∉ subscribers h p ->
  connections (snd (disconnect p ws (snd (connect p ws h)))) = connections h.
Proof.
  intros Hinv Hnew. rewrite connect_eq. unfold disconnect, modify. simpl.
  unfold discard. rewrite lookup_insert_eq.
  unfold subscribers in *.
  destruct (connections h !! p) as [live|] eqn:Hp; simpl in *.
  - assert (Hsame : (live ∪ {[ws]}) ∖ {[ws]} = live) by set_solver.
    rewrite Hsame, bool_decide_eq_false_2 by (by apply (Hinv p)).
    rewrite insert_insert_eq. by apply insert_id.
  - rewrite bool_decide_eq_true_2 by set_solver.
    rewrite delete_insert_eq. by apply delete_id.
Qed.

Lemma connect_disconnect_restores_witness :
  connections (snd (disconnect "novel_2" 7%positive
                      (snd (connect "novel_2" 7%positive sample_hub))))
    = connections sample_hub.
Proof.
  apply connect_disconnect_restores.
  - intros q live. unfold sample_hub. simpl.
    destruct (decide (q = "novel_1")) as [->|Hne].
    + rewrite lookup_singleton_eq. intros [= <-]. set_solver.
    + by rewrite lookup_singleton_ne.
  - vm_compute. set_solver.
Defined.

(** X5. For a project with an entry, [broadcast] never raises, however
    many sends fail: every websocket of the set as it was at the call whose
    send works gets the time-stamped message exactly once, every one whose
    send fails is removed from the project's set, and no other project is
    touched. When every send works, the connection map is left as it was. *)
Theorem broadcast_best_effort h p (message : Dict) (live : gset positive) :
  connections h !! p = Some live ->
  let sent := stamped (clock h) message in
  let recipients := filter (fun ws => ws ∉ broken h) (elements live) in
  let h' := snd (broadcast p message h) in
  fst (broadcast p message h) = Ok sent
  /\ delivered h' = delivered h ++ ((fun ws => (ws, sent)) <$> recipients)
  /\ NoDup recipients
  /\ (forall ws, ws ∈ recipients <-> ws ∈ live /\ ws ∉ broken h)
  /\ subscribers h' p = live ∖ broken h
  /\ (forall q, q <> p -> connections h' !! q = connections h !! q)
  /\ (live ## broken h -> connections h' = connections h).
Proof.
  intros Hlive. cbv zeta. rewrite (broadcast_eq h p message live Hlive). simpl.
  split; [done|]. split; [done|].
  split; [apply NoDup_filter, NoDup_elements|].
  split; [intros ws; rewrite list_elem_of_filter, elem_of_elements; tauto|].
  split; [|split].
  - unfold subscribers. simpl. rewrite discard_all_subscribers, Hlive. simpl.
    apply set_eq. intros ws.
    rewrite !elem_of_difference, elem_of_list_to_set, list_elem_of_filter,
      elem_of_elements. tauto.
  - intros q Hq. by apply discard_all_other.
  - intros Hdisj. rewrite (filter_none _ (elements live)); [done|].
    intros ws Hws. apply elem_of_elements in Hws. set_solver.
Qed.

Lemma broadcast_best_effort_witness :
  subscribers (snd (broadcast "novel_1" [("type", VStr "progress")] sample_hub)) "novel_1"
    = {[ 1%positive; 2%positive; 3%positive ]} ∖ WebSocketManager.broken sample_hub.
Proof.
  destruct (broadcast_best_effort sample_hub "novel_1" [("type", VStr "progress")]
              {[ 1%positive; 2%positive; 3%positive ]} eq_refl)
    as (_ & _ & _ & _ & Hsubs & _).
  exact Hsubs.
Defined.

Lemma dict_get_set_eq k v (d : Dict) : dict_get k (dict_set k v d) = Some v.
Proof.
  induction d as [|[k' v'] d IH]; simpl.
  - by rewrite String.eqb_refl.
  - destruct (String.eqb k k') eqn:Hk; simpl; rewrite ?String.eqb_refl, ?Hk; done.
Qed.

Lemma dict_get_set_ne k k' v (d : Dict) :
  k' <> k -> dict_get k' (dict_set k v d) = dict_get k' d.
Proof.
  intros Hne. induction d as [|[k0 v0] d IH]; simpl.
  - by rewrite (proj2 (String.eqb_neq k' k)).
  - destruct (String.eqb k k0) eqn:Hk; simpl.
    + apply String.eqb_eq in Hk as <-.
      by rewrite (proj2 (String.eqb_neq k' k)).
    + by rewrite IH.
Qed.

(** X6. The message [broadcast] sends always carries a timestamp: a
    timestamp the caller put in is kept, otherwise the clock's is added, and
    every other key is sent as given. Sending the sent message again changes
    nothing. *)
Theorem broadcast_timestamp h p (message : Dict) (live : gset positive) :
  connections h !! p = Some live ->
  exists sent,
    fst (broadcast p message h) = Ok sent
    /\ dict_get "timestamp" sent
       = Some (default (VStr (clock h)) (dict_get "timestamp" message))
    /\ (forall k, k <> "timestamp" -> dict_get k sent = dict_get k message)
    /\ (forall stamp, stamped stamp sent = sent).
Proof.
  intros Hlive. exists (stamped (clock h) message).
  rewrite (broadcast_eq h p message live Hlive). simpl.
  split; [done|]. unfold stamped, dict_mem.
  destruct (dict_get "timestamp" message) as [v|] eqn:Hts; simpl.
  - rewrite Hts. simpl. done.
  - rewrite !dict_get_set_eq. simpl. split; [done|]. split; [|done].
    intros k Hk. by apply dict_get_set_ne.
Qed.

Lemma broadcast_timestamp_witness :
  exists sent,
    fst (broadcast "novel_1" [("type", VStr "progress")] sample_hub) = Ok sent
    /\ dict_get "timestamp" sent
       = Some (default (VStr (clock sample_hub))
                 (dict_get "timestamp" [("type", VStr "progress")]))
    /\ (forall k, k <> "timestamp" ->
          dict_get k sent = dict_get k [("type", VStr "progress")])
    /\ (forall stamp, stamped stamp sent = sent).
Proof.
  apply (broadcast_timestamp sample_hub "novel_1" [("type", VStr "progress")]
           {[ 1%positive; 2%positive; 3%positive ]}).
  reflexivity.
Defined.

(** X7. The two queries agree with each other and, the map holding no
    empty set, with the test [broadcast] starts with: a project has
    connections exactly when its count is positive, which is exactly when it
    has an entry in the map. *)
Theorem has_connections_iff h p :
  no_empty_entry h ->
  (has_connections p h = true <-> (0 < get_connection_count p h)%nat)
  /\ (has_connections p h = true <-> is_Some (connections h !! p))
  /\ get_connection_count p h = size (subscribers h p).
Proof.
  intros Hinv. unfold has_connections, get_connection_count, subscribers.
  destruct (connections h !! p) as [live|] eqn:Hp; cbn [default from_option id].
  - assert (Hpos : (0 < size live)%nat).
    { destruct (decide (size live = 0%nat)) as [H0|H0]; [|lia].
      apply size_empty_iff in H0. apply leibniz_equiv in H0.
      by apply (Hinv p) in Hp. }
    rewrite bool_decide_eq_true. repeat split; eauto.
  - assert (H0 : size (∅ : gset positive) = 0%nat) by apply size_empty.
    rewrite H0. repeat split; try done; try lia.
Qed.

Lemma has_connections_iff_witness :
  has_connections "novel_1" sample_hub = true
  /\ is_Some (connections sample_hub !! "novel_1").
Proof.
  assert (H : no_empty_entry sample_hub).
  { intros q live. unfold sample_hub. simpl.
    destruct (decide (q = "novel_1")) as [->|Hne].
    - rewrite lookup_singleton_eq. intros [= <-]. set_solver.
    - by rewrite lookup_singleton_ne. }
  destruct (has_connections_iff sample_hub "novel_1" H) as (_ & Hiff & _).
  assert (Hentry : is_Some (connections sample_hub !! "novel_1")) by (by eexists).
  split; [by apply Hiff|exact Hentry].
Defined.

(** The receive loop of a websocket whose send works: a pong for every
    ping, until a receive raises. *)
Lemma receive_loop_spec ws incoming h :
  ws ∉ broken h ->
  exists r,
    receive_loop ws incoming h
      = (r, set_delivered
              (delivered h ++ replicate (pings incoming) (ws, [("type", VStr "pong")])) h)
    /\ (closes incoming = true -> exists e, r = Raise e)
    /\ (closes incoming = false -> r = Ok Listening).
Proof.
  intros Hws. revert h Hws. induction incoming as [|[data|e] rest IH]; intros h Hws.
  - exists (Ok Listening). simpl. unfold ret. rewrite app_nil_r.
    split; [by destruct h|]. split; [done|done].
  - simpl. unfold bind.
    destruct (String.eqb data "ping") eqn:Hping.
    + unfold _send_to_websocket. rewrite bool_decide_eq_false_2 by done.
      cbv iota beta.
      destruct (IH (set_delivered (delivered h ++ [(ws, [("type", VStr "pong")])]) h) Hws)
        as (r & Hrun & Hclose & Hopen).
      exists r. split; [|split; done].
      etransitivity; [exact Hrun|].
      unfold set_delivered. simpl. by rewrite <- app_assoc.
    + unfold ret. cbv iota beta.
      destruct (IH h Hws) as (r & Hrun & Hclose & Hopen).
      exists r. split; [exact Hrun|split; done].
  - exists (Raise e). simpl. unfold raise. rewrite app_nil_r.
    split; [by destruct h|]. split; [by eexists|done].
Qed.

(** X9. The endpoint of a websocket whose sends work: the websocket is
    registered and acknowledged, every ["ping"] it sends is answered by a
    pong and nothing else is answered; once a receive raises (the client has
    left, or any other error) the endpoint returns with the websocket
    unregistered, and until then it stays registered. For a websocket whose
    acknowledgment fails, the exception leaves the endpoint before its [try],
    so the websocket stays registered. *)
Theorem websocket_endpoint_lifecycle h p ws incoming :
  let run := websocket_endpoint ws p incoming h in
  let pong := (ws, [("type", VStr "pong")]) in
  (ws ∉ broken h ->
     delivered (snd run)
       = delivered h ++ (ws, connected_message p (clock h)) :: replicate (pings incoming) pong
     /\ (closes incoming = true ->
         fst run = Ok Closed /\ ws ∉ subscribers (snd run) p)
     /\ (closes incoming = false ->
         fst run = Ok Listening /\ ws ∈ subscribers (snd run) p))
  /\ (ws ∈ broken h ->
      fst run = Raise (ConnectionError ws)
      /\ ws ∈ subscribers (snd run) p
      /\ delivered (snd run) = delivered h).
Proof.
  cbv zeta. unfold websocket_endpoint, bind. rewrite connect_eq. split.
  - intros Hws. rewrite bool_decide_eq_false_2 by done.
    unfold try_except.
    match goal with |- context [receive_loop ws incoming ?h0] =>
      destruct (receive_loop_spec ws incoming h0 Hws) as (r & Hrun & Hclose & Hopen);
      rewrite Hrun
    end.
    destruct (closes incoming) eqn:Hc.
    + destruct (Hclose eq_refl) as [e ->]. unfold ret, disconnect, modify. simpl.
      rewrite <- app_assoc. split; [done|]. split; [|done].
      intros _. split; [done|]. unfold subscribers. simpl.
      rewrite discard_subscribers. set_solver.
    + rewrite (Hopen eq_refl). unfold ret. simpl.
      rewrite <- app_assoc. split; [done|]. split; [done|].
      intros _. split; [done|]. unfold subscribers at 1. simpl.
      rewrite lookup_insert_eq. simpl. set_solver.
  - intros Hws. rewrite bool_decide_eq_true_2 by done. simpl.
    split; [done|]. split; [|done].
    unfold subscribers at 1. simpl. rewrite lookup_insert_eq. simpl. set_solver.
Qed.

Lemma websocket_endpoint_lifecycle_witness :
  let run :=
    websocket_endpoint 1%positive "novel_1"
      [Text "ping"; Text "status"; Text "ping"; Raises (ConnectionError 1%positive)]
      sample_hub in
  fst run = Ok Closed /\ 1%positive ∉ subscribers (snd run) "novel_1".
Proof.
  cbv zeta.
  destruct (websocket_endpoint_lifecycle sample_hub "novel_1" 1%positive
              [Text "ping"; Text "status"; Text "ping"; Raises (ConnectionError 1%positive)])
    as [Hworking _].
  assert (Hws : 1%positive ∉ WebSocketManager.broken sample_hub)
    by (unfold sample_hub; simpl; set_solver).
  destruct (Hworking Hws) as (_ & Hclosed & _).
  exact (Hclosed eq_refl).
Defined.
End Hub.


(** ** Strings, paths and the folder name of a project *)

Section FolderPaths.

Context {U : Project.UnicodeDB}.

Local Open Scope list_scope.

Lemma length_append (a b : string) :
  String.length (a +:+ b) = (String.length a + String.length b)%nat.
Proof.
  induction a as [|c a IH]; [done|].
  change (S (String.length (a +:+ b)) = S (String.length a + String.length b)).
  by rewrite IH.
Qed.

Lemma append_cancel_r (a b s : string) : a +:+ s = b +:+ s -> a = b.
Proof.
  revert b. induction a as [|c a IH]; intros [|d b] Heq.
  - done.
  - apply (f_equal String.length) in Heq.
    rewrite !length_append in Heq. simpl in Heq. lia.
  - apply (f_equal String.length) in Heq.
    rewrite !length_append in Heq. simpl in Heq. lia.
  - change (String c (a +:+ s) = String d (b +:+ s)) in Heq.
    injection Heq as -> Heq. f_equal. by apply IH.
Qed.

(** Joining a relative, non-empty name to a directory gives another
    path. *)
Lemma join_ne (a b : string) :
  b <> "" -> Py.startswith b "/" = false -> OsPath.join a b <> a.
Proof.
  intros Hb Hrel Heq. unfold OsPath.join in Heq. rewrite Hrel in Heq.
  assert (Hlen : String.length b <> 0%nat) by (by destruct b).
  destruct (negb (Py.truthy a) || Py.endswith a "/");
    apply (f_equal String.length) in Heq;
    rewrite !length_append in Heq; simpl in Heq; lia.
Qed.

(** Joining to the same directory keeps relative names apart. *)
Lemma join_inj (a b1 b2 : string) :
  Py.startswith b1 "/" = false -> Py.startswith b2 "/" = false ->
  OsPath.join a b1 = OsPath.join a b2 -> b1 = b2.
Proof.
  intros H1 H2. unfold OsPath.join. rewrite H1, H2.
  destruct (negb (Py.truthy a) || Py.endswith a "/"); intros Heq.
  - by apply String.app_inj in Heq.
  - apply String.app_inj in Heq. by apply (String.app_inj "/") in Heq.
Qed.

Lemma join_truthy (a b : string) : b <> "" -> Py.truthy (OsPath.join a b) = true.
Proof.
  intros Hb. apply negb_true_iff, String.eqb_neq.
  assert (Hlen : String.length b <> 0%nat) by (by destruct b).
  unfold OsPath.join.
  destruct (Py.startswith b "/"); [done|].
  destruct (negb (Py.truthy a) || Py.endswith a "/"); intros Heq;
    apply (f_equal String.length) in Heq;
    rewrite !length_append in Heq; simpl in Heq; lia.
Qed.

Lemma of_string_below (s : string) :
  Forall (fun c => (c < 256)%N) (Project.of_string s).
Proof.
  unfold Project.of_string. apply Forall_map, Forall_forall.
  intros a _. apply N_ascii_bounded.
Qed.

Lemma residue_below (name : list N) :
  Forall (fun c => (c < 256)%N) name ->
  Forall (fun c => (c < 256)%N) (Project.residue name).
Proof.
  intros Hname. unfold Project.residue. apply strip_Forall.
  apply Forall_forall. intros c Hc.
  apply list_elem_of_In, filter_In in Hc as [Hc _].
  unfold Project.replace in Hc. apply in_map_iff in Hc as (c0 & <- & Hc0).
  destruct (c0 =? Project.space)%N; [done|].
  assert (Hstrip : Forall (fun c => (c < 256)%N) (Project.strip Project.isspace name))
    by (by apply strip_Forall).
  rewrite Forall_forall in Hstrip. by apply Hstrip, list_elem_of_In.
Qed.

(** The folder name is not empty and begins with a character of a folder
    name below 256. *)
Lemma sanitize_folder_name_head (name : string) :
  exists c rest,
    Project.sanitize_folder_name (Project.of_string name) = c :: rest
    /\ Project.folder_char c /\ (c < 256)%N.
Proof.
  assert (Hall : Forall (fun c => Project.folder_char c /\ (c < 256)%N)
                   (Project.sanitize_folder_name (Project.of_string name))).
  { apply Forall_and. split.
    - destruct (sanitize_folder_name_cases (Project.of_string name)) as [[_ ->]|[_ ->]];
        [apply untitled_project_chars|apply residue_chars].
    - destruct (sanitize_folder_name_cases (Project.of_string name)) as [[_ ->]|[_ ->]].
      + apply of_string_below.
      + apply residue_below, of_string_below. }
  destruct (Project.sanitize_folder_name (Project.of_string name)) as [|c rest] eqn:Heq.
  - exfalso. destruct (sanitize_folder_name_cases (Project.of_string name))
      as [[_ Hu]|[Hne Hr]]; [by rewrite Hu in Heq|]. by rewrite Hr in Heq.
  - exists c, rest. split; [done|]. by apply Forall_cons in Hall as [Hc _].
Qed.

Lemma sanitized_relative (name : string) :
  CreateProjectTool.sanitized name <> ""
  /\ Py.startswith (CreateProjectTool.sanitized name) "/" = false.
Proof.
  unfold CreateProjectTool.sanitized, CreateProjectTool.to_string.
  destruct (sanitize_folder_name_head name) as (c & rest & -> & Hchar & Hlt).
  cbn [string_of_list_ascii List.map]. split; [done|].
  unfold Py.startswith. cbn [String.prefix].
  destruct (ascii_dec "/" (ascii_of_N c)) as [Heq|]; [|done].
  exfalso. apply (f_equal N_of_ascii) in Heq.
  rewrite N_ascii_embedding in Heq by done. subst c.
  destruct Hchar as [Hword|Hhyphen]; [|done].
  by vm_compute in Hword.
Qed.

End FolderPaths.


(** ** More on the tools *)

Section MoreTools.

Context {U : Project.UnicodeDB}.

Arguments String.append : simpl never.
Arguments String.concat : simpl never.
Arguments Py.str_int : simpl never.
Arguments Py.format_02d : simpl never.
Arguments Py.len : simpl never.
Arguments Py.truthy : simpl never.
Arguments Py.endswith : simpl never.
Arguments OsPath.join : simpl never.
Arguments OsPath.dirname : simpl never.
Arguments String.eqb : simpl never.
Arguments Z.leb : simpl never.
Arguments Z.ltb : simpl never.
Arguments allowed_edge : simpl never.
Arguments exists_at : simpl never.
Arguments WriteFileTool.md_name : simpl never.
Arguments WriteChapterTool.chapter_path : simpl never.
Arguments WriteChapterTool.chapter_text : simpl never.
Arguments WriteChapterTool.chapter_filename : simpl never.
Arguments LoadChapterForReviewTool.review_text : simpl never.
Arguments CreateProjectTool.sanitized : simpl never.
Arguments Text.word_count : simpl never.
Arguments Text.rule : simpl never.

(** Symbolic runs as for the handlers above, the further tools
    included. *)
Ltac unfold_tools :=
  cbv [execute CritiqueChapterTool.execute ApproveChapterTool.execute
       RequestRevisionTool.execute GetChapterContextTool.execute
       FinalizeChapterTool.execute WriteFileTool.execute
       WriteChapterTool.execute LoadApprovedPlanTool.execute
       LoadApprovedPlanTool.load LoadChapterForReviewTool.execute
       LoadContextForCritiqueTool.execute LoadContextForCritiqueTool.load_part
       CreateProjectTool.execute CreateProjectTool.set_active_project_folder
       bind ret raise gets modify try_except
       get_active_project_folder get_state state_attr state_update
       update_phase increment_chapter save_state
       makedirs write_text append_text read_text path_exists] in *.

Ltac contradicts E :=
  repeat (match goal with
          | H : ?t = _ |- _ =>
              tryif constr_eq H E then fail
              else lazymatch type of E with context [t] => rewrite H in E end
          end; simpl in E);
  discriminate E.

Ltac next_test :=
  match goal with
  | |- context [match ?x with _ => _ end] =>
      lazymatch x with
      | context [match _ with _ => _ end] => fail
      | _ =>
          first
            [ match goal with H : x = _ |- _ => rewrite H end
            | let E := fresh "E" in destruct x eqn:E; try solve [contradicts E] ]
      end
  end.

Ltac all_tests := repeat (simpl; next_test; simplify_eq).

Ltac known :=
  repeat match goal with
         | H : ?f ?a = _ |- context [?f ?a] => rewrite H
         end.

Ltac run_tools :=
  unfold_tools; all_tests; simpl; simplify_eq;
  repeat (progress known; simpl).

(** X8. Without an active project folder no tool does anything: each of
    the state-taking handlers and of the loading and writing tools returns a
    result with [success = false] and leaves the world, the state and the
    files included, exactly as it was. *)
Theorem no_project_folder_no_effect (w : World) :
  folder_truthy (active_project_folder w) = false ->
  (forall c, execute c w = (Ok (if is_write_file c then write_file_no_project else no_project_folder), w))
  /\ (forall n content, WriteChapterTool.execute n content w = (Ok no_project_folder, w))
  /\ LoadApprovedPlanTool.execute w = (Ok no_project_folder, w)
  /\ (forall n, LoadChapterForReviewTool.execute n w = (Ok no_project_folder, w))
  /\ (forall n, LoadContextForCritiqueTool.execute n w = (Ok no_project_folder, w))
  /\ succeeded (Ok no_project_folder) = false
  /\ succeeded (Ok write_file_no_project) = false.
Proof.
  intros Hfolder. repeat split.
  - intros c. destruct c; run_tools; done.
  - intros. run_tools; done.
  - run_tools; done.
  - intros. run_tools; done.
  - intros. run_tools; done.
Qed.

Lemma exists_at_file w path text : files w !! path = Some text -> exists_at w path = true.
Proof.
  intros Hfile. unfold exists_at. rewrite Hfile.
  rewrite bool_decide_eq_true_2 by eauto. done.
Qed.

(** [write_chapter] when nothing fails. *)
Lemma write_chapter_ok w n content :
  folder_truthy (active_project_folder w) = true ->
  io_fault w (OsPath.dirname
                (WriteChapterTool.chapter_path (folder_path (active_project_folder w)) n))
    = false ->
  io_fault w (WriteChapterTool.chapter_path (folder_path (active_project_folder w)) n)
    = false ->
  exists d,
    WriteChapterTool.execute n content w =
      (Ok d,
       set_files
         (<[ WriteChapterTool.chapter_path (folder_path (active_project_folder w)) n
             := WriteChapterTool.chapter_text n content ]> (files w))
         (set_dirs
            ({[ OsPath.dirname
                  (WriteChapterTool.chapter_path (folder_path (active_project_folder w)) n) ]}
               ∪ dirs w) w))
    /\ succeeded (Ok d) = true.
Proof.
  intros Hfolder Hdir Hfile. run_tools. eexists. split; [reflexivity|done].
Qed.



(** [finalize_chapter] when the chapter file is there, the phase is
    [WRITING] and the snapshot write succeeds. *)
Lemma finalize_chapter_found w st n notes :
  folder_truthy (active_project_folder w) = true ->
  exists_at w (WriteChapterTool.chapter_path (folder_path (active_project_folder w)) n)
    = true ->
  state w = Some st ->
  phase st = WRITING ->
  save_script w = [] ->
  exists d,
    FinalizeChapterTool.execute n notes w =
      (Ok d,
       set_saved (Some (set_current_chapter n (set_phase WRITE_CRITIQUE st))) []
         (set_state (Some (set_current_chapter n (set_phase WRITE_CRITIQUE st))) w))
    /\ succeeded (Ok d) = true
    /\ dict_get "transition" d
       = Some (VDict [("to_phase", VStr "WRITE_CRITIQUE");
                      ("data", VDict [("chapter_number", VInt n); ("notes", VStr notes)])]).
Proof.
  intros Hfolder Hfile Hst Hphase Hsave.
  assert (Hedge : allowed_edge (phase st) WRITE_CRITIQUE = true) by (by rewrite Hphase).
  clear Hphase. unfold WriteChapterTool.chapter_path, WriteChapterTool.chapter_filename in Hfile.
  run_tools. eexists. split; [reflexivity|]. split; done.
Qed.

(** X11. [finalize_chapter] goes by the chapter file: while the file of
    the chapter is missing it reports failure and changes nothing, the phase
    included; once [write_chapter] has written the chapter, the same call,
    made in phase [WRITING] with the snapshot write succeeding, reports
    success, asks for the transition to [WRITE_CRITIQUE], and leaves the
    state in that phase at this chapter with the snapshot in step. *)
Theorem finalize_chapter_needs_the_file
    (w : World) (st : NovelState) (n : Z) (content notes : string) :
  folder_truthy (active_project_folder w) = true ->
  exists_at w (WriteChapterTool.chapter_path (folder_path (active_project_folder w)) n)
    = false ->
  io_fault w (OsPath.dirname
                (WriteChapterTool.chapter_path (folder_path (active_project_folder w)) n))
    = false ->
  io_fault w (WriteChapterTool.chapter_path (folder_path (active_project_folder w)) n)
    = false ->
  state w = Some st ->
  phase st = WRITING ->
  save_script w = [] ->
  let w1 := snd (WriteChapterTool.execute n content w) in
  let after := snd (FinalizeChapterTool.execute n notes w1) in
  FinalizeChapterTool.execute n notes w
    = (Ok (failure ("Chapter " +:+ Py.str_int n
                      +:+ " not found. Write the chapter first using write_chapter.")), w)
  /\ succeeded (fst (FinalizeChapterTool.execute n notes w1)) = true
  /\ has_transition (fst (FinalizeChapterTool.execute n notes w1)) = true
  /\ state after = Some (set_current_chapter n (set_phase WRITE_CRITIQUE st))
  /\ saved after = state after.
Proof.
  intros Hfolder Hmissing Hdir Hfile Hst Hphase Hsave. cbv zeta.
  split.
  - clear Hdir Hfile.
    unfold WriteChapterTool.chapter_path, WriteChapterTool.chapter_filename in Hmissing.
    run_tools; done.
  - destruct (write_chapter_ok w n content Hfolder Hdir Hfile) as (d & -> & Hd).
    simpl.
    match goal with |- context [FinalizeChapterTool.execute n notes ?w1] =>
      destruct (finalize_chapter_found w1 st n notes) as (d' & Hrun & Hok & Htr);
      [exact Hfolder
      |apply (exists_at_file _ _ (WriteChapterTool.chapter_text n content));
       simpl; by rewrite lookup_insert_eq
      |exact Hst|exact Hphase|exact Hsave|]
    end.
    rewrite Hrun. simpl. split; [done|]. split; [|done].
    unfold has_transition, dict_mem. by rewrite Htr.
Qed.

(** X12. The three loading tools only read: whatever they return, the
    world after the call is the world before it; they never raise; and with
    a project folder active, [load_approved_plan] and
    [load_context_for_critique] report success whether or not any of their
    files exists or can be read. *)
Theorem loading_tools_only_read (w : World) :
  (exists d, LoadApprovedPlanTool.execute w = (Ok d, w)
     /\ (folder_truthy (active_project_folder w) = true -> succeeded (Ok d) = true))
  /\ (forall n, exists d, LoadChapterForReviewTool.execute n w = (Ok d, w))
  /\ (forall n, exists d, LoadContextForCritiqueTool.execute n w = (Ok d, w)
        /\ (folder_truthy (active_project_folder w) = true -> succeeded (Ok d) = true)).
Proof.
  split; [|split].
  - run_tools; eexists; (split; [reflexivity|]); try done.
    intros Hfolder. rewrite Hfolder in E. discriminate E.
  - intros n. run_tools; eexists; reflexivity.
  - intros n. run_tools; eexists; (split; [reflexivity|]); try done.
    all: intros Hfolder; rewrite Hfolder in E; discriminate E.
Qed.

(** X13. [get_chapter_context] never resets a revision count: whatever
    the outcome of the call, every chapter's stored count, the phase and the
    two chapter lists are as before (a chapter without counter gets the
    counter 0, which is what its count already was); a call that reports
    success has set [current_chapter] to the chapter asked for. *)
Theorem get_chapter_context_keeps_counts (w : World) (n : Z) :
  let run := GetChapterContextTool.execute n w in
  (forall m, stored_count (snd run) m = stored_count w m)
  /\ stored_phase (snd run) = stored_phase w
  /\ chapter_lists (snd run) = chapter_lists w
  /\ (succeeded (fst run) = true ->
      forall st', state (snd run) = Some st' -> current_chapter st' = n).
Proof.
  cbv zeta. unfold stored_count, stored_phase, chapter_lists, iterations_get.
  run_tools; repeat split; try done; try (intros; congruence).
  all: try (intros ? st' [= <-]; done).
  all: intros m; destruct (decide (m = n)) as [Heq|Hne];
    [subst m; rewrite lookup_insert_eq|by rewrite lookup_insert_ne].
  all: by match goal with H : _ !! _ = None |- _ => rewrite H end.
Qed.

(** X14. Only the ["create"] mode of [write_file] touches the workflow
    state: in every other mode, whatever the outcome, the state object, the
    snapshot and the pending snapshot writes are as before; and a mode that
    is none of the three changes nothing at all and reports failure. *)
Theorem write_file_other_modes_keep_state (w : World) (filename content mode : string) :
  mode <> "create" ->
  let run := WriteFileTool.execute filename content mode w in
  state (snd run) = state w
  /\ saved (snd run) = saved w
  /\ save_script (snd run) = save_script w
  /\ (mode <> "append" -> mode <> "overwrite" ->
      snd run = w /\ succeeded (fst run) = false).
Proof.
  intros Hcreate%String.eqb_neq. cbv zeta.
  destruct (String.eqb mode "append") eqn:Happend;
    destruct (String.eqb mode "overwrite") eqn:Hoverwrite.
  all: run_tools; repeat split; try done.
  all: try (by apply String.eqb_eq in Happend).
  all: by apply String.eqb_eq in Hoverwrite.
Qed.

(** [write_file] in mode ["create"] on a fresh name, as far as the files
    go: whether or not the snapshot write succeeds, the file holds the
    content. *)
Lemma create_mode_writes w filename content :
  folder_truthy (active_project_folder w) = true ->
  exists_at w (OsPath.join (folder_path (active_project_folder w))
                 (WriteFileTool.md_name filename)) = false ->
  io_fault w (OsPath.dirname (OsPath.join (folder_path (active_project_folder w))
                                (WriteFileTool.md_name filename))) = false ->
  io_fault w (OsPath.join (folder_path (active_project_folder w))
                (WriteFileTool.md_name filename)) = false ->
  let w1 := snd (WriteFileTool.execute filename content "create" w) in
  files w1 = <[ OsPath.join (folder_path (active_project_folder w))
                  (WriteFileTool.md_name filename) := content ]> (files w)
  /\ active_project_folder w1 = active_project_folder w
  /\ io_fault w1 = io_fault w.
Proof.
  intros Hfolder Hnew Hdir Hfile. cbv zeta. run_tools; done.
Qed.

(** [write_file] in mode ["append"]. *)
Lemma append_mode_writes w filename content :
  folder_truthy (active_project_folder w) = true ->
  io_fault w (OsPath.join (folder_path (active_project_folder w))
                (WriteFileTool.md_name filename)) = false ->
  let run := WriteFileTool.execute filename content "append" w in
  succeeded (fst run) = true
  /\ files (snd run)
     = <[ OsPath.join (folder_path (active_project_folder w))
            (WriteFileTool.md_name filename)
          := default "" (files w !! OsPath.join (folder_path (active_project_folder w))
                                      (WriteFileTool.md_name filename)) +:+ content ]>
         (files w)
  /\ dirs (snd run) = dirs w
  /\ active_project_folder (snd run) = active_project_folder w.
Proof.
  intros Hfolder Hfile. cbv zeta. run_tools; done.
Qed.

(** [write_file] in mode ["create"] on a name that is taken. *)
Lemma create_mode_refused w filename content text :
  folder_truthy (active_project_folder w) = true ->
  files w !! OsPath.join (folder_path (active_project_folder w))
               (WriteFileTool.md_name filename) = Some text ->
  let run := WriteFileTool.execute filename content "create" w in
  succeeded (fst run) = false /\ snd run = w.
Proof.
  intros Hfolder Hfile. pose proof (exists_at_file _ _ _ Hfile) as Hexists.
  cbv zeta. run_tools; done.
Qed.

(** X15. [write_file] called with ["create"] on a fresh name and then with
    ["append"] on the same name leaves the file with the two contents one
    after the other, whether or not the snapshot write of the first call
    succeeded; the second call reports success and creates no directory;
    and a further ["create"] on that name is refused and changes
    nothing. *)
Theorem create_then_append_concatenates (w : World) (filename first second third : string) :
  folder_truthy (active_project_folder w) = true ->
  let path := WriteFileTool.target (folder_path (active_project_folder w)) filename in
  exists_at w path = false ->
  io_fault w (OsPath.dirname path) = false ->
  io_fault w path = false ->
  let w1 := snd (WriteFileTool.execute filename first "create" w) in
  let run := WriteFileTool.execute filename second "append" w1 in
  let again := WriteFileTool.execute filename third "create" (snd run) in
  files w1 !! path = Some first
  /\ succeeded (fst run) = true
  /\ files (snd run) !! path = Some (first +:+ second)
  /\ dirs (snd run) = dirs w1
  /\ succeeded (fst again) = false
  /\ snd again = snd run.
Proof.
  unfold WriteFileTool.target. intros Hfolder Hnew Hdir Hfile. cbv zeta.
  destruct (create_mode_writes w filename first Hfolder Hnew Hdir Hfile)
    as (Hfiles & Hactive & Hfault).
  set (w1 := snd (WriteFileTool.execute filename first "create" w)) in *.
  assert (Hfolder1 : folder_truthy (active_project_folder w1) = true)
    by (by rewrite Hactive).
  destruct (append_mode_writes w1 filename second Hfolder1) as (Hok & Hfiles2 & Hdirs & Hactive2).
  { by rewrite Hactive, Hfault. }
  set (w2 := snd (WriteFileTool.execute filename second "append" w1)) in *.
  rewrite Hactive in Hfiles2. rewrite Hfiles in Hfiles2 at 1.
  rewrite lookup_insert_eq in Hfiles2. simpl in Hfiles2.
  split; [by rewrite Hfiles, lookup_insert_eq|]. split; [done|].
  split; [by rewrite Hfiles2, lookup_insert_eq|]. split; [done|].
  apply (create_mode_refused w2 filename third (first +:+ second)).
  - by rewrite Hactive2.
  - by rewrite Hactive2, Hactive, Hfiles2, lookup_insert_eq.
Qed.

Lemma exists_at_set_dirs w d p :
  exists_at (set_dirs ({[ d ]} ∪ dirs w) w) p = exists_at w p || bool_decide (p = d).
Proof.
  unfold exists_at. simpl.
  destruct (bool_decide (is_Some (files w !! p))); [done|]. simpl.
  repeat case_bool_decide; set_solver.
Qed.

Lemma project_path_fresh w root_dir project_name :
  exists_at (set_dirs ({[ OsPath.join root_dir "output" ]} ∪ dirs w) w)
    (OsPath.join (OsPath.join root_dir "output") (CreateProjectTool.sanitized project_name))
  = exists_at w
      (OsPath.join (OsPath.join root_dir "output") (CreateProjectTool.sanitized project_name)).
Proof.
  rewrite exists_at_set_dirs.
  destruct (sanitized_relative project_name) as [Hne Hrel].
  rewrite bool_decide_eq_false_2 by (by apply join_ne).
  by rewrite orb_false_r.
Qed.

(** X16. When no directory creation fails, [create_project] reports
    success and makes [output/<sanitized name>] under the root the active
    project folder, which then counts as a folder for every tool; it
    touches no file, nor the workflow state. When the path exists already,
    as a directory or as a file, nothing is created below it; when it does
    not, the folder and its three subfolders are created. *)
Theorem create_project_activates (w : World) (root_dir project_name : string) :
  let output_dir := OsPath.join root_dir "output" in
  let project_path := OsPath.join output_dir (CreateProjectTool.sanitized project_name) in
  io_fault w output_dir = false ->
  io_fault w project_path = false ->
  io_fault w (OsPath.join project_path "planning") = false ->
  io_fault w (OsPath.join project_path "manuscript") = false ->
  io_fault w (OsPath.join project_path "critiques") = false ->
  let run := CreateProjectTool.execute root_dir project_name w in
  succeeded (fst run) = true
  /\ active_project_folder (snd run) = Some project_path
  /\ folder_truthy (active_project_folder (snd run)) = true
  /\ files (snd run) = files w
  /\ state (snd run) = state w
  /\ saved (snd run) = saved w
  /\ dirs w ⊆ dirs (snd run)
  /\ (exists_at w project_path = true -> dirs (snd run) ⊆ {[ output_dir ]} ∪ dirs w)
  /\ (exists_at w project_path = false ->
      {[ project_path; OsPath.join project_path "planning";
         OsPath.join project_path "manuscript";
         OsPath.join project_path "critiques" ]} ⊆ dirs (snd run)).
Proof.
  intros output_dir project_path Hout Hproject Hplanning Hmanuscript Hcritiques.
  cbv zeta.
  assert (Htruthy : Py.truthy project_path = true)
    by (apply join_truthy, sanitized_relative).
  pose proof (project_path_fresh w root_dir project_name) as Hfresh.
  fold output_dir in Hfresh. fold project_path in Hfresh.
  unfold CreateProjectTool.execute.
  fold output_dir. fold project_path.
  cbv [CreateProjectTool.set_active_project_folder bind ret raise gets modify
       try_except makedirs path_exists].
  destruct (exists_at w output_dir) eqn:Hfound; simpl.
  - destruct (exists_at w project_path) eqn:Hthere; simpl.
    + rewrite Htruthy. repeat split; try done. set_solver.
    + rewrite Hproject. simpl. rewrite Hplanning. simpl. rewrite Hmanuscript. simpl.
      rewrite Hcritiques. simpl. rewrite Htruthy.
      repeat split; try done; set_solver.
  - rewrite Hout. simpl. rewrite Hfresh.
    destruct (exists_at w project_path) eqn:Hthere; simpl.
    + rewrite Htruthy. repeat split; try done; set_solver.
    + rewrite Hproject. simpl. rewrite Hplanning. simpl. rewrite Hmanuscript. simpl.
      rewrite Hcritiques. simpl. rewrite Htruthy.
      repeat split; try done; set_solver.
Qed.

(** X17. A [create_project] that fails on a subfolder leaves the new
    folder active: when the project folder itself can be created and the
    creation of ["planning"] below it raises, the call reports failure, yet
    the active project folder is the new path and the folder exists. When
    the output directory cannot be created, the call reports failure and
    the world is as before. *)
Theorem create_project_failure_keeps_switch (w : World) (root_dir project_name : string) :
  let output_dir := OsPath.join root_dir "output" in
  let project_path := OsPath.join output_dir (CreateProjectTool.sanitized project_name) in
  exists_at w project_path = false ->
  let run := CreateProjectTool.execute root_dir project_name w in
  (io_fault w output_dir = false ->
   io_fault w project_path = false ->
   io_fault w (OsPath.join project_path "planning") = true ->
   succeeded (fst run) = false
   /\ active_project_folder (snd run) = Some project_path
   /\ project_path ∈ dirs (snd run))
  /\ (exists_at w output_dir = false ->
      io_fault w output_dir = true ->
      succeeded (fst run) = false /\ snd run = w).
Proof.
  intros output_dir project_path Hthere. cbv zeta.
  pose proof (project_path_fresh w root_dir project_name) as Hfresh.
  fold output_dir in Hfresh. fold project_path in Hfresh.
  unfold CreateProjectTool.execute.
  fold output_dir. fold project_path.
  cbv [CreateProjectTool.set_active_project_folder bind ret raise gets modify
       try_except makedirs path_exists].
  split.
  - intros Hout Hproject Hplanning.
    destruct (exists_at w output_dir) eqn:Hfound; simpl.
    + rewrite Hthere. simpl. rewrite Hproject. simpl. rewrite Hplanning. simpl.
      repeat split; try done; set_solver.
    + rewrite Hout. simpl. rewrite Hfresh, Hthere. simpl.
      rewrite Hproject. simpl. rewrite Hplanning. simpl.
      repeat split; try done; set_solver.
  - intros Hfound Hout. rewrite Hfound. simpl. rewrite Hout. simpl. done.
Qed.

(** The critique files of a chapter differ with the version. *)
Lemma critique_path_inj folder n v1 v2 :
  critique_path folder n v1 = critique_path folder n v2 -> v1 = v2.
Proof.
  unfold critique_path. intros Heq.
  apply join_inj in Heq; [|reflexivity..].
  apply (String.app_inj "chapter_") in Heq.
  apply String.app_inj in Heq.
  apply (String.app_inj "_critique_v") in Heq.
  apply append_cancel_r in Heq.
  by apply pretty_Z_inj in Heq.
Qed.

(** [critique_chapter] with a state object, as far as the files go:
    whatever becomes of the snapshot write, the critique is in the file of
    the next version. *)
Lemma critique_chapter_file w st n text :
  folder_truthy (active_project_folder w) = true ->
  state w = Some st ->
  io_fault w (OsPath.join (folder_path (active_project_folder w)) "critiques") = false ->
  io_fault w (critique_path (folder_path (active_project_folder w)) n (iterations_get st n + 1))
    = false ->
  let w1 := snd (CritiqueChapterTool.execute n text w) in
  files w1
  = <[ critique_path (folder_path (active_project_folder w)) n (iterations_get st n + 1)
       := critique_file_text (now w) n (iterations_get st n + 1) text ]> (files w)
  /\ active_project_folder w1 = active_project_folder w
  /\ io_fault w1 = io_fault w
  /\ now w1 = now w
  /\ exists st1, state w1 = Some st1 /\ iterations_get st1 n = iterations_get st n + 1.
Proof.
  intros Hfolder Hst Hdir Hfile. cbv zeta.
  unfold critique_path, critique_file_text, iterations_get in *.
  destruct (chapter_critique_iterations st !! n) as [count|] eqn:Hcount;
    cbn [default from_option id] in *.
  all: change (0 + 1) with 1 in *.
  all: run_tools; repeat split; try done.
  all: eexists; (split; [reflexivity|]); simpl; by rewrite lookup_insert_eq.
Qed.

(** X18. With a state object, successive critiques of a chapter go to
    files of their own: after two [critique_chapter] calls on a chapter
    whose count was [v], the file of version [v + 1] holds the first
    critique and the file of version [v + 2] the second, the two files are
    different, and the stored count is [v + 2]; this holds whatever becomes
    of the snapshot writes. *)
Theorem critique_versions_kept (w : World) (st : NovelState) (n : Z) (first second : string) :
  folder_truthy (active_project_folder w) = true ->
  state w = Some st ->
  let folder := folder_path (active_project_folder w) in
  let v := iterations_get st n in
  io_fault w (OsPath.join folder "critiques") = false ->
  io_fault w (critique_path folder n (v + 1)) = false ->
  io_fault w (critique_path folder n (v + 2)) = false ->
  let w1 := snd (CritiqueChapterTool.execute n first w) in
  let w2 := snd (CritiqueChapterTool.execute n second w1) in
  files w2 !! critique_path folder n (v + 1)
    = Some (critique_file_text (now w) n (v + 1) first)
  /\ files w2 !! critique_path folder n (v + 2)
     = Some (critique_file_text (now w) n (v + 2) second)
  /\ critique_path folder n (v + 1) <> critique_path folder n (v + 2)
  /\ stored_count w2 n = v + 2.
Proof.
  intros Hfolder Hst folder v Hdir Hfile1 Hfile2. cbv zeta.
  destruct (critique_chapter_file w st n first Hfolder Hst Hdir Hfile1)
    as (Hfiles1 & Hactive1 & Hfault1 & Hnow1 & st1 & Hst1 & Hcount1).
  set (w1 := snd (CritiqueChapterTool.execute n first w)) in *.
  assert (Hne : critique_path folder n (v + 1) <> critique_path folder n (v + 2)).
  { intros Heq%critique_path_inj. lia. }
  destruct (critique_chapter_file w1 st1 n second) as
    (Hfiles2 & _ & _ & _ & st2 & Hst2 & Hcount2).
  - by rewrite Hactive1.
  - done.
  - by rewrite Hactive1, Hfault1.
  - rewrite Hactive1, Hfault1, Hcount1.
    fold folder. fold v. by replace (v + 1 + 1) with (v + 2) by lia.
  - set (w2 := snd (CritiqueChapterTool.execute n second w1)) in *.
    rewrite Hactive1, Hnow1, Hcount1 in Hfiles2. fold folder v in Hfiles2.
    replace (v + 1 + 1) with (v + 2) in Hfiles2 by lia.
    fold folder v in Hfiles1.
    rewrite Hfiles2, Hfiles1.
    split; [by rewrite lookup_insert_ne, lookup_insert_eq|].
    split; [by rewrite lookup_insert_eq|]. split; [done|].
    unfold stored_count. rewrite Hst2, Hcount2, Hcount1. fold v. lia.
Qed.

(** [critique_chapter] and [approve_chapter] with a state object when no
    write fails. *)
Lemma critique_chapter_ok w st n text :
  folder_truthy (active_project_folder w) = true ->
  state w = Some st ->
  (forall path, io_fault w path = false) ->
  save_script w = [] ->
  let run := CritiqueChapterTool.execute n text w in
  succeeded (fst run) = true
  /\ active_project_folder (snd run) = active_project_folder w
  /\ io_fault (snd run) = io_fault w
  /\ save_script (snd run) = []
  /\ state (snd run)
     = Some (set_chapter_critique_iterations
               (<[ n := iterations_get st n + 1 ]> (chapter_critique_iterations st)) st)
  /\ saved (snd run) = state (snd run)
  /\ files (snd run)
     = <[ critique_path (folder_path (active_project_folder w)) n (iterations_get st n + 1)
          := critique_file_text (now w) n (iterations_get st n + 1) text ]> (files w).
Proof.
  intros Hfolder Hst Hio Hsave. cbv zeta.
  pose proof (Hio (OsPath.join (folder_path (active_project_folder w)) "critiques")) as Hdir.
  pose proof (Hio (critique_path (folder_path (active_project_folder w)) n
                     (iterations_get st n + 1))) as Hfile.
  clear Hio.
  unfold critique_path, critique_file_text, iterations_get in *.
  destruct (chapter_critique_iterations st !! n) as [count|] eqn:Hcount;
    cbn [default from_option id] in *.
  all: change (0 + 1) with 1 in *.
  all: run_tools; done.
Qed.

Lemma approve_chapter_ok w st n notes :
  folder_truthy (active_project_folder w) = true ->
  state w = Some st ->
  phase st = WRITE_CRITIQUE ->
  (forall path, io_fault w path = false) ->
  save_script w = [] ->
  let run := ApproveChapterTool.execute n notes w in
  let listed :=
    set_chapters_approved (append_if_absent n (chapters_approved st))
      (set_chapters_completed (append_if_absent n (chapters_completed st)) st) in
  succeeded (fst run) = true
  /\ state (snd run)
     = Some (if (total_chapters st <=? Z.of_nat (length (chapters_approved listed)))%Z
             then set_phase COMPLETE listed
             else set_phase WRITING
                    (set_current_chapter (current_chapter st + 1) listed))
  /\ saved (snd run) = state (snd run).
Proof.
  intros Hfolder Hst Hphase Hio Hsave. cbv zeta.
  pose proof (Hio (OsPath.join (folder_path (active_project_folder w)) "critiques")) as Hdir.
  pose proof (Hio (OsPath.join (OsPath.join (folder_path (active_project_folder w)) "critiques")
                     ("chapter_" +:+ Py.format_02d n +:+ "_approval.md"))) as Hfile.
  clear Hio.
  assert (Hcomplete : allowed_edge (phase st) COMPLETE = true) by (by rewrite Hphase).
  assert (Hwriting : allowed_edge (phase st) WRITING = true) by (by rewrite Hphase).
  clear Hphase.
  run_tools; done.
Qed.

Lemma request_revision_ok w st n notes :
  folder_truthy (active_project_folder w) = true ->
  state w = Some st ->
  phase st = WRITE_CRITIQUE ->
  iterations_get st n < RequestRevisionTool.max_iterations ->
  (forall path, io_fault w path = false) ->
  save_script w = [] ->
  let run := RequestRevisionTool.execute n notes w in
  succeeded (fst run) = true
  /\ has_transition (fst run) = true
  /\ state (snd run) = Some (set_phase WRITING st)
  /\ saved (snd run) = state (snd run)
  /\ is_Some (files (snd run)
                !! revision_request_path (folder_path (active_project_folder w)) n
                     (iterations_get st n))
  /\ forall path,
       path <> revision_request_path (folder_path (active_project_folder w)) n
                 (iterations_get st n) ->
       files (snd run) !! path = files w !! path.
Proof.
  intros Hfolder Hst Hphase Hbound%Z.leb_gt Hio Hsave. cbv zeta.
  pose proof (Hio (OsPath.join (folder_path (active_project_folder w)) "critiques")) as Hdir.
  pose proof (Hio (revision_request_path (folder_path (active_project_folder w)) n
                     (iterations_get st n))) as Hfile.
  clear Hio.
  assert (Hwriting : allowed_edge (phase st) WRITING = true) by (by rewrite Hphase).
  clear Hphase.
  unfold revision_request_path in *.
  run_tools; repeat split; try done.
  all: try (by rewrite lookup_insert_eq).
  all: by intros path Hpath; rewrite lookup_insert_ne.
Qed.

Lemma critique_path_not_request folder n v v' :
  critique_path folder n v <> revision_request_path folder n v'.
Proof.
  unfold critique_path, revision_request_path. intros Heq.
  apply join_inj in Heq; [|reflexivity..].
  apply (String.app_inj "chapter_") in Heq.
  apply String.app_inj in Heq.
  cbv [String.append] in Heq. discriminate Heq.
Qed.

(** X24. One round of critique and revision keeps its papers together:
    for a chapter in phase [WRITE_CRITIQUE] whose count after the critique
    is still below [max_iterations], [critique_chapter] followed by
    [request_revision] both report success when no write fails, the
    revision request is filed under the version number of the critique it
    answers, the critique file is still there, the phase is back at
    [WRITING], and the count is that version. *)
Theorem revision_request_matches_critique
    (w : World) (st : NovelState) (n : Z) (critique notes : string) :
  folder_truthy (active_project_folder w) = true ->
  state w = Some st ->
  phase st = WRITE_CRITIQUE ->
  iterations_get st n + 1 < RequestRevisionTool.max_iterations ->
  (forall path, io_fault w path = false) ->
  save_script w = [] ->
  let folder := folder_path (active_project_folder w) in
  let version := iterations_get st n + 1 in
  let first := CritiqueChapterTool.execute n critique w in
  let second := RequestRevisionTool.execute n notes (snd first) in
  succeeded (fst first) = true
  /\ succeeded (fst second) = true
  /\ files (snd second) !! critique_path folder n version
     = Some (critique_file_text (now w) n version critique)
  /\ is_Some (files (snd second) !! revision_request_path folder n version)
  /\ stored_phase (snd second) = Some WRITING
  /\ stored_count (snd second) n = version
  /\ saved (snd second) = state (snd second).
Proof.
  intros Hfolder Hst Hphase Hbound Hio Hsave. cbv zeta.
  destruct (critique_chapter_ok w st n critique Hfolder Hst Hio Hsave)
    as (Hok1 & Hactive1 & Hfault1 & Hsave1 & Hst1 & Hsaved1 & Hfiles1).
  set (w1 := snd (CritiqueChapterTool.execute n critique w)) in *.
  set (st1 := set_chapter_critique_iterations
                (<[ n := iterations_get st n + 1 ]> (chapter_critique_iterations st)) st) in *.
  assert (Hcount1 : iterations_get st1 n = iterations_get st n + 1).
  { unfold iterations_get at 1. subst st1. simpl. by rewrite lookup_insert_eq. }
  destruct (request_revision_ok w1 st1 n notes)
    as (Hok2 & _ & Hst2 & Hsaved2 & Hrequest & Hothers); try done.
  { by rewrite Hactive1. }
  { by rewrite Hcount1. }
  { by rewrite Hfault1. }
  rewrite Hactive1, Hcount1 in Hrequest, Hothers.
  split; [done|]. split; [done|]. split.
  { rewrite Hothers by apply critique_path_not_request.
    by rewrite Hfiles1, lookup_insert_eq. }
  split; [done|]. split; [unfold stored_phase; by rewrite Hst2|].
  split; [|done]. unfold stored_count. rewrite Hst2.
  unfold iterations_get in *. exact Hcount1.
Qed.

(** X25. A chapter goes through the whole cycle: from phase [WRITING],
    with no write failing, [write_chapter], [finalize_chapter],
    [critique_chapter] and [approve_chapter] on the same chapter all report
    success; the phase is [WRITE_CRITIQUE] after the second call; the
    critique count of the chapter has grown by one; and at the end the
    chapter is on both chapter lists, the phase is [COMPLETE] when the
    approved chapters have reached [total_chapters] and [WRITING]
    otherwise, and the snapshot agrees with the state. *)
Theorem chapter_cycle
    (w : World) (st : NovelState) (n : Z) (content notes critique approval : string) :
  folder_truthy (active_project_folder w) = true ->
  state w = Some st ->
  phase st = WRITING ->
  (forall path, io_fault w path = false) ->
  save_script w = [] ->
  let written := WriteChapterTool.execute n content w in
  let finalized := FinalizeChapterTool.execute n notes (snd written) in
  let critiqued := CritiqueChapterTool.execute n critique (snd finalized) in
  let approved := ApproveChapterTool.execute n approval (snd critiqued) in
  succeeded (fst written) = true
  /\ succeeded (fst finalized) = true
  /\ succeeded (fst critiqued) = true
  /\ succeeded (fst approved) = true
  /\ stored_phase (snd finalized) = Some WRITE_CRITIQUE
  /\ stored_count (snd critiqued) n = stored_count w n + 1
  /\ exists st',
       state (snd approved) = Some st'
       /\ saved (snd approved) = Some st'
       /\ n ∈ chapters_completed st'
       /\ n ∈ chapters_approved st'
       /\ phase st'
          = if (total_chapters st <=? Z.of_nat (length (chapters_approved st')))%Z
            then COMPLETE else WRITING.
Proof.
  intros Hfolder Hst Hphase Hio Hsave. cbv zeta.
  destruct (write_chapter_ok w n content Hfolder (Hio _) (Hio _)) as (d1 & -> & Hok1).
  cbn [fst snd].
  match goal with |- context [FinalizeChapterTool.execute n notes ?w1] =>
    destruct (finalize_chapter_found w1 st n notes) as (d2 & -> & Hok2 & _);
    [exact Hfolder
    |apply (exists_at_file _ _ (WriteChapterTool.chapter_text n content));
     simpl; by rewrite lookup_insert_eq
    |exact Hst|exact Hphase|exact Hsave|]
  end.
  cbn [fst snd].
  set (st2 := set_current_chapter n (set_phase WRITE_CRITIQUE st)).
  match goal with |- context [CritiqueChapterTool.execute n critique ?w2] =>
    destruct (critique_chapter_ok w2 st2 n critique)
      as (Hok3 & Hactive3 & Hfault3 & Hsave3 & Hst3 & Hsaved3 & _);
    [exact Hfolder|reflexivity|exact Hio|reflexivity|];
    set (w3 := snd (CritiqueChapterTool.execute n critique w2)) in *
  end.
  set (st3 := set_chapter_critique_iterations
                (<[ n := iterations_get st2 n + 1 ]> (chapter_critique_iterations st2)) st2)
    in *.
  destruct (approve_chapter_ok w3 st3 n approval) as (Hok4 & Hst4 & Hsaved4).
  { by rewrite Hactive3. }
  { exact Hst3. }
  { reflexivity. }
  { by rewrite Hfault3. }
  { exact Hsave3. }
  split; [done|]. split; [done|]. split; [done|]. split; [done|].
  split; [done|]. split.
  { unfold stored_count. rewrite Hst3, Hst. unfold iterations_get. subst st3. simpl.
    by rewrite lookup_insert_eq. }
  rewrite Hsaved4, Hst4. eexists. split; [reflexivity|]. split; [reflexivity|].
  cbn [set_chapters_approved set_chapters_completed chapters_approved chapters_completed
       total_chapters] in *.
  destruct (total_chapters st3 <=? _)%Z eqn:Htotal; simpl.
  all: split; [apply append_if_absent_elem|].
  all: split; [apply append_if_absent_elem|].
  all: simpl in Htotal; by rewrite Htotal.
Qed.

(** X26. No handler puts a chapter twice on a chapter list: when neither
    [chapters_completed] nor [chapters_approved] has a duplicate before a
    call, neither has one after it, whatever the call and its outcome. *)
Theorem chapter_lists_without_duplicates (c : ToolCall) (w : World) :
  (forall st, state w = Some st ->
     NoDup (chapters_completed st) /\ NoDup (chapters_approved st)) ->
  forall st', state (snd (execute c w)) = Some st' ->
    NoDup (chapters_completed st') /\ NoDup (chapters_approved st').
Proof.
  assert (Hadd : forall x (l : list Z), NoDup l -> NoDup (append_if_absent x l)).
  { intros x l Hl. unfold append_if_absent, contains. case_bool_decide; [done|].
    apply NoDup_app. split; [done|]. split; [|apply NoDup_singleton].
    intros y Hy ->%list_elem_of_singleton. done. }
  assert (Hlists : forall w1 w2 : World,
            chapter_lists w2 = chapter_lists w1 ->
            (forall st, state w1 = Some st ->
               NoDup (chapters_completed st) /\ NoDup (chapters_approved st)) ->
            forall st', state w2 = Some st' ->
              NoDup (chapters_completed st') /\ NoDup (chapters_approved st')).
  { intros w1 w2 Heq Hbefore st' Hst'. unfold chapter_lists in Heq.
    rewrite Hst' in Heq. destruct (state w1) as [st1|]; [|done].
    simpl in Heq. injection Heq as -> ->. by apply Hbefore. }
  intros Hbefore.
  destruct (is_approve_chapter c) eqn:Hc.
  - destruct c; try discriminate Hc. simpl.
    destruct (approve_chapter_lists chapter_number approval_notes w)
      as [Hsame|(st & Hst & Hnew)].
    + by apply (Hlists w).
    + intros st' Hst'. unfold chapter_lists in Hnew. rewrite Hst' in Hnew.
      simpl in Hnew. injection Hnew as -> ->.
      destruct (Hbefore st Hst). split; by apply Hadd.
  - apply (Hlists w); [|done]. by apply execute_chapter_lists.
Qed.

End MoreTools.

(** ** The further tools on the sample worlds *)

Lemma no_project_folder_no_effect_witness :
  execute (approve_chapter 1 "ok") idle_world = (Ok no_project_folder, idle_world)
  /\ WriteChapterTool.execute (U := Project.ascii_only) 1 "Once upon a time" idle_world
     = (Ok no_project_folder, idle_world).
Proof.
  destruct (no_project_folder_no_effect (U := Project.ascii_only) idle_world eq_refl) as (Hcalls & Hwrite & _).
  split; [exact (Hcalls (approve_chapter 1 "ok"))|exact (Hwrite 1 "Once upon a time")].
Defined.


Lemma finalize_chapter_needs_the_file_witness :
  succeeded (fst (FinalizeChapterTool.execute 2 "done" writing_world)) = false
  /\ snd (FinalizeChapterTool.execute 2 "done" writing_world) = writing_world
  /\ stored_phase
       (snd (FinalizeChapterTool.execute 2 "done"
               (snd (WriteChapterTool.execute (U := Project.ascii_only) 2
                       "The storm broke at dawn." writing_world))))
     = Some WRITE_CRITIQUE.
Proof.
  destruct (finalize_chapter_needs_the_file (U := Project.ascii_only) writing_world
              (set_phase WRITING sample_state) 2 "The storm broke at dawn." "done"
              eq_refl eq_refl eq_refl eq_refl eq_refl eq_refl eq_refl)
    as (Hmissing & _ & _ & Hstate & _).
  rewrite Hmissing. split; [reflexivity|]. split; [reflexivity|].
  unfold stored_phase. rewrite Hstate. reflexivity.
Defined.

Lemma write_file_other_modes_keep_state_witness :
  state (snd (WriteFileTool.execute "notes" "plot" "append" sample_world)) = state sample_world
  /\ snd (WriteFileTool.execute "notes" "plot" "replace" sample_world) = sample_world.
Proof.
  destruct (write_file_other_modes_keep_state sample_world
              "notes" "plot" "append" ltac:(discriminate)) as (Hstate & _).
  destruct (write_file_other_modes_keep_state sample_world
              "notes" "plot" "replace" ltac:(discriminate)) as (_ & _ & _ & Hother).
  destruct (Hother ltac:(discriminate) ltac:(discriminate)) as [Hsame _].
  split; [exact Hstate|exact Hsame].
Defined.

Lemma create_then_append_concatenates_witness :
  files (snd (WriteFileTool.execute "notes" " thickens" "append"
                (snd (WriteFileTool.execute "notes" "The plot" "create" sample_world))))
    !! "output/novel/notes.md"
  = Some "The plot thickens".
Proof.
  destruct (create_then_append_concatenates sample_world
              "notes" "The plot" " thickens" "again" eq_refl eq_refl eq_refl eq_refl)
    as (_ & _ & Hfile & _).
  exact Hfile.
Defined.

Lemma create_project_activates_witness :
  active_project_folder
    (snd (CreateProjectTool.execute (U := Project.ascii_only) "" "My Novel!" idle_world))
  = Some "output/My_Novel".
Proof.
  destruct (create_project_activates (U := Project.ascii_only) idle_world "" "My Novel!"
              eq_refl eq_refl eq_refl eq_refl eq_refl) as (_ & Hactive & _).
  exact Hactive.
Defined.

Lemma create_project_failure_keeps_switch_witness :
  succeeded (fst (CreateProjectTool.execute (U := Project.ascii_only) "" "draft"
                    no_planning_world)) = false
  /\ active_project_folder
       (snd (CreateProjectTool.execute (U := Project.ascii_only) "" "draft"
               no_planning_world))
     = Some "output/draft".
Proof.
  destruct (create_project_failure_keeps_switch (U := Project.ascii_only) no_planning_world
              "" "draft" eq_refl) as [Hplanning _].
  destruct (Hplanning eq_refl eq_refl eq_refl) as (Hfail & Hactive & _).
  split; [exact Hfail|exact Hactive].
Defined.

Lemma critique_versions_kept_witness :
  stored_count
    (snd (CritiqueChapterTool.execute 1 "Tighter."
            (snd (CritiqueChapterTool.execute 1 "Too slow." sample_world)))) 1
  = 2.
Proof.
  destruct (critique_versions_kept sample_world sample_state 1
              "Too slow." "Tighter." eq_refl eq_refl eq_refl eq_refl eq_refl)
    as (_ & _ & _ & Hcount).
  exact Hcount.
Defined.

Lemma revision_request_matches_critique_witness :
  stored_phase
    (snd (RequestRevisionTool.execute 1 "Tighten the middle."
            (snd (CritiqueChapterTool.execute 1 "Too slow." sample_world))))
  = Some WRITING
  /\ is_Some
       (files
          (snd (RequestRevisionTool.execute 1 "Tighten the middle."
                  (snd (CritiqueChapterTool.execute 1 "Too slow." sample_world))))
          !! "output/novel/critiques/chapter_01_revision_request_v1.md").
Proof.
  destruct (revision_request_matches_critique sample_world sample_state 1
              "Too slow." "Tighten the middle."
              eq_refl eq_refl eq_refl eq_refl (fun _ => eq_refl) eq_refl)
    as (_ & _ & _ & Hrequest & Hphase & _).
  split; [exact Hphase|exact Hrequest].
Defined.

Lemma chapter_cycle_witness :
  succeeded (fst (WriteChapterTool.execute (U := Project.ascii_only) 1
                    "The storm broke at dawn." writing_world)) = true
  /\ stored_phase
       (snd (FinalizeChapterTool.execute 1 "done"
               (snd (WriteChapterTool.execute (U := Project.ascii_only) 1
                       "The storm broke at dawn." writing_world))))
     = Some WRITE_CRITIQUE.
Proof.
  destruct (chapter_cycle (U := Project.ascii_only) writing_world
              (set_phase WRITING sample_state) 1
              "The storm broke at dawn." "done" "Good." "Approved."
              eq_refl eq_refl eq_refl (fun _ => eq_refl) eq_refl)
    as (Hwritten & _ & _ & _ & Hphase & _).
  split; [exact Hwritten|exact Hphase].
Defined.

Lemma chapter_lists_without_duplicates_witness :
  from_option
    (fun st' => NoDup (chapters_completed st') /\ NoDup (chapters_approved st')) True
    (state (snd (execute (approve_chapter 1 "Approved.") approved_once))).
Proof.
  destruct (state (snd (execute (approve_chapter 1 "Approved.") approved_once)))
    as [st'|] eqn:Hstate; [|exact I].
  simpl.
  apply (chapter_lists_without_duplicates (approve_chapter 1 "Approved.") approved_once);
    [|exact Hstate].
  intros st [= <-]. split; apply NoDup_singleton.
Defined.

(** ** Validation of the configuration and of writing samples *)

Section Validation.

Context {U : Project.UnicodeDB}.

Import Config WritingSamples.

Local Open Scope list_scope.
Local Open Scope nat_scope.

Lemma strip_length (p : N -> bool) (s : list N) :
  length (Project.strip p s) <= length s.
Proof.
  unfold Project.strip.
  destruct (lstrip_suffix p s) as [k Hk].
  destruct (rstrip_prefix p (Project.lstrip p s)) as [k' Hk'].
  rewrite Hk at 2. rewrite Hk' at 2. rewrite !length_app. lia.
Qed.

Lemma lstrip_all (p : N -> bool) (s : list N) :
  Forall (fun c => p c = true) s -> Project.lstrip p s = [].
Proof.
  induction 1 as [|c s Hc _ IH]; [done|]. simpl. by rewrite Hc.
Qed.

Lemma strip_all (p : N -> bool) (s : list N) :
  Forall (fun c => p c = true) s -> Project.strip p s = [].
Proof.
  intros Hs. unfold Project.strip, Project.rstrip. by rewrite (lstrip_all p s Hs).
Qed.

(** X19. [validate_sample_text] accepts a text exactly when at least 100
    characters are left after stripping white space from its ends, the two
    earlier tests being implied by the last. It is stricter than the
    validator of [custom_text] in the configuration: every text it accepts
    passes that validator, and a text of 100 or more characters that are all
    white space passes the validator and is rejected here. *)
Theorem validate_sample_text_substance (text : list N) :
  (validate_sample_text text = true <->
   100 <= length (Project.strip Project.isspace text))
  /\ (validate_sample_text text = true ->
      validate_custom_text (Some text) = Returns (Some text))
  /\ (100 <= length text ->
      Forall (fun c => Project.isspace c = true) text ->
      validate_custom_text (Some text) = Returns (Some text)
      /\ validate_sample_text text = false).
Proof.
  pose proof (strip_length Project.isspace text) as Hstrip.
  assert (Hiff : validate_sample_text text = true <->
                 100 <= length (Project.strip Project.isspace text)).
  { unfold validate_sample_text. destruct text as [|c text].
    - simpl. split; [done|]. unfold Project.strip, Project.rstrip. simpl. lia.
    - destruct (length (c :: text) <? 100) eqn:Hlen.
      + apply Nat.ltb_lt in Hlen. split; [done|lia].
      + destruct (length (Project.strip Project.isspace (c :: text)) <? 100) eqn:Hsub.
        * apply Nat.ltb_lt in Hsub. split; [done|lia].
        * apply Nat.ltb_ge in Hsub. done. }
  assert (Hpass : 100 <= length text ->
                  validate_custom_text (Some text) = Returns (Some text)).
  { intros Hlen. unfold validate_custom_text.
    replace (length (default [] (Some text)) <? 100) with false
      by (symmetry; apply Nat.ltb_ge; exact Hlen).
    by rewrite andb_false_r. }
  split; [exact Hiff|]. split.
  - intros Hok%Hiff. apply Hpass. lia.
  - intros Hlen Hspace. split; [by apply Hpass|].
    apply not_true_is_false. intros Hok%Hiff.
    rewrite (strip_all _ _ Hspace) in Hok. simpl in Hok. lia.
Qed.

(** X20. [validate_config] returns [True] or raises, never [False]; it
    returns [True] exactly when the API key and the project name are not
    empty and, for an enabled writing sample, the sample id is not empty
    and a ["custom"] sample comes with a non-empty text. Together with the
    field validator: in an accepted configuration with an enabled
    ["custom"] sample whose text passes the validator, the text has at
    least 100 characters. *)
Theorem validate_config_accepts (config : NovelConfig) :
  let sample := writing_sample config in
  (validate_config config = Returns true <->
   api_key config <> ""%string /\ project_name config <> ""%string
   /\ (enabled sample = true ->
       id_truthy (sample_id sample) = true
       /\ (sample_id sample = Some "custom"%string ->
           text_truthy (custom_text sample) = true)))
  /\ validate_config config <> Returns false
  /\ (validate_config config = Returns true ->
      enabled sample = true ->
      sample_id sample = Some "custom"%string ->
      validate_custom_text (custom_text sample) = Returns (custom_text sample) ->
      exists text, custom_text sample = Some text /\ 100 <= length text).
Proof.
  cbv zeta.
  assert (Hiff : validate_config config = Returns true <->
    api_key config <> ""%string /\ project_name config <> ""%string
    /\ (enabled (writing_sample config) = true ->
        id_truthy (sample_id (writing_sample config)) = true
        /\ (sample_id (writing_sample config) = Some "custom"%string ->
            text_truthy (custom_text (writing_sample config)) = true))).
  { unfold validate_config, Py.truthy.
    destruct (String.eqb_spec (api_key config) "") as [Hkey|Hkey]; simpl.
    { split; [done|]. by intros [? _]. }
    destruct (String.eqb_spec (project_name config) "") as [Hname|Hname]; simpl.
    { split; [done|]. by intros (_ & ? & _). }
    destruct (enabled (writing_sample config)); [|by split].
    destruct (id_truthy (sample_id (writing_sample config))); simpl.
    2:{ split; [done|]. intros (_ & _ & Hs). by destruct Hs. }
    case_bool_decide as Hcustom; simpl.
    - destruct (text_truthy (custom_text (writing_sample config))); simpl.
      + by split.
      + split; [done|]. intros (_ & _ & Hs). destruct Hs as [_ Hs]; [done|].
        by specialize (Hs Hcustom).
    - split; [|done]. intros _. repeat split; try done. }
  split; [exact Hiff|]. split.
  - unfold validate_config.
    repeat match goal with |- context [if ?b then _ else _] => destruct b end; done.
  - intros Hok Henabled Hcustom Hfield. apply Hiff in Hok as (_ & _ & Hsample).
    destruct (Hsample Henabled) as [_ Htext]. specialize (Htext Hcustom).
    unfold validate_custom_text in Hfield. rewrite Htext in Hfield. simpl in Hfield.
    destruct (custom_text (writing_sample config)) as [text|]; [|done].
    exists text. split; [done|]. simpl in Hfield.
    destruct (length text <? 100) eqn:Hlen; [done|]. by apply Nat.ltb_ge in Hlen.
Qed.

End Validation.

(** ** The store of writing samples *)

Section Samples.

Import WritingSamples.

Local Open Scope list_scope.

Lemma pydict_get_set_eq {V} k (v : V) d : PyDict.get k (PyDict.set k v d) = Some v.
Proof.
  induction d as [|[k' v'] d IH]; simpl.
  - by rewrite String.eqb_refl.
  - destruct (String.eqb k k') eqn:Hk; simpl; [by rewrite String.eqb_refl|].
    by rewrite Hk.
Qed.

Lemma pydict_get_set_ne {V} k k' (v : V) d :
  k' <> k -> PyDict.get k' (PyDict.set k v d) = PyDict.get k' d.
Proof.
  intros Hne. induction d as [|[k0 v0] d IH]; simpl.
  - by apply String.eqb_neq in Hne as ->.
  - destruct (String.eqb k k0) eqn:Hk; simpl.
    + apply String.eqb_eq in Hk as <-. by apply String.eqb_neq in Hne as ->.
    + by rewrite IH.
Qed.

Lemma pydict_set_length {V} k (v : V) d :
  length (PyDict.set k v d) = if PyDict.mem k d then length d else S (length d).
Proof.
  unfold PyDict.mem. induction d as [|[k0 v0] d IH]; simpl; [done|].
  destruct (String.eqb k k0); simpl; [done|]. rewrite IH.
  by destruct (PyDict.get k d).
Qed.

(** X21. A sample saved by [save_custom_sample] is what
    [get_writing_sample] returns for its id, the samples under other ids
    are as before, saving under an id that is taken replaces the entry
    rather than adding one, and [list_available_samples] has one entry for
    each stored sample, none of which carries the text. *)
Theorem save_then_get_sample (samples : Samples)
    (sample_id name sample_text description source : string) :
  let stored := save_custom_sample sample_id name sample_text description source samples in
  get_writing_sample sample_id stored = Some sample_text
  /\ (forall other, other <> sample_id ->
        get_writing_sample other stored = get_writing_sample other samples)
  /\ length (list_available_samples stored)
     = (if PyDict.mem sample_id samples then length samples else S (length samples))
  /\ Forall (fun entry => PyDict.get "sample" entry = None) (list_available_samples stored).
Proof.
  cbv zeta. unfold save_custom_sample, get_writing_sample. split; [|split; [|split]].
  - by rewrite pydict_get_set_eq.
  - intros other Hne. by rewrite pydict_get_set_ne.
  - unfold list_available_samples. rewrite length_map. apply pydict_set_length.
  - unfold list_available_samples. apply Forall_map, Forall_forall.
    by intros [id data] _.
Qed.

End Samples.

(** ** The registry of tools and the message history of an agent *)

Section Agents.

Import ToolRegistry BaseAgent.

Local Open Scope list_scope.

Context {V R : Type}.

Implicit Types (tools : list (BaseTool (list (string * V)) R)).

Lemma register_all_lookup tools (registry : Tools) tool_name :
  fold_left (fun registry tool => register tool registry) tools registry !! tool_name
  = match last (List.filter (fun tool => String.eqb (name tool) tool_name) tools) with
    | Some tool => Some tool
    | None => registry !! tool_name
    end.
Proof.
  revert registry. induction tools as [|tool tools IH]; intros registry; [done|].
  simpl. rewrite IH. unfold register, Tools.
  destruct (String.eqb (name tool) tool_name) eqn:Hname.
  - apply String.eqb_eq in Hname. rewrite Hname, lookup_insert_eq.
    destruct (List.filter _ tools) as [|found rest]; [done|].
    change (last (tool :: found :: rest)) with (last (found :: rest)).
    destruct (last (found :: rest)) eqn:Hlast; [done|].
    by apply last_None in Hlast.
  - apply String.eqb_neq in Hname. by rewrite lookup_insert_ne.
Qed.

(** X22. [execute_tool] of an agent runs, among the tools the agent
    registered, the last one that has the name asked for, earlier tools of
    that name being shadowed; the tool gets the agent's state as ["state"]
    unless the caller passed one; and when no tool has the name the call
    raises [KeyError] and runs nothing. *)
Theorem execute_tool_runs_last_registered tools (agent_state : V) (tool_name : string)
    (kwargs : list (string * V)) :
  BaseAgent.execute_tool agent_state (_register_tools tools) tool_name kwargs
  = match last (List.filter (fun tool => String.eqb (name tool) tool_name) tools) with
    | Some tool =>
        Found (ToolRegistry.execute_tool tool
                 (if PyDict.mem "state" kwargs then kwargs
                  else PyDict.set "state" agent_state kwargs))
    | None => KeyError ("Tool not found: " +:+ tool_name)
    end.
Proof.
  unfold BaseAgent.execute_tool, ToolRegistry.execute, get, _register_tools.
  rewrite register_all_lookup. unfold Tools. rewrite lookup_empty.
  destruct (last _); by destruct (PyDict.mem "state" kwargs).
Qed.

End Agents.

Section History.

Import BaseAgent.

Local Open Scope list_scope.
Local Open Scope nat_scope.

Variables (system_prompt : string) (dumps : Dict -> string).

Lemma zip_length {A B} (l : list A) (k : list B) :
  length (zip l k) = Nat.min (length l) (length k).
Proof.
  revert k. induction l as [|a l IH]; intros [|b k]; simpl; [done..|].
  by rewrite IH.
Qed.

Lemma add_tool_results_app results tool_calls history :
  exists new,
    add_tool_results dumps results tool_calls history = history ++ new
    /\ length new = Nat.min (length results) (length tool_calls)
    /\ Forall (fun message => role message = "tool"%string) new.
Proof.
  unfold add_tool_results. rewrite Nat.min_comm, <- zip_length.
  generalize (zip tool_calls results). intros pairs. revert history.
  induction pairs as [|[tool_call result] pairs IH]; intros history; simpl.
  - exists []. by rewrite app_nil_r.
  - destruct (IH (history ++
        [{| role := "tool"; content := Some (dumps result); tool_calls := None;
            reasoning_content := None; tool_call_id := Some (call_id tool_call);
            tool_name := Some (function_name tool_call) |}])) as (new & -> & Hlen & Hrole).
    eexists (_ :: new). rewrite <- app_assoc. split; [reflexivity|].
    split; [simpl; by rewrite Hlen|]. by constructor.
Qed.

Lemma add_app call history :
  exists new,
    add system_prompt dumps call history = history ++ new /\ length new = added call.
Proof.
  destruct call as [content|content|content calls reasoning|results calls|user_prompt]; simpl.
  - by eexists.
  - by eexists.
  - by eexists.
  - destruct (add_tool_results_app results calls history) as (new & Hnew & Hlen & _).
    by exists new.
  - unfold initialize_conversation, add_user_message, add_system_message.
    destruct (str_truthy user_prompt).
    + rewrite <- app_assoc. by eexists.
    + by eexists.
Qed.

(** X23. The message history of an agent only grows by the adding
    methods: after any sequence of [add_system_message],
    [add_user_message], [add_assistant_message], [add_tool_results] and
    [initialize_conversation] calls the earlier history is the beginning of
    the new one, and [get_message_count] has grown by one for each message
    call, by one or two for [initialize_conversation] (two when the user
    prompt is not empty), and for [add_tool_results] by the shorter of the
    two lengths, results without a tool call, or calls without a result,
    being dropped silently. *)
Theorem history_only_grows (calls : list Adding) (history : list Message) :
  let after := fold_left (fun history call => add system_prompt dumps call history)
                 calls history in
  (exists new, after = history ++ new)
  /\ get_message_count after = get_message_count history + sum_list (List.map added calls).
Proof.
  cbv zeta. split.
  - revert history. induction calls as [|call calls IH]; intros history; simpl.
    + exists []. by rewrite app_nil_r.
    + destruct (add_app call history) as (new & -> & _).
      destruct (IH (history ++ new)) as (new' & ->).
      exists (new ++ new'). by rewrite app_assoc.
  - unfold get_message_count. revert history.
    induction calls as [|call calls IH]; intros history; simpl; [lia|].
    rewrite IH. destruct (add_app call history) as (new & -> & Hlen).
    rewrite length_app. lia.
Qed.

End History.
